(** * The [ln] utility of somnisoft/link (src/ln.c): a shallow embedding.

    The C functions of [ln.c] are embedded one by one, under their own
    names.  Calls into the operating system ([stat], [lstat], [unlink],
    [symlink], [linkat], [link], [strdup], [malloc]) are answered by an
    arbitrary environment [OS]; every call and every diagnostic printed
    through [ln_warn] is recorded in a trace, so that statements such as
    "no removal is attempted" are statements about that trace.

    The production build is modelled (the macro [TEST] undefined): the
    fault-injection seam of [si_add_size_t] is absent, [malloc] and
    [strdup] are the C library's. *)

From Stdlib Require Import ZArith List String Ascii Bool Lia.
Import ListNotations.

Local Open Scope string_scope.
Local Open Scope Z_scope.

(** ** Constants of the C library and of ln.c *)

(** <stdlib.h> *)
Definition EXIT_SUCCESS : Z := 0.
Definition EXIT_FAILURE : Z := 1.

(** <fcntl.h>, <sys/stat.h>: the values every Linux libc gives them. *)
Definition AT_FDCWD : Z := -100.
Definition AT_SYMLINK_FOLLOW : Z := 1024.
Definition S_IFMT : Z := 61440.   (* 0170000 *)
Definition S_IFDIR : Z := 16384.  (* 0040000 *)
Definition S_IFLNK : Z := 40960.  (* 0120000 *)

Definition S_ISDIR (m : Z) : bool := Z.land m S_IFMT =? S_IFDIR.
Definition S_ISLNK (m : Z) : bool := Z.land m S_IFMT =? S_IFLNK.

(** ln.c, lines 46, 58, 67. *)
Definition LN_FLAG_REMOVE_DEST : Z := Z.shiftl 1 0.
Definition LN_FLAG_FOLLOW_SYMBOLIC : Z := Z.shiftl 1 1.
Definition LN_FLAG_SYMBOLIC : Z := Z.shiftl 1 2.

(** [flags & FLAG] used as a C truth value. *)
Definition flag_set (flags flag : Z) : bool := negb (Z.land flags flag =? 0).

(** [struct ln_ctx]. *)
Record ln_ctx : Type := mk_ln_ctx {
  status_code : Z;
  flags : Z
}.

(** The fields of [struct stat] that ln.c reads. *)
Record stat_t : Type := mk_stat {
  st_dev : Z;
  st_ino : Z;
  st_mode : Z
}.

(** ** [size_t] arithmetic *)

Section SizeT.

(** Width of [size_t] in bits; C guarantees at least 16. *)
Variable size_bits : Z.

Definition SIZE_MAX : Z := 2 ^ size_bits - 1.

(** Reduction of a mathematical integer to its [size_t] value. *)
Definition to_size_t (x : Z) : Z := x mod 2 ^ size_bits.

(** [si_add_size_t(a, b, &result)]: the pair is (return value, [*result]). *)
Definition si_add_size_t (a b : Z) : bool * Z :=
  let result := to_size_t (a + b) in
  let wrap := if result <? a then true else false in
  (negb wrap, result).

End SizeT.

(** ** C strings *)

(** A C string is the list of its characters before the terminating NUL. *)
Definition NUL : ascii := Ascii.zero.

Definition strlen (s : string) : Z := Z.of_nat (String.length s).

(** The object behind a [const char *] holding [s] has [strlen s + 1]
    bytes; [char_at s i] is the byte [s[i]] when that read is inside the
    object and [None] when it is not. *)
Definition char_at (s : string) (i : Z) : option ascii :=
  if (0 <=? i) && (i <? strlen s) then String.get (Z.to_nat i) s
  else if i =? strlen s then Some NUL
  else None.

Definition is_slash (c : ascii) : bool := Ascii.eqb c "/"%char.

(** The last character of a string, if it has one. *)
Fixpoint last_char (s : string) : option ascii :=
  match s with
  | EmptyString => None
  | String c EmptyString => Some c
  | String _ s' => last_char s'
  end.

(** The target directory already ends in '/'. *)
Definition ends_in_slash (s : string) : bool :=
  match last_char s with
  | Some c => is_slash c
  | None => false
  end.

(** *** [basename] of <libgen.h> (POSIX) *)

Fixpoint drop_slashes (l : list ascii) : list ascii :=
  match l with
  | c :: l' => if is_slash c then drop_slashes l' else l
  | [] => []
  end.

Fixpoint take_component (l : list ascii) : list ascii :=
  match l with
  | c :: l' => if is_slash c then [] else c :: take_component l'
  | [] => []
  end.

(** POSIX: an empty path gives ".", a path of slashes only gives "/",
    otherwise trailing slashes are removed and the text after the last
    remaining slash is returned. *)
Definition basename (path : string) : string :=
  match path with
  | EmptyString => "."
  | _ =>
    match drop_slashes (rev (list_ascii_of_string path)) with
    | [] => "/"
    | r => string_of_list_ascii (rev (take_component r))
    end
  end.

(** ** [getopt] of <unistd.h>, for an option string without ':'

    [ln_main] hands its [argv] to [getopt], which documents it [in,out]
    (line 341): the GNU C library reads the options wherever they stand
    before a "--", and moves the arguments that are not options behind
    them, so that after the loop [argv + optind] holds the operands in
    their order.  With POSIXLY_CORRECT in the environment, and in a C
    library that scans as POSIX describes, the scan ends instead at the
    first argument that is not an option and nothing is moved.  The
    message [getopt] itself prints for an unknown option is not part of
    the trace. *)

(** How [getopt] treats an argument that is not an option: the scan ends
    there, or the argument is passed over and moved behind the options
    (the default of the GNU C library). *)
Inductive ordering : Type :=
| REQUIRE_ORDER
| PERMUTE.

Fixpoint string_mem (c : ascii) (s : string) : bool :=
  match s with
  | EmptyString => false
  | String c' s' => Ascii.eqb c c' || string_mem c s'
  end.

(** What [getopt] returns for one option character. *)
Definition getopt_char (optstring : string) (c : ascii) : ascii :=
  if string_mem c optstring then c else "?"%char.

(** The option characters after the '-' of one argument, in order. *)
Fixpoint getopt_cluster (optstring : string) (cs : string) : list ascii :=
  match cs with
  | EmptyString => []
  | String c cs' => getopt_char optstring c :: getopt_cluster optstring cs'
  end.

(** An argument [getopt] reads as options: [argv[optind][0] == '-'] and
    [argv[optind][1] != '\0'].  ("--" is one in this sense; [getopt_scan]
    looks for it first.) *)
Definition is_option_arg (a : string) : bool :=
  match a with
  | String "-" (String _ _) => true
  | _ => false
  end.

(** The characters of an option argument: what is behind its '-'. *)
Definition nextchar (a : string) : string :=
  match a with
  | String _ cs => cs
  | EmptyString => EmptyString
  end.

(** All the calls of [getopt] over the arguments from [argv[1]] on: the
    values returned before the final -1, the arguments read as options
    (with the "--" that ended the scan, if one did) and the arguments left
    as operands, each in their order.  "--" ends the scan and everything
    behind it is an operand; an argument that is not an option ("-" is
    none) ends the scan under [REQUIRE_ORDER] and is passed over under
    [PERMUTE]. *)
Fixpoint getopt_scan (ord : ordering) (optstring : string)
    (args : list string) : list ascii * list string * list string :=
  match args with
  | [] => ([], [], [])
  | a :: args' =>
      if String.eqb a "--" then ([], [a], args')
      else if is_option_arg a then
        let '(rs, opt_args, operands) := getopt_scan ord optstring args' in
        ((getopt_cluster optstring (nextchar a) ++ rs)%list,
         a :: opt_args, operands)
      else
        match ord with
        | REQUIRE_ORDER => ([], [], args)
        | PERMUTE =>
            let '(rs, opt_args, operands) := getopt_scan ord optstring args' in
            (rs, opt_args, a :: operands)
        end
  end.

(** The loop [while((c = getopt(...)) != -1)]: the values returned, the
    final [optind], and [argv] as [getopt] leaves it, options first.
    ([getopt] returns -1 at once when [argc] is 0, and [optind] keeps its
    initial value 1.) *)
Definition getopt_all (ord : ordering) (optstring : string)
    (argv : list string) : list ascii * nat * list string :=
  match argv with
  | [] => ([], 1%nat, [])
  | prog :: args =>
      let '(rs, opt_args, operands) := getopt_scan ord optstring args in
      (rs, S (List.length opt_args), prog :: (opt_args ++ operands)%list)
  end.

(** ** The environment *)

(** The operating system and the allocator, as the program sees them: every
    call takes the current state of the world and answers with a result
    and the next state.  [stat] and [lstat] answer [Some sb] when they
    return 0 (with [sb] the buffer they filled) and [None] otherwise; the
    link and unlink calls answer with their return code; the allocation
    calls answer [true] when they return a non-null pointer. *)
Record OS : Type := mk_OS {
  world : Type;
  os_stat : string -> world -> option stat_t * world;
  os_lstat : string -> world -> option stat_t * world;
  os_unlink : string -> world -> Z * world;
  os_symlink : string -> string -> world -> Z * world;
  os_linkat : Z -> string -> Z -> string -> Z -> world -> Z * world;
  os_link : string -> string -> world -> Z * world;
  os_strdup : string -> world -> bool * world;
  os_malloc : Z -> world -> bool * world
}.

(** What a run leaves behind: the calls made, each with its answer, and the
    diagnostics printed ([EvWarn errno_msg fmt args] is one call of
    [vwarn] or [vwarnx] with format [fmt] and arguments [args]). *)
Inductive event : Type :=
| EvStat (path : string) (r : option stat_t)
| EvLstat (path : string) (r : option stat_t)
| EvUnlink (path : string) (rc : Z)
| EvSymlink (path1 path2 : string) (rc : Z)
| EvLinkat (fd1 : Z) (path1 : string) (fd2 : Z) (path2 : string) (flag : Z) (rc : Z)
| EvLink (path1 path2 : string) (rc : Z)
| EvStrdup (s : string) (ok : bool)
| EvMalloc (size : Z) (ok : bool)
| EvWarn (errno_msg : bool) (fmt : string) (args : list string).

(** A read outside the object a pointer points into has no defined
    behaviour; the run stops there. *)
Inductive fault : Type :=
| OutOfBoundsRead (s : string) (index : Z).

Inductive outcome (A : Type) : Type :=
| Ok (a : A)
| Fault (f : fault).

Arguments Ok {A} a.
Arguments Fault {A} f.

Section Ln.

Variable size_bits : Z.
Variable os : OS.

(** Computations of ln.c: from a world to an outcome, the next world and
    the events emitted on the way. *)
Definition M (A : Type) : Type := world os -> outcome A * world os * list event.

Definition ret {A} (a : A) : M A := fun w => (Ok a, w, []).

Definition bind {A B} (m : M A) (k : A -> M B) : M B :=
  fun w =>
    match m w with
    | (Ok a, w1, t1) =>
        match k a w1 with
        | (r, w2, t2) => (r, w2, (t1 ++ t2)%list)
        end
    | (Fault f, w1, t1) => (Fault f, w1, t1)
    end.

Notation "x <- m ;; k" := (bind m (fun x => k))
  (at level 61, m at next level, right associativity).
Notation "' pat <- m ;; k" := (bind m (fun x => match x with pat => k end))
  (at level 61, pat pattern, m at next level, right associativity).

Definition sys_stat (path : string) : M (option stat_t) :=
  fun w => let (r, w') := os_stat os path w in (Ok r, w', [EvStat path r]).

Definition sys_lstat (path : string) : M (option stat_t) :=
  fun w => let (r, w') := os_lstat os path w in (Ok r, w', [EvLstat path r]).

Definition sys_unlink (path : string) : M Z :=
  fun w => let (rc, w') := os_unlink os path w in (Ok rc, w', [EvUnlink path rc]).

Definition sys_symlink (path1 path2 : string) : M Z :=
  fun w => let (rc, w') := os_symlink os path1 path2 w in
           (Ok rc, w', [EvSymlink path1 path2 rc]).

Definition sys_linkat (fd1 : Z) (path1 : string) (fd2 : Z) (path2 : string)
    (flag : Z) : M Z :=
  fun w => let (rc, w') := os_linkat os fd1 path1 fd2 path2 flag w in
           (Ok rc, w', [EvLinkat fd1 path1 fd2 path2 flag rc]).

Definition sys_link (path1 path2 : string) : M Z :=
  fun w => let (rc, w') := os_link os path1 path2 w in
           (Ok rc, w', [EvLink path1 path2 rc]).

(** [strdup(s)]: the copy, or [None] for a null pointer. *)
Definition strdup (s : string) : M (option string) :=
  fun w => let (ok, w') := os_strdup os s w in
           (Ok (if ok then Some s else None), w', [EvStrdup s ok]).

(** [malloc(size)]: whether the pointer returned is non-null. *)
Definition malloc (size : Z) : M bool :=
  fun w => let (ok, w') := os_malloc os size w in (Ok ok, w', [EvMalloc size ok]).

(** The read [s[i]]. *)
Definition read_char (s : string) (i : Z) : M ascii :=
  fun w =>
    match char_at s i with
    | Some c => (Ok c, w, [])
    | None => (Fault (OutOfBoundsRead s i), w, [])
    end.

(** ** The functions of ln.c *)

(** [ln_warn] (lines 93-108): sets the status and prints. *)
Definition ln_warn (ctx : ln_ctx) (errno_msg : bool) (fmt : string)
    (args : list string) : M ln_ctx :=
  fun w => (Ok (mk_ln_ctx EXIT_FAILURE (flags ctx)), w,
            [EvWarn errno_msg fmt args]).

(** [ln_path_target_concat] (lines 152-188).  The buffer [path_concat] is
    followed as the text written into it so far: [stpcpy] appends and
    returns the end of what it wrote.  [None] is the null pointer. *)
Definition ln_path_target_concat (target_dir source_file : string)
    : M (option string) :=
  source_file_copy <- strdup source_file ;;
  match source_file_copy with
  | Some source_file_copy =>
      let bname_source_file := basename source_file_copy in
      let slen_target_dir := strlen target_dir in
      let slen_bname_source_file := strlen bname_source_file in
      let (ok1, concat_len) :=
        si_add_size_t size_bits slen_target_dir slen_bname_source_file in
      if ok1 then
        let (ok2, concat_len) := si_add_size_t size_bits concat_len 2 in
        if ok2 then
          path_concat <- malloc concat_len ;;
          if path_concat then
            let path_cpy := target_dir in
            c <- read_char target_dir (to_size_t size_bits (slen_target_dir - 1)) ;;
            let path_cpy :=
              if negb (Ascii.eqb c "/"%char) then path_cpy ++ "/" else path_cpy in
            ret (Some (path_cpy ++ bname_source_file))
          else ret None
        else ret None
      else ret None
  | None => ret None
  end.

(** [ln_same_file] (lines 200-213). *)
Definition ln_same_file (sb1 sb2 : stat_t) : bool :=
  if (st_dev sb1 =? st_dev sb2) && (st_ino sb1 =? st_ino sb2) then true
  else false.

(** [ln_remove_dest] (lines 225-252): the pair is (return value, context). *)
Definition ln_remove_dest (ctx : ln_ctx) (source_sb : stat_t)
    (path_dest : string) : M (bool * ln_ctx) :=
  dest_sb <- sys_stat path_dest ;;
  match dest_sb with
  | Some dest_sb =>
      if flag_set (flags ctx) LN_FLAG_REMOVE_DEST then
        if ln_same_file source_sb dest_sb then
          ctx <- ln_warn ctx false "source and destination same: %s"
                         [path_dest] ;;
          ret (false, ctx)
        else
          rc <- sys_unlink path_dest ;;
          if negb (rc =? 0) then
            ctx <- ln_warn ctx true "failed to unlink destination: %s"
                           [path_dest] ;;
            ret (false, ctx)
          else ret (true, ctx)
      else
        ctx <- ln_warn ctx false "destination already exists: %s"
                       [path_dest] ;;
        ret (false, ctx)
  | None => ret (true, ctx)
  end.

(** [ln_create_link] (lines 266-305). *)
Definition ln_create_link (ctx : ln_ctx) (path_source path_dest : string)
    : M ln_ctx :=
  source_sb <- sys_lstat path_source ;;
  match source_sb with
  | None => ln_warn ctx true "lstat(%s)" [path_source]
  | Some source_sb =>
      '(removed, ctx) <- ln_remove_dest ctx source_sb path_dest ;;
      if removed then
        rc <- (if flag_set (flags ctx) LN_FLAG_SYMBOLIC then
                 sys_symlink path_source path_dest
               else if S_ISLNK (st_mode source_sb) then
                 let linkat_flag :=
                   if flag_set (flags ctx) LN_FLAG_FOLLOW_SYMBOLIC
                   then AT_SYMLINK_FOLLOW else 0 in
                 sys_linkat AT_FDCWD path_source AT_FDCWD path_dest linkat_flag
               else sys_link path_source path_dest) ;;
        if negb (rc =? 0) then
          ln_warn ctx true "failed to create link: %s - %s"
                  [path_source; path_dest]
        else ret ctx
      else ret ctx
  end.

(** [ln_target_dir] (lines 315-329). *)
Definition ln_target_dir (ctx : ln_ctx) (source_file target_dir : string)
    : M ln_ctx :=
  path_dest <- ln_path_target_concat target_dir source_file ;;
  match path_dest with
  | None => ln_warn ctx true "alloc" []
  | Some path_dest => ln_create_link ctx source_file path_dest
  end.

(** The loop of lines 386-388 over [argv[0] .. argv[argc - 2]]. *)
Fixpoint ln_target_dir_loop (ctx : ln_ctx) (sources : list string)
    (target_dir : string) : M ln_ctx :=
  match sources with
  | [] => ret ctx
  | source_file :: sources' =>
      ctx <- ln_target_dir ctx source_file target_dir ;;
      ln_target_dir_loop ctx sources' target_dir
  end.

(** The body of the [switch] in [ln_main] (lines 356-372), for one value
    returned by [getopt]. *)
Definition ln_main_option (ctx : ln_ctx) (c : ascii) : ln_ctx :=
  if Ascii.eqb c "f" then
    mk_ln_ctx (status_code ctx) (Z.lor (flags ctx) LN_FLAG_REMOVE_DEST)
  else if Ascii.eqb c "L" then
    mk_ln_ctx (status_code ctx) (Z.lor (flags ctx) LN_FLAG_FOLLOW_SYMBOLIC)
  else if Ascii.eqb c "P" then
    mk_ln_ctx (status_code ctx)
              (Z.land (flags ctx) (Z.lnot LN_FLAG_FOLLOW_SYMBOLIC))
  else if Ascii.eqb c "s" then
    mk_ln_ctx (status_code ctx) (Z.lor (flags ctx) LN_FLAG_SYMBOLIC)
  else
    mk_ln_ctx EXIT_FAILURE (flags ctx).

(** [ln_main] from line 378 to line 406: the operands, [argc] and [argv]
    being what lines 374-375 made of them. *)
Definition ln_main_operands (ctx : ln_ctx) (argc : Z) (argv : list string)
    : M ln_ctx :=
  if argc <? 2 then
    ln_warn ctx false "must have >=2 file arguments" []
  else
    let is_target_dir := false in
    let target := nth (Z.to_nat (argc - 1)) argv "" in
    target_sb <- sys_stat target ;;
    '(is_target_dir, ctx) <-
      match target_sb with
      | Some target_sb =>
          if S_ISDIR (st_mode target_sb) then
            ctx <- ln_target_dir_loop ctx (firstn (Z.to_nat (argc - 1)) argv)
                                      target ;;
            ret (true, ctx)
          else if argc >? 2 then
            ctx <- ln_warn ctx false
                     "final operand must be directory if > 2 operands" [] ;;
            ret (is_target_dir, ctx)
          else ret (is_target_dir, ctx)
      | None => ret (is_target_dir, ctx)
      end ;;
    if negb is_target_dir && (status_code ctx =? EXIT_SUCCESS) then
      if negb (argc =? 2) then
        ln_warn ctx false
          "only 2 operands allowed if final operand not a directory" []
      else
        ln_create_link ctx (nth 0 argv "") (nth 1 argv "")
    else ret ctx.

(** [ln_main] up to line 375: the context is cleared, the options are
    read, and [argc] and [argv] are moved past them.  [argc] is the length
    of [argv]; [ord] is the way the C library's [getopt] scans. *)
Definition ln_main_getopt (ord : ordering) (argv : list string)
    : ln_ctx * Z * list string :=
  let argc := Z.of_nat (List.length argv) in
  let ctx := mk_ln_ctx 0 0 in
  let '(opts, optind, argv) := getopt_all ord "fLPs" argv in
  let ctx := fold_left ln_main_option opts ctx in
  let argc := argc - Z.of_nat optind in
  let argv := skipn optind argv in
  (ctx, argc, argv).

(** [ln_main] (lines 345-409). *)
Definition ln_main (ord : ordering) (argv : list string) : M Z :=
  let '(ctx, argc, argv) := ln_main_getopt ord argv in
  ctx <- (if status_code ctx =? EXIT_SUCCESS
          then ln_main_operands ctx argc argv
          else ret ctx) ;;
  ret (status_code ctx).

End Ln.

(** ** Reading traces *)

(** The three formats [ln_main] prints when it rejects the operands. *)
Definition validation_fmts : list string :=
  [ "must have >=2 file arguments";
    "final operand must be directory if > 2 operands";
    "only 2 operands allowed if final operand not a directory" ].

(** The six formats printed when a step on one operand fails: lookup
    ([ln_create_link]), composition ([ln_target_dir]), removal
    ([ln_remove_dest], three formats) and creation ([ln_create_link]). *)
Definition step_fmts : list string :=
  [ "lstat(%s)";
    "alloc";
    "source and destination same: %s";
    "failed to unlink destination: %s";
    "destination already exists: %s";
    "failed to create link: %s - %s" ].

Definition fmt_in (fmt : string) (l : list string) : bool :=
  existsb (String.eqb fmt) l.

Definition is_warn (e : event) : bool :=
  match e with EvWarn _ _ _ => true | _ => false end.

Definition is_validation_warn (e : event) : bool :=
  match e with EvWarn _ fmt _ => fmt_in fmt validation_fmts | _ => false end.

Definition is_step_warn (e : event) : bool :=
  match e with EvWarn _ fmt _ => fmt_in fmt step_fmts | _ => false end.

(** Calls that create a directory entry. *)
Definition is_link_call (e : event) : bool :=
  match e with
  | EvSymlink _ _ _ | EvLinkat _ _ _ _ _ _ | EvLink _ _ _ => true
  | _ => false
  end.

(** Calls that change the file system. *)
Definition is_mutation (e : event) : bool :=
  match e with
  | EvUnlink _ _ => true
  | _ => is_link_call e
  end.

(** A call of a step that answered with an error: a lookup of the source,
    an allocation, a removal or a creation.  ([stat] failing is no error:
    it says that the path does not exist.) *)
Definition call_failed (e : event) : bool :=
  match e with
  | EvLstat _ None => true
  | EvStrdup _ false => true
  | EvMalloc _ false => true
  | EvUnlink _ rc => negb (rc =? 0)
  | EvSymlink _ _ rc => negb (rc =? 0)
  | EvLinkat _ _ _ _ _ rc => negb (rc =? 0)
  | EvLink _ _ rc => negb (rc =? 0)
  | _ => false
  end.

(** Events that only a step on an operand emits: every call but [stat]
    (with which [ln_main] also looks at its final operand) and the six
    diagnostics of the steps. *)
Definition is_step_event (e : event) : bool :=
  match e with
  | EvStat _ _ => false
  | EvWarn _ _ _ => is_step_warn e
  | _ => true
  end.

(** A link created: a creating call that returned 0. *)
Definition link_created (e : event) : bool :=
  is_link_call e && negb (call_failed e).

(** A value returned by [getopt] that the [switch] of [ln_main] sends to
    its [default] branch. *)
Definition unrecognized (c : ascii) : bool := negb (string_mem c "fLPs").

(** POSIX: [stat] fails with ENOENT on the empty path. *)
Definition posix_stat (os : OS) : Prop :=
  forall w, fst (os_stat os "" w) = None.

(** Number of events of a trace that satisfy [f]. *)
Definition count (f : event -> bool) (tr : list event) : nat :=
  List.length (filter f tr).

(** What [n] steps, run one after the other from the context [ctx], leave
    behind when they end in [ctx'] with the trace [tr]: the flags are the
    same; the status is failure when a diagnostic was printed and is the
    status of [ctx] otherwise; every call that failed is followed by a
    diagnostic; the diagnostics are those of the steps; and every step
    ended either in one diagnostic or in one link created. *)
Definition steps_post (n : nat) (ctx ctx' : ln_ctx) (tr : list event) : Prop :=
  flags ctx' = flags ctx /\
  status_code ctx' =
    (if existsb is_warn tr then EXIT_FAILURE else status_code ctx) /\
  (existsb call_failed tr = true -> existsb is_warn tr = true) /\
  forallb (fun e => implb (is_warn e) (is_step_warn e)) tr = true /\
  (count is_warn tr + count link_created tr = n)%nat.

(** The context after a diagnostic. *)
Definition failed (ctx : ln_ctx) : ln_ctx := mk_ln_ctx EXIT_FAILURE (flags ctx).

(** The call [ln_create_link] makes once the destination is out of the
    way, [rc] being what the call returns: as section 4.4 of the
    specification words it. *)
Definition selected_call (flags : Z) (source_sb : stat_t)
    (path_source path_dest : string) (rc : Z) : event :=
  if Z.testbit flags 2 then EvSymlink path_source path_dest rc
  else if S_ISLNK (st_mode source_sb) then
    EvLinkat AT_FDCWD path_source AT_FDCWD path_dest
             (if Z.testbit flags 1 then AT_SYMLINK_FOLLOW else 0) rc
  else EvLink path_source path_dest rc.

(** What the environment answers to that call. *)
Definition selected_answer (os : OS) (flags : Z) (source_sb : stat_t)
    (path_source path_dest : string) (w : world os) : Z * world os :=
  if Z.testbit flags 2 then os_symlink os path_source path_dest w
  else if S_ISLNK (st_mode source_sb) then
    os_linkat os AT_FDCWD path_source AT_FDCWD path_dest
              (if Z.testbit flags 1 then AT_SYMLINK_FOLLOW else 0) w
  else os_link os path_source path_dest w.

(** The final operand resolves to a directory: [stat] succeeds on it and
    the mode is that of a directory. *)
Definition is_directory (r : option stat_t) : bool :=
  match r with
  | Some sb => S_ISDIR (st_mode sb)
  | None => false
  end.

(** The format [ln_main] prints for more than two operands of which the
    last is no directory: line 393 when [stat] succeeded, line 400 when it
    failed. *)
Definition rejection_fmt (r : option stat_t) : string :=
  match r with
  | Some _ => "final operand must be directory if > 2 operands"
  | None => "only 2 operands allowed if final operand not a directory"
  end.

(** The flag tokens of a command line: the arguments [getopt] reads as
    groups of option characters.  Under [PERMUTE] they are all the
    arguments before the first "--" that start with '-' and go on; under
    [REQUIRE_ORDER] only those of them that come before the first
    argument that is not one. *)
Fixpoint flag_tokens (ord : ordering) (args : list string) : list string :=
  match args with
  | [] => []
  | a :: args' =>
      if String.eqb a "--" then []
      else if is_option_arg a then a :: flag_tokens ord args'
      else match ord with
           | REQUIRE_ORDER => []
           | PERMUTE => flag_tokens ord args'
           end
  end.

(** The operands of a command line: the arguments that are no flag
    tokens, without the "--" that ended the options, in their order. *)
Fixpoint operand_args (ord : ordering) (args : list string) : list string :=
  match args with
  | [] => []
  | a :: args' =>
      if String.eqb a "--" then args'
      else if is_option_arg a then operand_args ord args'
      else match ord with
           | REQUIRE_ORDER => args
           | PERMUTE => a :: operand_args ord args'
           end
  end.

(** The characters of a flag token after its '-'. *)
Definition flag_chars (tok : string) : list ascii :=
  match tok with
  | String _ cs => list_ascii_of_string cs
  | EmptyString => []
  end.

(** The option characters of the command line [argv], in order. *)
Definition option_chars (ord : ordering) (argv : list string) : list ascii :=
  flat_map flag_chars (flag_tokens ord (tl argv)).

(** Some flag token of [argv] holds a character other than f, L, P, s. *)
Definition has_unrecognized_flag (ord : ordering) (argv : list string)
    : bool :=
  existsb unrecognized (option_chars ord argv).

(** The operands [ln_main] is left with at line 377: its [argv] after
    [argv += optind]. *)
Definition operands_of (ord : ordering) (argv : list string) : list string :=
  snd (ln_main_getopt ord argv).

(** The context in which [ln_main] reaches line 377. *)
Definition parsed_ctx (ord : ordering) (argv : list string) : ln_ctx :=
  fst (fst (ln_main_getopt ord argv)).

(** The number of links a run of [ln_main] that accepted its operands has
    to create, read off its first event: one for each operand but the last
    when the last operand is a directory, one otherwise. *)
Definition steps_requested (operands : list string) (tr : list event) : nat :=
  match tr with
  | EvStat _ r :: _ =>
      if is_directory r then (List.length operands - 1)%nat else 1%nat
  | _ => 1%nat
  end.

(** ** A small file system, to run the functions on *)

(** One directory entry: what [lstat] answers for the path, and what
    [stat] answers ([None] for a dangling symbolic link). *)
Record entry : Type := mk_entry {
  e_path : string;
  e_lstat : stat_t;
  e_stat : option stat_t
}.

Fixpoint fs_find (path : string) (fs : list entry) : option entry :=
  match fs with
  | [] => None
  | e :: fs' => if String.eqb path (e_path e) then Some e else fs_find path fs'
  end.

Fixpoint fs_remove (path : string) (fs : list entry) : list entry :=
  match fs with
  | [] => []
  | e :: fs' =>
      if String.eqb path (e_path e) then fs' else e :: fs_remove path fs'
  end.

Definition fs_stat (path : string) (fs : list entry) : option stat_t :=
  match path with
  | EmptyString => None
  | _ => match fs_find path fs with Some e => e_stat e | None => None end
  end.

Definition fs_lstat (path : string) (fs : list entry) : option stat_t :=
  match path with
  | EmptyString => None
  | _ => option_map e_lstat (fs_find path fs)
  end.

Definition fs_unlink (path : string) (fs : list entry) : Z * list entry :=
  match fs_find path fs with
  | Some e => if S_ISDIR (st_mode (e_lstat e)) then (-1, fs)
              else (0, fs_remove path fs)
  | None => (-1, fs)
  end.

Definition fs_add (path : string) (l : stat_t) (s : option stat_t)
    (fs : list entry) : Z * list entry :=
  match path, fs_find path fs with
  | EmptyString, _ => (-1, fs)
  | _, Some _ => (-1, fs)
  | _, None => (0, (fs ++ [mk_entry path l s])%list)
  end.

Definition fs_symlink (path1 path2 : string) (fs : list entry)
    : Z * list entry :=
  fs_add path2 (mk_stat 1 (1000 + Z.of_nat (List.length fs)) S_IFLNK)
         (fs_stat path1 fs) fs.

Definition fs_link (path1 path2 : string) (fs : list entry)
    : Z * list entry :=
  match fs_find path1 fs with
  | Some e => fs_add path2 (e_lstat e) (e_stat e) fs
  | None => (-1, fs)
  end.

Definition fs_linkat (fd1 : Z) (path1 : string) (fd2 : Z) (path2 : string)
    (flag : Z) (fs : list entry) : Z * list entry :=
  if flag =? AT_SYMLINK_FOLLOW then
    match fs_stat path1 fs with
    | Some sb => fs_add path2 sb (Some sb) fs
    | None => (-1, fs)
    end
  else fs_link path1 path2 fs.

(** The file system as an environment; allocation never fails. *)
Definition fs_os : OS :=
  {| world := list entry;
     os_stat := fun p fs => (fs_stat p fs, fs);
     os_lstat := fun p fs => (fs_lstat p fs, fs);
     os_unlink := fs_unlink;
     os_symlink := fs_symlink;
     os_linkat := fs_linkat;
     os_link := fs_link;
     os_strdup := fun _ fs => (true, fs);
     os_malloc := fun _ fs => (true, fs) |}.

(** The same file system with an allocator that always fails. *)
Definition fs_os_nomem : OS :=
  {| world := list entry;
     os_stat := fun p fs => (fs_stat p fs, fs);
     os_lstat := fun p fs => (fs_lstat p fs, fs);
     os_unlink := fs_unlink;
     os_symlink := fs_symlink;
     os_linkat := fs_linkat;
     os_link := fs_link;
     os_strdup := fun _ fs => (false, fs);
     os_malloc := fun _ fs => (false, fs) |}.

Definition S_IFREG : Z := 32768.  (* 0100000 *)

Definition sb_dir : stat_t := mk_stat 1 10 (S_IFDIR + 493).
Definition sb_a : stat_t := mk_stat 1 11 (S_IFREG + 420).
Definition sb_b : stat_t := mk_stat 1 12 (S_IFREG + 420).
Definition sb_sym : stat_t := mk_stat 1 13 (S_IFLNK + 511).

(** A directory "dir", two regular files "a" and "b", and a symbolic link
    "sym" to "a". *)
Definition fs_demo : list entry :=
  [ mk_entry "dir" sb_dir (Some sb_dir);
    mk_entry "a" sb_a (Some sb_a);
    mk_entry "b" sb_b (Some sb_b);
    mk_entry "sym" sb_sym (Some sb_a) ].

(** ** The utilities [link] and [unlink] (src/link.c, src/unlink.c) *)

Section Utilities.

Variable os : OS.

(** [warn] and [warnx] of <err.h>, with their format and arguments. *)
Definition warn (fmt : string) (args : list string) : M os unit :=
  fun w => (Ok tt, w, [EvWarn true fmt args]).

Definition warnx (fmt : string) (args : list string) : M os unit :=
  fun w => (Ok tt, w, [EvWarn false fmt args]).

(** [link_main] (link.c, lines 38-55); [argc] is the length of [argv]. *)
Definition link_main (argv : list string) : M os Z :=
  let argc := Z.of_nat (List.length argv) in
  let status_code := EXIT_SUCCESS in
  if negb (argc =? 3) then
    let status_code := EXIT_FAILURE in
    bind os (warnx "must have exactly two file operands" [])
         (fun _ => ret os status_code)
  else
    bind os (sys_link os (nth 1 argv "") (nth 2 argv ""))
         (fun rc =>
            if negb (rc =? 0) then
              let status_code := EXIT_FAILURE in
              bind os (warn "failed to create link: '%s' - '%s'"
                            [nth 1 argv ""; nth 2 argv ""])
                   (fun _ => ret os status_code)
            else ret os status_code).

(** [unlink_main] (unlink.c, lines 35-52). *)
Definition unlink_main (argv : list string) : M os Z :=
  let argc := Z.of_nat (List.length argv) in
  let status_code := EXIT_SUCCESS in
  if negb (argc =? 2) then
    let status_code := EXIT_FAILURE in
    bind os (warnx "must have exactly one file operand" [])
         (fun _ => ret os status_code)
  else
    bind os (sys_unlink os (nth 1 argv ""))
         (fun rc =>
            if negb (rc =? 0) then
              let status_code := EXIT_FAILURE in
              bind os (warn "failed to unlink: %s" [nth 1 argv ""])
                   (fun _ => ret os status_code)
            else ret os status_code).

End Utilities.

(** ** The test seams (test/seams.c) and the build with [TEST] defined *)

(** [test_seam_dec_err_ctr] (seams.c, lines 24-36): the pair is (return
    value, the counter after the call). *)
Definition test_seam_dec_err_ctr (err_ctr : Z) : bool * Z :=
  let reached_end := false in
  if err_ctr >=? 0 then
    let err_ctr := err_ctr - 1 in
    if err_ctr <? 0 then (true, err_ctr) else (reached_end, err_ctr)
  else (reached_end, err_ctr).

(** The return values of [n] calls in a row on one counter, and the
    counter after them. *)
Fixpoint dec_err_ctr_calls (n : nat) (err_ctr : Z) : list bool * Z :=
  match n with
  | O => ([], err_ctr)
  | S n' =>
      let (r, err_ctr) := test_seam_dec_err_ctr err_ctr in
      let (rs, err_ctr) := dec_err_ctr_calls n' err_ctr in
      (r :: rs, err_ctr)
  end.

(** [si_add_size_t] as built with [TEST] defined (ln.c, lines 119-139):
    [ctr] is [g_test_seam_err_ctr_si_add_size_t] and [result] what
    [*result] holds before the call; the answer is (return value,
    [*result] after the call, the counter after the call). *)
Definition si_add_size_t_seam (size_bits : Z) (ctr : Z) (a b result : Z)
    : bool * Z * Z :=
  let (reached_end, ctr) := test_seam_dec_err_ctr ctr in
  if reached_end then (false, result, ctr)
  else
    let (ok, result) := si_add_size_t size_bits a b in
    (ok, result, ctr).

(** ** More ways to read traces and option characters *)

Definition is_unlink (e : event) : bool :=
  match e with EvUnlink _ _ => true | _ => false end.

(** The path a call creates or removes. *)
Definition mutation_dest (e : event) : option string :=
  match e with
  | EvUnlink path _ => Some path
  | EvSymlink _ path2 _ => Some path2
  | EvLinkat _ _ _ path2 _ _ => Some path2
  | EvLink _ path2 _ => Some path2
  | _ => None
  end.

(** Every path created or removed in the trace satisfies [ok]. *)
Definition mutations_within (ok : string -> bool) (tr : list event) : bool :=
  forallb (fun e => match mutation_dest e with
                    | Some path => ok path
                    | None => true
                    end) tr.

(** The strings handed to [strdup], in order. *)
Definition strdup_args (tr : list event) : list string :=
  flat_map (fun e => match e with EvStrdup s _ => [s] | _ => [] end) tr.

(** A [stat] of [path] that failed, or an [unlink] of [path] that
    returned 0. *)
Definition stat_failed_or_unlinked (path : string) (e : event) : bool :=
  match e with
  | EvStat p None => String.eqb p path
  | EvUnlink p rc => String.eqb p path && (rc =? 0)
  | _ => false
  end.

(** No creating call in the trace, unless a [stat] of [path] that failed
    or an [unlink] of [path] that returned 0 comes before it. *)
Fixpoint link_call_preceded (path : string) (tr : list event) : bool :=
  match tr with
  | [] => true
  | e :: tr' =>
      if stat_failed_or_unlinked path e then true
      else negb (is_link_call e) && link_call_preceded path tr'
  end.

(** Whether [-L] is in force after the option characters [opts], [init]
    being whether it was before them: the last of 'L' and 'P' decides. *)
Fixpoint follow_after (opts : list ascii) (init : bool) : bool :=
  match opts with
  | [] => init
  | c :: opts' =>
      follow_after opts'
        (if Ascii.eqb c "L" then true
         else if Ascii.eqb c "P" then false else init)
  end.

(** The events one step on the operand ([path_source], [path_dest]) may
    emit under the flags [f], as a condition on a test [g] of events: [g]
    accepts every lookup, allocation and diagnostic, the [unlink] of
    [path_dest] if the flag of [-f] is set, and the three creating calls
    from [path_source] to [path_dest]. *)
Definition step_events_ok (g : event -> bool) (f : Z)
    (path_source path_dest : string) : Prop :=
  (forall p r, g (EvStat p r) = true) /\
  (forall p r, g (EvLstat p r) = true) /\
  (forall s ok, g (EvStrdup s ok) = true) /\
  (forall n ok, g (EvMalloc n ok) = true) /\
  (forall e fmt args, g (EvWarn e fmt args) = true) /\
  (Z.testbit f 0 = true -> forall rc, g (EvUnlink path_dest rc) = true) /\
  (forall rc, g (EvSymlink path_source path_dest rc) = true) /\
  (forall flag rc,
     g (EvLinkat AT_FDCWD path_source AT_FDCWD path_dest flag rc) = true) /\
  (forall rc, g (EvLink path_source path_dest rc) = true).

(** The flags as a number, from the three options in force. *)
Definition flags_of (remove_dest follow symbolic : bool) : Z :=
  Z.b2z remove_dest + 2 * Z.b2z follow + 4 * Z.b2z symbolic.

(** An environment that POSIX excludes, to reach the read outside the
    string: [stat] says of every path, the empty one included, that it is
    the directory "dir". *)
Definition fs_os_any_dir : OS :=
  {| world := list entry;
     os_stat := fun p fs => (Some sb_dir, fs);
     os_lstat := fun p fs => (fs_lstat p fs, fs);
     os_unlink := fs_unlink;
     os_symlink := fs_symlink;
     os_linkat := fs_linkat;
     os_link := fs_link;
     os_strdup := fun _ fs => (true, fs);
     os_malloc := fun _ fs => (true, fs) |}.

(** ** The directory batch, as section 4.5 of the specification words it

    For each source, in order: compose a destination path inside the
    directory (4.2) and invoke link creation (4.4) with the source and the
    composed path.  A composition that yields no path is reported with
    "alloc"; that failure, like a failure of link creation, marks the
    context and does not stop the iteration.  The traces of the parts
    follow one another. *)
Fixpoint batch_into_directory (size_bits : Z) (os : OS) (ctx : ln_ctx)
    (sources : list string) (target_dir : string) (w : world os)
    : outcome ln_ctx * world os * list event :=
  match sources with
  | [] => (Ok ctx, w, [])
  | source_file :: sources' =>
      match ln_path_target_concat size_bits os target_dir source_file w with
      | (Ok (Some path_dest), w1, t1) =>
          match ln_create_link os ctx source_file path_dest w1 with
          | (Ok ctx1, w2, t2) =>
              let '(res, w3, t3) :=
                batch_into_directory size_bits os ctx1 sources' target_dir w2 in
              (res, w3, (t1 ++ t2 ++ t3)%list)
          | (Fault f, w2, t2) => (Fault f, w2, (t1 ++ t2)%list)
          end
      | (Ok None, w1, t1) =>
          let '(res, w3, t3) :=
            batch_into_directory size_bits os (failed ctx) sources'
                                 target_dir w1 in
          (res, w3, (t1 ++ EvWarn true "alloc" [] :: t3)%list)
      | (Fault f, w1, t1) => (Fault f, w1, t1)
      end
  end.

(** Unfolding of the primitive computations. *)
Ltac unfold_run :=
  unfold bind, ret, ln_warn, sys_stat, sys_lstat, sys_unlink, sys_symlink,
    sys_linkat, sys_link, strdup, malloc, read_char, failed.

(** * Properties *)

(** ** Runs on the small file system *)

Example basename_nested : basename "a/b/file.txt" = "file.txt".
Proof. reflexivity. Qed.

Example basename_trailing : basename "usr/lib//" = "lib".
Proof. reflexivity. Qed.

Example basename_root : basename "///" = "/".
Proof. reflexivity. Qed.

Example ln_main_two_files :
  ln_main 64 fs_os PERMUTE ["ln"; "a"; "c"] fs_demo =
  (Ok EXIT_SUCCESS,
   (fs_demo ++ [mk_entry "c" sb_a (Some sb_a)])%list,
   [EvStat "c" None; EvLstat "a" (Some sb_a);
    EvStat "c" None; EvLink "a" "c" 0]).
Proof. vm_compute. reflexivity. Qed.

Example ln_main_into_directory :
  snd (ln_main 64 fs_os PERMUTE ["ln"; "-s"; "a"; "x/b"; "dir"] fs_demo) =
  [EvStat "dir" (Some sb_dir);
   EvStrdup "a" true; EvMalloc 6 true;
   EvLstat "a" (Some sb_a);
   EvStat "dir/a" None; EvSymlink "a" "dir/a" 0;
   EvStrdup "x/b" true; EvMalloc 6 true;
   EvLstat "x/b" None; EvWarn true "lstat(%s)" ["x/b"]].
Proof. vm_compute. reflexivity. Qed.

(** ** [si_add_size_t] *)

Lemma to_size_t_small (size_bits x : Z) :
  0 <= x <= SIZE_MAX size_bits -> to_size_t size_bits x = x.
Proof.
  unfold to_size_t, SIZE_MAX. intros H. apply Z.mod_small. lia.
Qed.

Lemma to_size_t_wrap_once (size_bits x : Z) :
  SIZE_MAX size_bits < x <= 2 * SIZE_MAX size_bits ->
  to_size_t size_bits x = x - 2 ^ size_bits.
Proof.
  unfold to_size_t, SIZE_MAX. intros H.
  symmetry. apply (Z.mod_unique x (2 ^ size_bits) 1); lia.
Qed.

Lemma si_add_size_t_fits (size_bits a b : Z) :
  0 <= a -> 0 <= b -> a + b <= SIZE_MAX size_bits ->
  si_add_size_t size_bits a b = (true, a + b).
Proof.
  intros Ha Hb Hfit. unfold si_add_size_t.
  rewrite to_size_t_small by lia.
  destruct (Z.ltb_spec (a + b) a); [lia | reflexivity].
Qed.

Lemma si_add_size_t_wraps (size_bits a b : Z) :
  0 <= a <= SIZE_MAX size_bits -> 0 <= b <= SIZE_MAX size_bits ->
  SIZE_MAX size_bits < a + b ->
  si_add_size_t size_bits a b = (false, a + b - 2 ^ size_bits).
Proof.
  intros Ha Hb Hover. unfold si_add_size_t.
  rewrite to_size_t_wrap_once by lia.
  unfold SIZE_MAX in *.
  destruct (Z.ltb_spec (a + b - 2 ^ size_bits) a); [reflexivity | lia].
Qed.

(** C7.  For sizes [a] and [b] (values of [size_t]): when the mathematical
    sum fits, [si_add_size_t] returns true and stores exactly [a + b]; when
    it does not, it returns false, and what it stored is the wrapped sum,
    which is smaller than [a] (the test of the code) and than [b]; the pair
    (SIZE_MAX, 1) is such a case. *)
Theorem si_add_size_t_correct (size_bits a b : Z) :
  0 <= a <= SIZE_MAX size_bits ->
  0 <= b <= SIZE_MAX size_bits ->
  (a + b <= SIZE_MAX size_bits ->
     si_add_size_t size_bits a b = (true, a + b)) /\
  (SIZE_MAX size_bits < a + b ->
     si_add_size_t size_bits a b = (false, a + b - 2 ^ size_bits) /\
     a + b - 2 ^ size_bits < a /\ a + b - 2 ^ size_bits < b) /\
  (1 <= SIZE_MAX size_bits ->
     si_add_size_t size_bits (SIZE_MAX size_bits) 1 = (false, 0)).
Proof.
  intros Ha Hb. split; [| split].
  - intros Hfit. apply si_add_size_t_fits; lia.
  - intros Hover. split; [apply si_add_size_t_wraps; assumption|].
    unfold SIZE_MAX in *. lia.
  - intros H1. rewrite si_add_size_t_wraps by lia.
    f_equal. unfold SIZE_MAX. lia.
Qed.

Lemma si_add_size_t_correct_witness :
  (18446744073709551614 + 1 <= SIZE_MAX 64 ->
     si_add_size_t 64 18446744073709551614 1 = (true, 18446744073709551614 + 1)) /\
  (SIZE_MAX 64 < 18446744073709551614 + 1 ->
     si_add_size_t 64 18446744073709551614 1 =
       (false, 18446744073709551614 + 1 - 2 ^ 64) /\
     18446744073709551614 + 1 - 2 ^ 64 < 18446744073709551614 /\
     18446744073709551614 + 1 - 2 ^ 64 < 1) /\
  (1 <= SIZE_MAX 64 -> si_add_size_t 64 (SIZE_MAX 64) 1 = (false, 0)).
Proof.
  apply (si_add_size_t_correct 64 18446744073709551614 1); vm_compute;
    split; discriminate.
Defined.

Example si_add_size_t_test_0_1 : si_add_size_t 64 0 1 = (true, 1).
Proof. reflexivity. Qed.

Example si_add_size_t_test_max_1 :
  si_add_size_t 64 (SIZE_MAX 64) 1 = (false, 0).
Proof. reflexivity. Qed.

Example si_add_size_t_test_max_max :
  si_add_size_t 16 65535 65535 = (false, 65534).
Proof. reflexivity. Qed.

(** ** Flags *)

Lemma land_pow2 (f k : Z) :
  0 <= k -> Z.land f (2 ^ k) = if Z.testbit f k then 2 ^ k else 0.
Proof.
  intros Hk. apply Z.bits_inj'. intros n Hn.
  rewrite Z.land_spec, Z.pow2_bits_eqb by assumption.
  destruct (Z.eqb_spec k n) as [->|Hne].
  - destruct (Z.testbit f n) eqn:E; simpl.
    + rewrite Z.pow2_bits_true by assumption. reflexivity.
    + rewrite Z.bits_0. reflexivity.
  - rewrite andb_false_r.
    destruct (Z.testbit f k).
    + rewrite Z.pow2_bits_false by assumption. reflexivity.
    + rewrite Z.bits_0. reflexivity.
Qed.

Lemma flag_set_testbit (f k : Z) :
  0 <= k -> flag_set f (Z.shiftl 1 k) = Z.testbit f k.
Proof.
  intros Hk. unfold flag_set.
  rewrite Z.shiftl_1_l, land_pow2 by assumption.
  destruct (Z.testbit f k); simpl.
  - destruct (Z.eqb_spec (2 ^ k) 0) as [E|E]; [| reflexivity].
    pose proof (Z.pow_pos_nonneg 2 k). lia.
  - reflexivity.
Qed.

Lemma flag_set_remove_dest (f : Z) :
  flag_set f LN_FLAG_REMOVE_DEST = Z.testbit f 0.
Proof. apply flag_set_testbit. lia. Qed.

Lemma flag_set_follow_symbolic (f : Z) :
  flag_set f LN_FLAG_FOLLOW_SYMBOLIC = Z.testbit f 1.
Proof. apply flag_set_testbit. lia. Qed.

Lemma flag_set_symbolic (f : Z) :
  flag_set f LN_FLAG_SYMBOLIC = Z.testbit f 2.
Proof. apply flag_set_testbit. lia. Qed.

(** ** The destination resolver, [ln_remove_dest] *)

Lemma ln_same_file_true (sb1 sb2 : stat_t) :
  ln_same_file sb1 sb2 = true <->
  st_dev sb1 = st_dev sb2 /\ st_ino sb1 = st_ino sb2.
Proof.
  unfold ln_same_file.
  destruct (Z.eqb_spec (st_dev sb1) (st_dev sb2));
    destruct (Z.eqb_spec (st_ino sb1) (st_ino sb2)); simpl;
    intuition congruence.
Qed.

Lemma ln_same_file_false (sb1 sb2 : stat_t) :
  ln_same_file sb1 sb2 = false <->
  st_dev sb1 <> st_dev sb2 \/ st_ino sb1 <> st_ino sb2.
Proof.
  unfold ln_same_file.
  destruct (Z.eqb_spec (st_dev sb1) (st_dev sb2));
    destruct (Z.eqb_spec (st_ino sb1) (st_ino sb2)); simpl;
    intuition congruence.
Qed.

(** C3.  The four rows of the resolver.  The destination is absent ([stat]
    fails): proceed, nothing printed, nothing removed.  It is present and
    the flag of [-f] (bit 0) is clear: skip with failure, and [unlink] is
    not called.  It is present, the flag is set and device and inode are
    those of the source: skip with failure, and [unlink] is not called.
    It is present, the flag is set and device or inode differ: [unlink] is
    called once; proceed when it returns 0, skip with failure otherwise. *)
Theorem ln_remove_dest_cases (os : OS) (ctx : ln_ctx) (source_sb : stat_t)
    (path_dest : string) (w : world os) :
  (forall w1,
     os_stat os path_dest w = (None, w1) ->
     ln_remove_dest os ctx source_sb path_dest w =
       (Ok (true, ctx), w1, [EvStat path_dest None])) /\
  (forall dest_sb w1,
     os_stat os path_dest w = (Some dest_sb, w1) ->
     Z.testbit (flags ctx) 0 = false ->
     ln_remove_dest os ctx source_sb path_dest w =
       (Ok (false, failed ctx), w1,
        [EvStat path_dest (Some dest_sb);
         EvWarn false "destination already exists: %s" [path_dest]])) /\
  (forall dest_sb w1,
     os_stat os path_dest w = (Some dest_sb, w1) ->
     Z.testbit (flags ctx) 0 = true ->
     st_dev source_sb = st_dev dest_sb ->
     st_ino source_sb = st_ino dest_sb ->
     ln_remove_dest os ctx source_sb path_dest w =
       (Ok (false, failed ctx), w1,
        [EvStat path_dest (Some dest_sb);
         EvWarn false "source and destination same: %s" [path_dest]])) /\
  (forall dest_sb w1 rc w2,
     os_stat os path_dest w = (Some dest_sb, w1) ->
     Z.testbit (flags ctx) 0 = true ->
     st_dev source_sb <> st_dev dest_sb \/ st_ino source_sb <> st_ino dest_sb ->
     os_unlink os path_dest w1 = (rc, w2) ->
     ln_remove_dest os ctx source_sb path_dest w =
       if rc =? 0 then
         (Ok (true, ctx), w2,
          [EvStat path_dest (Some dest_sb); EvUnlink path_dest rc])
       else
         (Ok (false, failed ctx), w2,
          [EvStat path_dest (Some dest_sb); EvUnlink path_dest rc;
           EvWarn true "failed to unlink destination: %s" [path_dest]])).
Proof.
  unfold ln_remove_dest. repeat split.
  - intros w1 Hstat. unfold_run. rewrite Hstat. reflexivity.
  - intros dest_sb w1 Hstat Hflag. unfold_run.
    rewrite Hstat, flag_set_remove_dest, Hflag. reflexivity.
  - intros dest_sb w1 Hstat Hflag Hdev Hino. unfold_run.
    rewrite Hstat, flag_set_remove_dest, Hflag.
    assert (Hsame : ln_same_file source_sb dest_sb = true)
      by (apply ln_same_file_true; auto).
    rewrite Hsame. reflexivity.
  - intros dest_sb w1 rc w2 Hstat Hflag Hdiff Hunlink. unfold_run.
    rewrite Hstat, flag_set_remove_dest, Hflag.
    apply ln_same_file_false in Hdiff. rewrite Hdiff, Hunlink.
    destruct (rc =? 0); reflexivity.
Qed.

(** The four rows on the small file system: "c" is absent; "b" is present
    without and with [-f]; "a" is the source itself. *)
Lemma ln_remove_dest_cases_witness :
  ln_remove_dest fs_os (mk_ln_ctx 0 0) sb_a "c" fs_demo =
    (Ok (true, mk_ln_ctx 0 0), fs_demo, [EvStat "c" None]) /\
  ln_remove_dest fs_os (mk_ln_ctx 0 0) sb_a "b" fs_demo =
    (Ok (false, mk_ln_ctx 1 0), fs_demo,
     [EvStat "b" (Some sb_b);
      EvWarn false "destination already exists: %s" ["b"]]) /\
  ln_remove_dest fs_os (mk_ln_ctx 0 1) sb_a "a" fs_demo =
    (Ok (false, mk_ln_ctx 1 1), fs_demo,
     [EvStat "a" (Some sb_a);
      EvWarn false "source and destination same: %s" ["a"]]) /\
  ln_remove_dest fs_os (mk_ln_ctx 0 1) sb_a "b" fs_demo =
    (Ok (true, mk_ln_ctx 0 1), fs_remove "b" fs_demo,
     [EvStat "b" (Some sb_b); EvUnlink "b" 0]).
Proof.
  split; [| split; [| split]].
  - apply (proj1 (ln_remove_dest_cases fs_os (mk_ln_ctx 0 0) sb_a "c" fs_demo)).
    reflexivity.
  - apply (proj1 (proj2 (ln_remove_dest_cases fs_os (mk_ln_ctx 0 0) sb_a "b" fs_demo)));
      reflexivity.
  - apply (proj1 (proj2 (proj2
             (ln_remove_dest_cases fs_os (mk_ln_ctx 0 1) sb_a "a" fs_demo))));
      reflexivity.
  - apply (proj2 (proj2 (proj2
             (ln_remove_dest_cases fs_os (mk_ln_ctx 0 1) sb_a "b" fs_demo)))
             sb_b fs_demo 0 (fs_remove "b" fs_demo));
      try reflexivity.
    right. vm_compute. discriminate.
Defined.

(** ** Runs and their traces *)

Lemma bind_ok (os : OS) (A B : Type) (m : M os A) (k : A -> M os B)
    (w w1 w2 : world os) (a : A) (r : outcome B) (t1 t2 : list event) :
  m w = (Ok a, w1, t1) -> k a w1 = (r, w2, t2) ->
  bind os m k w = (r, w2, (t1 ++ t2)%list).
Proof. intros Hm Hk. unfold bind. rewrite Hm, Hk. reflexivity. Qed.

Lemma bind_fault (os : OS) (A B : Type) (m : M os A) (k : A -> M os B)
    (w w1 : world os) (f : fault) (t1 : list event) :
  m w = (Fault f, w1, t1) -> bind os m k w = (Fault f, w1, t1).
Proof. intros Hm. unfold bind. rewrite Hm. reflexivity. Qed.

Lemma count_app (f : event -> bool) (t1 t2 : list event) :
  count f (t1 ++ t2) = (count f t1 + count f t2)%nat.
Proof. unfold count. rewrite filter_app, length_app. reflexivity. Qed.

Lemma existsb_count (f : event -> bool) (tr : list event) :
  existsb f tr = negb (Nat.eqb (count f tr) 0).
Proof.
  unfold count. induction tr as [|e tr IH]; simpl; [reflexivity|].
  destruct (f e); simpl; [reflexivity | exact IH].
Qed.

Lemma count_zero_existsb (f : event -> bool) (tr : list event) :
  count f tr = O <-> existsb f tr = false.
Proof.
  rewrite existsb_count. destruct (count f tr); simpl; split;
    congruence.
Qed.

(** Traces are built by concatenation; these equations push a question
    about a concatenation to its parts. *)
Create Rewrite HintDb trace.
#[local] Hint Rewrite (@existsb_app event) (@forallb_app event) count_app
  : trace.

(** Events that are neither diagnostics, nor failed calls, nor links
    created change nothing of what [steps_post] records. *)
Lemma steps_post_quiet (ctx : ln_ctx) (tr : list event) :
  existsb is_warn tr = false ->
  existsb call_failed tr = false ->
  existsb link_created tr = false ->
  steps_post 0 ctx ctx tr.
Proof.
  intros Hw Hf Hl. unfold steps_post. rewrite Hw, Hf.
  repeat split; try congruence.
  - clear Hf Hl. induction tr as [|e tr IH]; simpl in *; [reflexivity|].
    apply orb_false_iff in Hw. destruct Hw as [He Ht].
    rewrite He. simpl. auto.
  - apply count_zero_existsb in Hw. apply count_zero_existsb in Hl.
    rewrite Hw, Hl. reflexivity.
Qed.

Lemma steps_post_app (n m : nat) (c c1 c2 : ln_ctx) (t1 t2 : list event) :
  steps_post n c c1 t1 -> steps_post m c1 c2 t2 ->
  steps_post (n + m) c c2 (t1 ++ t2).
Proof.
  intros (Hf1 & Hs1 & Hc1 & Hw1 & Hn1) (Hf2 & Hs2 & Hc2 & Hw2 & Hn2).
  unfold steps_post. autorewrite with trace.
  repeat split.
  - congruence.
  - rewrite Hs2, Hs1.
    destruct (existsb is_warn t1), (existsb is_warn t2); reflexivity.
  - intros H. apply orb_true_iff in H. apply orb_true_iff.
    destruct H; auto.
  - rewrite Hw1, Hw2. reflexivity.
  - lia.
Qed.

(** One diagnostic alone is one failed step. *)
Lemma steps_post_warn (ctx : ln_ctx) (errno_msg : bool) (fmt : string)
    (args : list string) :
  fmt_in fmt step_fmts = true ->
  steps_post 1 ctx (failed ctx) [EvWarn errno_msg fmt args].
Proof.
  intros Hfmt. unfold steps_post, count. cbn -[fmt_in]. rewrite Hfmt.
  repeat split; auto.
Qed.

(** A call that answered [rc], followed by the diagnostic when [rc] is not
    0, for a call [e] that is not a creating call. *)
Lemma steps_post_lift (n : nat) (ctx ctx' : ln_ctx) (e : event)
    (tr : list event) :
  is_warn e = false -> call_failed e = false -> link_created e = false ->
  steps_post n ctx ctx' tr -> steps_post n ctx ctx' (e :: tr).
Proof.
  intros Hw Hf Hl H.
  change (e :: tr) with ([e] ++ tr)%list.
  change n with (0 + n)%nat.
  apply steps_post_app with (c1 := ctx); [| exact H].
  apply steps_post_quiet; simpl; rewrite ?Hw, ?Hf, ?Hl; reflexivity.
Qed.

(** [ln_remove_dest] always returns; when it returns true it leaves the
    context alone and prints nothing, when it returns false it has printed
    one diagnostic; it never creates a link. *)
Lemma ln_remove_dest_post (os : OS) (ctx : ln_ctx) (source_sb : stat_t)
    (path_dest : string) (w : world os) :
  exists removed ctx' w' tr,
    ln_remove_dest os ctx source_sb path_dest w = (Ok (removed, ctx'), w', tr) /\
    ctx' = (if removed then ctx else failed ctx) /\
    steps_post (if removed then 0 else 1) ctx ctx' tr /\
    existsb is_link_call tr = false.
Proof.
  unfold ln_remove_dest. unfold_run.
  destruct (os_stat os path_dest w) as [[dest_sb|] w1].
  - destruct (flag_set (flags ctx) LN_FLAG_REMOVE_DEST).
    + destruct (ln_same_file source_sb dest_sb).
      * do 4 eexists. split; [reflexivity|].
        split; [reflexivity | split; [| reflexivity]].
        apply steps_post_lift; try reflexivity.
        apply steps_post_warn. reflexivity.
      * destruct (os_unlink os path_dest w1) as [rc w2].
        destruct (rc =? 0) eqn:Hrc; cbn [negb].
        -- do 4 eexists. split; [reflexivity|].
           split; [reflexivity | split; [| reflexivity]].
           apply steps_post_quiet; simpl; rewrite ?Hrc; reflexivity.
        -- do 4 eexists. split; [reflexivity|].
           split; [reflexivity | split; [| reflexivity]].
           apply steps_post_lift; try reflexivity.
           unfold steps_post, count. simpl. rewrite Hrc. simpl.
           repeat split; auto.
    + do 4 eexists. split; [reflexivity|].
      split; [reflexivity | split; [| reflexivity]].
      apply steps_post_lift; try reflexivity.
      apply steps_post_warn. reflexivity.
  - do 4 eexists. split; [reflexivity|].
    split; [reflexivity | split; [| reflexivity]].
    apply steps_post_quiet; reflexivity.
Qed.

(** ** The link creator, [ln_create_link] *)

Lemma ln_create_link_no_source (os : OS) (ctx : ln_ctx)
    (path_source path_dest : string) (w w1 : world os) :
  os_lstat os path_source w = (None, w1) ->
  ln_create_link os ctx path_source path_dest w =
    (Ok (failed ctx), w1,
     [EvLstat path_source None; EvWarn true "lstat(%s)" [path_source]]).
Proof.
  intros Hlstat. unfold ln_create_link. unfold_run.
  rewrite Hlstat. reflexivity.
Qed.

(** C6.  When [lstat] fails on the source, [ln_create_link] prints the
    diagnostic "lstat(%s)" with the source path (and the text of errno),
    records failure and does nothing else, whatever the flags: the whole
    trace is the [lstat] and the diagnostic, so there is no [stat] of the
    destination, no [unlink] and no [link], [linkat] or [symlink]. *)
Theorem ln_create_link_lstat_fails (os : OS) (ctx : ln_ctx)
    (path_source path_dest : string) (w w1 : world os) :
  os_lstat os path_source w = (None, w1) ->
  ln_create_link os ctx path_source path_dest w =
    (Ok (failed ctx), w1,
     [EvLstat path_source None; EvWarn true "lstat(%s)" [path_source]]) /\
  existsb is_mutation
    [EvLstat path_source None; EvWarn true "lstat(%s)" [path_source]] = false.
Proof.
  intros Hlstat. split; [| reflexivity].
  apply ln_create_link_no_source. exact Hlstat.
Qed.

(** With [-s] and [-f] given, on a source that does not exist. *)
Lemma ln_create_link_lstat_fails_witness :
  ln_create_link fs_os (mk_ln_ctx 0 5) "missing" "b" fs_demo =
    (Ok (mk_ln_ctx 1 5), fs_demo,
     [EvLstat "missing" None; EvWarn true "lstat(%s)" ["missing"]]) /\
  existsb is_mutation
    [EvLstat "missing" None; EvWarn true "lstat(%s)" ["missing"]] = false.
Proof.
  apply (ln_create_link_lstat_fails fs_os (mk_ln_ctx 0 5) "missing" "b"
           fs_demo fs_demo).
  reflexivity.
Defined.

Lemma selected_run (os : OS) (ctx : ln_ctx) (source_sb : stat_t)
    (path_source path_dest : string) (w : world os) :
  (if flag_set (flags ctx) LN_FLAG_SYMBOLIC then
     sys_symlink os path_source path_dest
   else if S_ISLNK (st_mode source_sb) then
     let linkat_flag :=
       if flag_set (flags ctx) LN_FLAG_FOLLOW_SYMBOLIC
       then AT_SYMLINK_FOLLOW else 0 in
     sys_linkat os AT_FDCWD path_source AT_FDCWD path_dest linkat_flag
   else sys_link os path_source path_dest) w =
  let (rc, w') := selected_answer os (flags ctx) source_sb path_source
                                  path_dest w in
  (Ok rc, w',
   [selected_call (flags ctx) source_sb path_source path_dest rc]).
Proof.
  unfold selected_answer, selected_call.
  rewrite flag_set_symbolic, flag_set_follow_symbolic.
  unfold sys_symlink, sys_linkat, sys_link.
  destruct (Z.testbit (flags ctx) 2); [reflexivity|].
  destruct (S_ISLNK (st_mode source_sb)); reflexivity.
Qed.

Lemma selected_call_is_link_call (f : Z) (sb : stat_t) (p1 p2 : string)
    (rc : Z) :
  is_link_call (selected_call f sb p1 p2 rc) = true /\
  is_warn (selected_call f sb p1 p2 rc) = false /\
  call_failed (selected_call f sb p1 p2 rc) = negb (rc =? 0).
Proof.
  unfold selected_call.
  destruct (Z.testbit f 2); [repeat split|].
  destruct (S_ISLNK (st_mode sb)); repeat split.
Qed.

Lemma ln_create_link_proceed (os : OS) (ctx ctx1 : ln_ctx)
    (path_source path_dest : string) (source_sb : stat_t)
    (w w1 w2 : world os) (tr1 : list event) :
  os_lstat os path_source w = (Some source_sb, w1) ->
  ln_remove_dest os ctx source_sb path_dest w1 = (Ok (true, ctx1), w2, tr1) ->
  exists rc w3,
    selected_answer os (flags ctx) source_sb path_source path_dest w2 = (rc, w3) /\
    ln_create_link os ctx path_source path_dest w =
      (Ok (if rc =? 0 then ctx else failed ctx), w3,
       (EvLstat path_source (Some source_sb) :: tr1 ++
        selected_call (flags ctx) source_sb path_source path_dest rc ::
        (if rc =? 0 then []
         else [EvWarn true "failed to create link: %s - %s"
                      [path_source; path_dest]]))%list) /\
    count is_link_call
      (EvLstat path_source (Some source_sb) :: tr1 ++
        selected_call (flags ctx) source_sb path_source path_dest rc ::
        (if rc =? 0 then []
         else [EvWarn true "failed to create link: %s - %s"
                      [path_source; path_dest]]))%list = 1%nat.
Proof.
  intros Hlstat Hrem.
  destruct (ln_remove_dest_post os ctx source_sb path_dest w1)
    as (removed & ctx' & w' & tr & Hrun & Hctx & _ & Hnolink).
  rewrite Hrem in Hrun. injection Hrun as <- <- <- <-.
  simpl in Hctx. subst ctx1.
  destruct (selected_answer os (flags ctx) source_sb path_source path_dest w2)
    as [rc w3] eqn:Hans.
  exists rc, w3. split; [reflexivity|]. split.
  - unfold ln_create_link, bind. unfold sys_lstat at 1.
    rewrite Hlstat, Hrem, selected_run, Hans.
    destruct (rc =? 0); reflexivity.
  - change (EvLstat path_source (Some source_sb) :: ?l)%list
      with ([EvLstat path_source (Some source_sb)] ++ l)%list.
    rewrite !count_app.
    apply count_zero_existsb in Hnolink. rewrite Hnolink.
    destruct (selected_call_is_link_call (flags ctx) source_sb path_source
                path_dest rc) as (Hl & _ & _).
    unfold count. simpl. rewrite Hl.
    destruct (rc =? 0); reflexivity.
Qed.

(** C4.  Once [lstat] has answered and the resolver has returned true,
    [ln_create_link] makes exactly one creating call, [selected_call]:
    [symlink(path_source, path_dest)] when the flag of [-s] (bit 2) is set;
    otherwise, when the source is a symbolic link,
    [linkat(AT_FDCWD, path_source, AT_FDCWD, path_dest, flag)] with
    [AT_SYMLINK_FOLLOW] when the flag of [-L] (bit 1) is set and 0 when it is
    not; otherwise [link(path_source, path_dest)].  The call is made in the
    world the resolver left, and a return code other than 0 is reported. *)
Theorem ln_create_link_selects (os : OS) (ctx ctx1 : ln_ctx)
    (path_source path_dest : string) (source_sb : stat_t)
    (w w1 w2 : world os) (tr1 : list event) :
  os_lstat os path_source w = (Some source_sb, w1) ->
  ln_remove_dest os ctx source_sb path_dest w1 = (Ok (true, ctx1), w2, tr1) ->
  exists rc w3,
    selected_answer os (flags ctx) source_sb path_source path_dest w2 = (rc, w3) /\
    ln_create_link os ctx path_source path_dest w =
      (Ok (if rc =? 0 then ctx else failed ctx), w3,
       (EvLstat path_source (Some source_sb) :: tr1 ++
        selected_call (flags ctx) source_sb path_source path_dest rc ::
        (if rc =? 0 then []
         else [EvWarn true "failed to create link: %s - %s"
                      [path_source; path_dest]]))%list) /\
    count is_link_call
      (EvLstat path_source (Some source_sb) :: tr1 ++
        selected_call (flags ctx) source_sb path_source path_dest rc ::
        (if rc =? 0 then []
         else [EvWarn true "failed to create link: %s - %s"
                      [path_source; path_dest]]))%list = 1%nat.
Proof. apply ln_create_link_proceed. Qed.

(** With [-L] given, on the symbolic link "sym" and a free destination. *)
Lemma ln_create_link_selects_witness :
  exists rc w3,
    selected_answer fs_os 2 sb_sym "sym" "c" fs_demo = (rc, w3) /\
    ln_create_link fs_os (mk_ln_ctx 0 2) "sym" "c" fs_demo =
      (Ok (if rc =? 0 then mk_ln_ctx 0 2 else failed (mk_ln_ctx 0 2)), w3,
       (EvLstat "sym" (Some sb_sym) :: [EvStat "c" None] ++
        selected_call 2 sb_sym "sym" "c" rc ::
        (if rc =? 0 then []
         else [EvWarn true "failed to create link: %s - %s" ["sym"; "c"]]))%list) /\
    count is_link_call
      (EvLstat "sym" (Some sb_sym) :: [EvStat "c" None] ++
        selected_call 2 sb_sym "sym" "c" rc ::
        (if rc =? 0 then []
         else [EvWarn true "failed to create link: %s - %s" ["sym"; "c"]]))%list
      = 1%nat.
Proof.
  apply (ln_create_link_selects fs_os (mk_ln_ctx 0 2) (mk_ln_ctx 0 2)
           "sym" "c" sb_sym fs_demo fs_demo fs_demo [EvStat "c" None]);
    reflexivity.
Defined.

Example selected_call_symbolic :
  selected_call 4 sb_sym "sym" "c" 0 = EvSymlink "sym" "c" 0 /\
  selected_call 6 sb_a "a" "c" 0 = EvSymlink "a" "c" 0.
Proof. split; reflexivity. Qed.

Example selected_call_follow :
  selected_call 2 sb_sym "sym" "c" 0 =
    EvLinkat AT_FDCWD "sym" AT_FDCWD "c" AT_SYMLINK_FOLLOW 0.
Proof. reflexivity. Qed.

Example selected_call_no_follow :
  selected_call 0 sb_sym "sym" "c" 0 = EvLinkat AT_FDCWD "sym" AT_FDCWD "c" 0 0.
Proof. reflexivity. Qed.

Example selected_call_plain :
  selected_call 2 sb_a "a" "c" 0 = EvLink "a" "c" 0 /\
  selected_call 0 sb_a "a" "c" 0 = EvLink "a" "c" 0.
Proof. split; reflexivity. Qed.

(** [ln_create_link] always returns, and is one step. *)
Lemma ln_create_link_post (os : OS) (ctx : ln_ctx)
    (path_source path_dest : string) (w : world os) :
  exists ctx' w' tr,
    ln_create_link os ctx path_source path_dest w = (Ok ctx', w', tr) /\
    steps_post 1 ctx ctx' tr.
Proof.
  destruct (os_lstat os path_source w) as [[source_sb|] w1] eqn:Hlstat.
  - destruct (ln_remove_dest_post os ctx source_sb path_dest w1)
      as (removed & ctx1 & w2 & tr1 & Hrun & Hctx & Hpost & Hnolink).
    destruct removed.
    + subst ctx1.
      destruct (ln_create_link_proceed os ctx ctx path_source path_dest
                  source_sb w w1 w2 tr1 Hlstat Hrun)
        as (rc & w3 & _ & Hlink & _).
      do 3 eexists. split; [exact Hlink|].
      apply steps_post_lift; try reflexivity.
      change 1%nat with (0 + 1)%nat.
      apply steps_post_app with (c1 := ctx); [exact Hpost|].
      destruct (selected_call_is_link_call (flags ctx) source_sb path_source
                  path_dest rc) as (Hl & Hw & Hf).
      unfold steps_post, count, link_created.
      destruct (rc =? 0) eqn:Hrc; simpl; rewrite Hl, Hw, Hf; simpl;
        repeat split; auto.
    + subst ctx1.
      do 3 eexists. split.
      * unfold ln_create_link, bind. unfold sys_lstat at 1.
        rewrite Hlstat, Hrun. cbv beta iota. unfold ret.
        rewrite app_nil_r. reflexivity.
      * apply steps_post_lift; try reflexivity. exact Hpost.
  - do 3 eexists. split.
    + apply ln_create_link_no_source. exact Hlstat.
    + unfold steps_post, count. simpl. repeat split; auto.
Qed.

(** ** The path composer, [ln_path_target_concat] *)

Lemma strlen_nonneg (s : string) : 0 <= strlen s.
Proof. unfold strlen. lia. Qed.

Lemma strlen_app (s1 s2 : string) : strlen (s1 ++ s2) = strlen s1 + strlen s2.
Proof.
  unfold strlen. induction s1 as [|c s1 IH]; simpl String.length.
  - simpl. lia.
  - simpl append. simpl String.length. lia.
Qed.

Lemma string_app_assoc (s1 s2 s3 : string) :
  ((s1 ++ s2) ++ s3 = s1 ++ (s2 ++ s3))%string.
Proof.
  induction s1 as [|c s1 IH]; simpl; [reflexivity | rewrite IH; reflexivity].
Qed.

Lemma strlen_pos (s : string) : s <> "" -> 1 <= strlen s.
Proof. destruct s; [congruence | unfold strlen; simpl; lia]. Qed.

Lemma get_in_bounds (s : string) (n : nat) :
  (n < String.length s)%nat -> exists c, String.get n s = Some c.
Proof.
  revert n. induction s as [|c s IH]; intros n Hn; simpl in Hn; [lia|].
  destruct n as [|n]; simpl.
  - exists c. reflexivity.
  - apply IH. lia.
Qed.

Lemma get_last (s : string) :
  s <> "" -> String.get (String.length s - 1) s = last_char s.
Proof.
  induction s as [|c s IH]; intros Hne; [congruence|].
  destruct s as [|c' s'].
  - reflexivity.
  - simpl String.length. simpl Nat.sub.
    change (String.get (S (String.length s')) (String c (String c' s')))
      with (String.get (String.length s') (String c' s')).
    replace (String.length s') with (String.length (String c' s') - 1)%nat
      by (simpl; lia).
    rewrite IH by congruence. reflexivity.
Qed.

(** The index [slen_target_dir - 1], computed in [size_t], of a target
    directory that is not empty: inside the string. *)
Lemma last_index_in_bounds (size_bits : Z) (s : string) :
  s <> "" ->
  0 <= to_size_t size_bits (strlen s - 1) < strlen s.
Proof.
  intros Hne. apply strlen_pos in Hne. unfold to_size_t.
  destruct (Z.eq_dec (2 ^ size_bits) 0) as [E|E].
  - rewrite E, Z.mod_0_r. lia.
  - assert (0 < 2 ^ size_bits).
    { destruct (Z.le_gt_cases 0 size_bits).
      - apply Z.pow_pos_nonneg; lia.
      - rewrite Z.pow_neg_r in E by lia. congruence. }
    pose proof (Z.mod_pos_bound (strlen s - 1) (2 ^ size_bits)).
    pose proof (Z.mod_le (strlen s - 1) (2 ^ size_bits)).
    lia.
Qed.

Lemma char_at_in_bounds (s : string) (i : Z) :
  0 <= i < strlen s -> exists c, char_at s i = Some c.
Proof.
  intros Hi. unfold char_at.
  destruct (Z.leb_spec 0 i); [| lia].
  destruct (Z.ltb_spec i (strlen s)); [| lia]. simpl.
  apply get_in_bounds. unfold strlen in Hi. lia.
Qed.

Lemma char_at_last (s : string) :
  s <> "" -> char_at s (strlen s - 1) = last_char s.
Proof.
  intros Hne. pose proof (strlen_pos s Hne) as Hpos. unfold char_at.
  destruct (Z.leb_spec 0 (strlen s - 1)); [| lia].
  destruct (Z.ltb_spec (strlen s - 1) (strlen s)); [| lia]. simpl.
  unfold strlen. replace (Z.to_nat (Z.of_nat (String.length s) - 1))
    with (String.length s - 1)%nat by lia.
  apply get_last. exact Hne.
Qed.

(** For the empty target directory the index wraps to SIZE_MAX and the
    read is outside the one byte of the string. *)
Lemma char_at_empty_wraps (size_bits : Z) :
  1 <= size_bits ->
  to_size_t size_bits (strlen "" - 1) = SIZE_MAX size_bits /\
  char_at "" (SIZE_MAX size_bits) = None.
Proof.
  intros Hb. unfold to_size_t, SIZE_MAX, strlen. simpl String.length.
  assert (2 <= 2 ^ size_bits).
  { change 2 with (2 ^ 1) at 1. apply Z.pow_le_mono_r; lia. }
  split.
  - symmetry. apply (Z.mod_unique _ _ (-1)); lia.
  - unfold char_at, strlen. simpl String.length.
    destruct (Z.ltb_spec (2 ^ size_bits - 1) (Z.of_nat 0)); [simpl in *; lia|].
    rewrite andb_false_r.
    destruct (Z.eqb_spec (2 ^ size_bits - 1) (Z.of_nat 0)); [simpl in *; lia|].
    reflexivity.
Qed.

(** The two additions of lines 173-174 when the lengths and the two extra
    bytes fit in [size_t]. *)
Lemma concat_len_fits (size_bits : Z) (t b : string) :
  strlen t + strlen b + 2 <= SIZE_MAX size_bits ->
  si_add_size_t size_bits (strlen t) (strlen b) = (true, strlen t + strlen b) /\
  si_add_size_t size_bits (strlen t + strlen b) 2 =
    (true, strlen t + strlen b + 2).
Proof.
  intros Hfit. pose proof (strlen_nonneg t). pose proof (strlen_nonneg b).
  split; apply si_add_size_t_fits; lia.
Qed.

(** The run of the composer on a target directory that is not empty, when
    the length fits and both allocations succeed. *)
Lemma ln_path_target_concat_joins (size_bits : Z) (os : OS)
    (target_dir source_file : string) (w w1 w2 : world os) :
  target_dir <> "" ->
  strlen target_dir + strlen (basename source_file) + 2 <= SIZE_MAX size_bits ->
  os_strdup os source_file w = (true, w1) ->
  os_malloc os (strlen target_dir + strlen (basename source_file) + 2) w1 =
    (true, w2) ->
  ln_path_target_concat size_bits os target_dir source_file w =
    (Ok (Some (target_dir ++ (if ends_in_slash target_dir then "" else "/")
                 ++ basename source_file)),
     w2,
     [EvStrdup source_file true;
      EvMalloc (strlen target_dir + strlen (basename source_file) + 2) true]).
Proof.
  intros Hne Hfit Hdup Hmalloc.
  destruct (concat_len_fits size_bits target_dir (basename source_file) Hfit)
    as [H1 H2].
  unfold ln_path_target_concat, bind. unfold strdup at 1.
  rewrite Hdup. cbv beta iota. rewrite H1. cbv beta iota. rewrite H2.
  cbv beta iota. unfold malloc at 1. rewrite Hmalloc. cbv beta iota.
  unfold read_char, ret.
  rewrite to_size_t_small
    by (pose proof (strlen_pos target_dir Hne);
        pose proof (strlen_nonneg (basename source_file)); lia).
  rewrite char_at_last by exact Hne.
  unfold ends_in_slash, is_slash.
  destruct (last_char target_dir) as [c|] eqn:Hlast.
  - destruct (Ascii.eqb c "/"); simpl.
    + reflexivity.
    + rewrite string_app_assoc. reflexivity.
  - exfalso. destruct target_dir as [|c t]; [congruence|].
    clear - Hlast. revert c Hlast.
    induction t as [|c' t IH]; intros c Hlast; simpl in Hlast;
      [discriminate | eauto].
Qed.

(** C9.  On a target directory that is not empty, when the length fits in
    [size_t] and the two allocations succeed, the composer returns the
    target directory, then a '/' unless the target directory already ends
    in one, then the POSIX basename of the source; the text and its
    terminator fit the buffer allocated.  The lemma that follows this one
    derives the two runs named in the specification. *)
Theorem ln_path_target_concat_correct (size_bits : Z) (os : OS)
    (target_dir source_file : string) (w w1 w2 : world os) :
  target_dir <> "" ->
  strlen target_dir + strlen (basename source_file) + 2 <= SIZE_MAX size_bits ->
  os_strdup os source_file w = (true, w1) ->
  os_malloc os (strlen target_dir + strlen (basename source_file) + 2) w1 =
    (true, w2) ->
  ln_path_target_concat size_bits os target_dir source_file w =
    (Ok (Some (target_dir ++ (if ends_in_slash target_dir then "" else "/")
                 ++ basename source_file)),
     w2,
     [EvStrdup source_file true;
      EvMalloc (strlen target_dir + strlen (basename source_file) + 2) true]) /\
  strlen (target_dir ++ (if ends_in_slash target_dir then "" else "/")
            ++ basename source_file) + 1
    <= strlen target_dir + strlen (basename source_file) + 2.
Proof.
  intros Hne Hfit Hdup Hmalloc. split.
  - apply ln_path_target_concat_joins with (w1 := w1); assumption.
  - rewrite !strlen_app.
    destruct (ends_in_slash target_dir);
      [change (strlen "") with 0 | change (strlen "/") with 1]; lia.
Qed.

Lemma ln_path_target_concat_correct_witness :
  (ln_path_target_concat 64 fs_os "dir" "a/b/file.txt" fs_demo =
     (Ok (Some "dir/file.txt"), fs_demo,
      [EvStrdup "a/b/file.txt" true; EvMalloc 13 true]) /\
   strlen "dir/file.txt" + 1 <= 13) /\
  (ln_path_target_concat 64 fs_os "dir/" "file.txt" fs_demo =
     (Ok (Some "dir/file.txt"), fs_demo,
      [EvStrdup "file.txt" true; EvMalloc 14 true]) /\
   strlen "dir/file.txt" + 1 <= 14).
Proof.
  split.
  - apply (ln_path_target_concat_correct 64 fs_os "dir" "a/b/file.txt"
             fs_demo fs_demo fs_demo);
      [discriminate | vm_compute; discriminate | reflexivity | reflexivity].
  - apply (ln_path_target_concat_correct 64 fs_os "dir/" "file.txt"
             fs_demo fs_demo fs_demo);
      [discriminate | vm_compute; discriminate | reflexivity | reflexivity].
Defined.

(** On a target directory that is not empty the composer always returns,
    having made allocation calls only; it returns the null pointer only
    after an allocation failed or an addition wrapped, and a path only
    when no call failed. *)
Lemma ln_path_target_concat_post (size_bits : Z) (os : OS)
    (target_dir source_file : string) (w : world os) :
  target_dir <> "" ->
  exists r w' tr,
    ln_path_target_concat size_bits os target_dir source_file w = (Ok r, w', tr) /\
    existsb is_warn tr = false /\
    existsb link_created tr = false /\
    existsb is_mutation tr = false /\
    (r <> None -> existsb call_failed tr = false) /\
    (r = None ->
       existsb call_failed tr = true \/
       fst (si_add_size_t size_bits (strlen target_dir)
              (strlen (basename source_file))) = false \/
       fst (si_add_size_t size_bits
              (snd (si_add_size_t size_bits (strlen target_dir)
                      (strlen (basename source_file)))) 2) = false).
Proof.
  intros Hne.
  unfold ln_path_target_concat, bind. unfold strdup at 1.
  destruct (os_strdup os source_file w) as [[|] w1]; cbv beta iota.
  2: { do 3 eexists. split; [reflexivity|]. simpl.
       repeat split; auto; congruence. }
  destruct (si_add_size_t size_bits (strlen target_dir)
              (strlen (basename source_file))) as [[|] n1]; cbv beta iota.
  2: { do 3 eexists. split; [reflexivity|]. simpl.
       repeat split; auto; congruence. }
  simpl snd.
  destruct (si_add_size_t size_bits n1 2) as [[|] n2]; cbv beta iota.
  2: { do 3 eexists. split; [reflexivity|]. simpl.
       repeat split; auto; congruence. }
  unfold malloc at 1.
  destruct (os_malloc os n2 w1) as [[|] w2]; cbv beta iota.
  2: { do 3 eexists. split; [reflexivity|]. simpl.
       repeat split; auto; congruence. }
  destruct (char_at_in_bounds target_dir
              (to_size_t size_bits (strlen target_dir - 1))
              (last_index_in_bounds size_bits target_dir Hne)) as [c Hc].
  unfold read_char. rewrite Hc. unfold ret.
  do 3 eexists. split; [reflexivity|]. simpl.
  repeat split; auto; congruence.
Qed.

(** On the empty target directory, when the allocations succeed, the
    composer reads [target_dir[SIZE_MAX]]: outside the string. *)
Lemma ln_path_target_concat_empty (size_bits : Z) (os : OS)
    (source_file : string) (w w1 w2 : world os) :
  1 <= size_bits ->
  strlen (basename source_file) + 2 <= SIZE_MAX size_bits ->
  os_strdup os source_file w = (true, w1) ->
  os_malloc os (strlen (basename source_file) + 2) w1 = (true, w2) ->
  ln_path_target_concat size_bits os "" source_file w =
    (Fault (OutOfBoundsRead "" (SIZE_MAX size_bits)), w2,
     [EvStrdup source_file true;
      EvMalloc (strlen (basename source_file) + 2) true]).
Proof.
  intros Hbits Hfit Hdup Hmalloc.
  destruct (concat_len_fits size_bits "" (basename source_file)) as [H1 H2].
  { unfold strlen at 1. simpl. exact Hfit. }
  destruct (char_at_empty_wraps size_bits Hbits) as [Hidx Hread].
  unfold ln_path_target_concat, bind. unfold strdup at 1.
  rewrite Hdup. cbv beta iota. rewrite H1. cbv beta iota. rewrite H2.
  cbv beta iota. unfold malloc at 1.
  change (strlen "" + strlen (basename source_file) + 2)
    with (strlen (basename source_file) + 2).
  rewrite Hmalloc. cbv beta iota.
  unfold read_char. rewrite Hidx, Hread. reflexivity.
Qed.




(** ** One operand into a directory, [ln_target_dir], and the loop *)

Lemma no_warn_forallb (tr : list event) :
  existsb is_warn tr = false ->
  forallb (fun e => implb (is_warn e) (is_step_warn e)) tr = true.
Proof.
  induction tr as [|e tr IH]; simpl; [reflexivity|].
  intros H. apply orb_false_iff in H. destruct H as [He Ht].
  rewrite He. simpl. auto.
Qed.

(** Calls without a diagnostic or a link created, then one diagnostic of a
    step: one failed step. *)
Lemma steps_post_then_warn (ctx : ln_ctx) (tr : list event)
    (errno_msg : bool) (fmt : string) (args : list string) :
  existsb is_warn tr = false ->
  existsb link_created tr = false ->
  fmt_in fmt step_fmts = true ->
  steps_post 1 ctx (failed ctx) (tr ++ [EvWarn errno_msg fmt args]).
Proof.
  intros Hw Hl Hfmt. unfold steps_post.
  autorewrite with trace. rewrite (no_warn_forallb tr Hw).
  apply count_zero_existsb in Hl. rewrite Hl.
  rewrite Hw. apply count_zero_existsb in Hw. rewrite Hw.
  unfold count. cbn -[fmt_in]. rewrite Hfmt.
  repeat split; auto; rewrite orb_true_r; reflexivity.
Qed.

(** [ln_target_dir] into a target directory that is not empty always
    returns, and is one step. *)
Lemma ln_target_dir_post (size_bits : Z) (os : OS) (ctx : ln_ctx)
    (source_file target_dir : string) (w : world os) :
  target_dir <> "" ->
  exists ctx' w' tr,
    ln_target_dir size_bits os ctx source_file target_dir w = (Ok ctx', w', tr) /\
    steps_post 1 ctx ctx' tr.
Proof.
  intros Hne.
  destruct (ln_path_target_concat_post size_bits os target_dir source_file w Hne)
    as (r & w1 & t1 & Hrun & Hw & Hl & _ & Hsome & _).
  unfold ln_target_dir, bind. rewrite Hrun.
  destruct r as [path_dest|].
  - destruct (ln_create_link_post os ctx source_file path_dest w1)
      as (ctx' & w' & t2 & Hlink & Hpost).
    rewrite Hlink. do 3 eexists. split; [reflexivity|].
    change 1%nat with (0 + 1)%nat.
    apply steps_post_app with (c1 := ctx); [| exact Hpost].
    apply steps_post_quiet; auto. apply Hsome. discriminate.
  - unfold ln_warn. do 3 eexists. split; [reflexivity|].
    apply steps_post_then_warn; auto.
Qed.

Lemma ln_target_dir_loop_post (size_bits : Z) (os : OS)
    (sources : list string) (target_dir : string) :
  target_dir <> "" ->
  forall (ctx : ln_ctx) (w : world os),
  exists ctx' w' tr,
    ln_target_dir_loop size_bits os ctx sources target_dir w = (Ok ctx', w', tr) /\
    steps_post (List.length sources) ctx ctx' tr.
Proof.
  intros Hne. induction sources as [|s sources IH]; intros ctx w.
  - do 3 eexists. split; [reflexivity|].
    apply steps_post_quiet; reflexivity.
  - destruct (ln_target_dir_post size_bits os ctx s target_dir w Hne)
      as (c1 & w1 & t1 & Hrun1 & Hpost1).
    destruct (IH c1 w1) as (c2 & w2 & t2 & Hrun2 & Hpost2).
    do 3 eexists. split.
    + simpl. apply bind_ok with (1 := Hrun1). exact Hrun2.
    + change (List.length (s :: sources)) with (1 + List.length sources)%nat.
      apply steps_post_app with (c1 := c1); assumption.
Qed.

(** The loop over a list of sources in two parts is the loop over the
    first part followed by the loop over the second. *)
Lemma ln_target_dir_loop_app (size_bits : Z) (os : OS)
    (pre post : list string) (target_dir : string) :
  forall (ctx : ln_ctx) (w : world os),
    ln_target_dir_loop size_bits os ctx (pre ++ post) target_dir w =
    bind os (ln_target_dir_loop size_bits os ctx pre target_dir)
         (fun ctx1 => ln_target_dir_loop size_bits os ctx1 post target_dir) w.
Proof.
  induction pre as [|s pre IH]; intros ctx w.
  - simpl. unfold bind, ret.
    destruct (ln_target_dir_loop size_bits os ctx post target_dir w)
      as [[r w'] tr]. reflexivity.
  - simpl. unfold bind.
    destruct (ln_target_dir size_bits os ctx s target_dir w)
      as [[[c1|f] w1] t1]; [| reflexivity].
    rewrite IH. unfold bind.
    destruct (ln_target_dir_loop size_bits os c1 pre target_dir w1)
      as [[[c2|f] w2] t2]; [| reflexivity].
    destruct (ln_target_dir_loop size_bits os c2 post target_dir w2)
      as [[r w3] t3].
    rewrite app_assoc. reflexivity.
Qed.

(** ** The operands, [ln_main] from line 377 *)

Lemma ln_main_operands_few (size_bits : Z) (os : OS) (ctx : ln_ctx)
    (argc : Z) (argv : list string) (w : world os) :
  argc < 2 ->
  ln_main_operands size_bits os ctx argc argv w =
    (Ok (failed ctx), w, [EvWarn false "must have >=2 file arguments" []]).
Proof.
  intros Hlt. unfold ln_main_operands.
  destruct (Z.ltb_spec argc 2); [reflexivity | lia].
Qed.

Lemma ln_main_operands_run (size_bits : Z) (os : OS) (ctx : ln_ctx)
    (init : list string) (target : string) (w : world os) :
  status_code ctx = EXIT_SUCCESS ->
  (1 <= List.length init)%nat ->
  ln_main_operands size_bits os ctx
    (Z.of_nat (List.length (init ++ [target]))) (init ++ [target]) w =
  let (r, w1) := os_stat os target w in
  if is_directory r then
    match ln_target_dir_loop size_bits os ctx init target w1 with
    | (res, w2, tr) => (res, w2, EvStat target r :: tr)
    end
  else if (2 <=? List.length init)%nat then
    (Ok (failed ctx), w1, [EvStat target r; EvWarn false (rejection_fmt r) []])
  else
    match ln_create_link os ctx (nth 0 (init ++ [target]) "")
                         (nth 1 (init ++ [target]) "") w1 with
    | (res, w2, tr) => (res, w2, EvStat target r :: tr)
    end.
Proof.
  intros Hst Hlen. unfold ln_main_operands.
  rewrite length_app. change (List.length [target]) with 1%nat.
  destruct (Z.ltb_spec (Z.of_nat (List.length init + 1)) 2); [lia|].
  replace (Z.to_nat (Z.of_nat (List.length init + 1) - 1))
    with (List.length init) by lia.
  assert (Hnth : nth (List.length init) (init ++ [target]) "" = target)
    by (rewrite app_nth2, Nat.sub_diag by lia; reflexivity).
  assert (Hfirst : firstn (List.length init) (init ++ [target]) = init)
    by (rewrite firstn_app, Nat.sub_diag, firstn_all; simpl;
        apply app_nil_r).
  rewrite Hnth, Hfirst.
  unfold bind at 1. unfold sys_stat at 1.
  destruct (os_stat os target w) as [r w1].
  destruct (Nat.leb_spec 2 (List.length init)) as [Hmany|Htwo].
  - (* more than two operands *)
    destruct (Z.gtb_spec (Z.of_nat (List.length init + 1)) 2); [| lia].
    destruct (Z.eqb_spec (Z.of_nat (List.length init + 1)) 2); [lia|].
    destruct r as [sb|]; unfold is_directory.
    + destruct (S_ISDIR (st_mode sb)).
      * unfold bind.
        destruct (ln_target_dir_loop size_bits os ctx init target w1)
          as [[[c|f] w2] tr]; [| reflexivity].
        unfold ret. simpl. rewrite !app_nil_r. reflexivity.
      * unfold_run. reflexivity.
    + unfold_run. rewrite Hst. reflexivity.
  - (* exactly two operands *)
    destruct (Z.gtb_spec (Z.of_nat (List.length init + 1)) 2); [lia|].
    destruct (Z.eqb_spec (Z.of_nat (List.length init + 1)) 2); [| lia].
    destruct r as [sb|]; unfold is_directory.
    + destruct (S_ISDIR (st_mode sb)).
      * unfold bind.
        destruct (ln_target_dir_loop size_bits os ctx init target w1)
          as [[[c|f] w2] tr]; [| reflexivity].
        unfold ret. simpl. rewrite !app_nil_r. reflexivity.
      * unfold bind at 1. unfold ret. rewrite Hst. simpl.
        destruct (ln_create_link os ctx (nth 0 (init ++ [target]) "")
                    (nth 1 (init ++ [target]) "") w1) as [[res w2] tr].
        reflexivity.
    + unfold bind at 1. unfold ret. rewrite Hst. simpl.
      destruct (ln_create_link os ctx (nth 0 (init ++ [target]) "")
                  (nth 1 (init ++ [target]) "") w1) as [[res w2] tr].
      reflexivity.
Qed.

Lemma split_last (ops : list string) :
  (2 <= List.length ops)%nat ->
  exists init target,
    ops = (init ++ [target])%list /\ (1 <= List.length init)%nat /\
    last ops "" = target /\ removelast ops = init.
Proof.
  intros Hlen.
  destruct (exists_last (l := ops)) as (init & target & ->).
  { intros ->. simpl in Hlen. lia. }
  exists init, target. rewrite length_app in Hlen. simpl in Hlen.
  rewrite last_last, removelast_last. repeat split; lia.
Qed.

(** The loop of lines 386-388 is the batch of the specification: source
    by source, composition, then link creation on the source and the path
    composed, or the "alloc" diagnostic. *)
Lemma ln_target_dir_loop_batch (size_bits : Z) (os : OS)
    (sources : list string) (target_dir : string) (ctx : ln_ctx)
    (w : world os) :
  ln_target_dir_loop size_bits os ctx sources target_dir w =
  batch_into_directory size_bits os ctx sources target_dir w.
Proof.
  revert ctx w. induction sources as [|source_file sources IH]; intros ctx w;
    [reflexivity|].
  cbn [ln_target_dir_loop batch_into_directory].
  unfold bind at 1. unfold ln_target_dir. unfold bind at 1.
  destruct (ln_path_target_concat size_bits os target_dir source_file w)
    as [[[[path_dest|]|f] w1] t1]; [| | reflexivity].
  - destruct (ln_create_link os ctx source_file path_dest w1)
      as [[[ctx1|f] w2] t2]; [| reflexivity].
    rewrite IH.
    destruct (batch_into_directory size_bits os ctx1 sources target_dir w2)
      as [[res w3] t3].
    rewrite <- app_assoc. reflexivity.
  - unfold ln_warn at 1. cbv beta iota. rewrite IH.
    change (mk_ln_ctx EXIT_FAILURE (flags ctx)) with (failed ctx).
    destruct (batch_into_directory size_bits os (failed ctx) sources
                target_dir w1) as [[res w3] t3].
    rewrite <- app_assoc. reflexivity.
Qed.

(** C5.  The operands left after the flags, in a context whose status is
    still success (line 377).  Fewer than two: failure, one diagnostic, no
    call at all.  Otherwise the last operand is looked at with [stat].  If
    it is a directory, whatever the number of operands, the run is the
    batch over every other operand: for each of them in order, the path is
    composed from the last operand and that source, and [ln_create_link]
    is run on that source and the path composed (or "alloc" is reported
    when no path was composed), each step starting in the context and the
    world the step before it left; the branch of line 396 is not entered.
    In particular, with two operands of which the second is a directory,
    the run is a composition and a link creation into the directory, not
    [ln_create_link] on the two operands.  If the last operand is not a
    directory and there are more than two operands: failure, one
    diagnostic, no further call.  If it is not a directory and there are
    exactly two operands: [ln_create_link] once, on the first and the
    second. *)
Theorem ln_main_operands_cases (size_bits : Z) (os : OS) (ctx : ln_ctx)
    (ops : list string) (w : world os) :
  status_code ctx = EXIT_SUCCESS ->
  ((List.length ops < 2)%nat ->
     ln_main_operands size_bits os ctx (Z.of_nat (List.length ops)) ops w =
       (Ok (failed ctx), w, [EvWarn false "must have >=2 file arguments" []])) /\
  ((2 <= List.length ops)%nat ->
   forall r w1,
     os_stat os (last ops "") w = (r, w1) ->
     (is_directory r = true ->
        ln_main_operands size_bits os ctx (Z.of_nat (List.length ops)) ops w =
          match batch_into_directory size_bits os ctx (removelast ops)
                                     (last ops "") w1 with
          | (res, w2, tr) => (res, w2, EvStat (last ops "") r :: tr)
          end) /\
     (is_directory r = true -> List.length ops = 2%nat ->
        ln_main_operands size_bits os ctx (Z.of_nat (List.length ops)) ops w =
          match ln_path_target_concat size_bits os (nth 1 ops "")
                                      (nth 0 ops "") w1 with
          | (Ok (Some path_dest), w2, t1) =>
              match ln_create_link os ctx (nth 0 ops "") path_dest w2 with
              | (res, w3, t2) =>
                  (res, w3, (EvStat (nth 1 ops "") r :: t1 ++ t2)%list)
              end
          | (Ok None, w2, t1) =>
              (Ok (failed ctx), w2,
               (EvStat (nth 1 ops "") r :: t1 ++ [EvWarn true "alloc" []])%list)
          | (Fault f, w2, t1) => (Fault f, w2, EvStat (nth 1 ops "") r :: t1)
          end) /\
     (is_directory r = false -> (2 < List.length ops)%nat ->
        ln_main_operands size_bits os ctx (Z.of_nat (List.length ops)) ops w =
          (Ok (failed ctx), w1,
           [EvStat (last ops "") r; EvWarn false (rejection_fmt r) []])) /\
     (is_directory r = false -> List.length ops = 2%nat ->
        ln_main_operands size_bits os ctx (Z.of_nat (List.length ops)) ops w =
          match ln_create_link os ctx (nth 0 ops "") (nth 1 ops "") w1 with
          | (res, w2, tr) => (res, w2, EvStat (last ops "") r :: tr)
          end)).
Proof.
  intros Hst. split.
  - intros Hlen. apply ln_main_operands_few. lia.
  - intros Hlen r w1 Hstat.
    assert (Hbatch :
      is_directory r = true ->
      ln_main_operands size_bits os ctx (Z.of_nat (List.length ops)) ops w =
        match batch_into_directory size_bits os ctx (removelast ops)
                                   (last ops "") w1 with
        | (res, w2, tr) => (res, w2, EvStat (last ops "") r :: tr)
        end).
    { destruct (split_last ops Hlen)
        as (init & target & Hops & Hinit & Hlast & Hrem).
      rewrite Hlast, Hrem in *. clear Hlast Hrem. subst ops. intros Hdir.
      rewrite ln_main_operands_run by assumption.
      rewrite Hstat, Hdir, ln_target_dir_loop_batch. reflexivity. }
    split; [exact Hbatch|]. split.
    { intros Hdir Htwo. rewrite (Hbatch Hdir).
      destruct ops as [|src [|dst [|x ops]]]; try discriminate Htwo.
      cbn [removelast last nth batch_into_directory].
      destruct (ln_path_target_concat size_bits os dst src w1)
        as [[[[path_dest|]|f] w2] t1]; [| | reflexivity].
      - destruct (ln_create_link os ctx src path_dest w2)
          as [[[ctx1|f] w3] t2]; [| reflexivity].
        rewrite app_nil_r. reflexivity.
      - reflexivity. }
    clear Hbatch.
    destruct (split_last ops Hlen) as (init & target & Hops & Hinit & Hlast & Hrem).
    rewrite Hlast in *. clear Hlast Hrem. subst ops.
    rewrite ln_main_operands_run by assumption.
    rewrite Hstat. rewrite length_app. simpl List.length.
    split.
    + intros Hdir Hmany. rewrite Hdir.
      destruct (Nat.leb_spec 2 (List.length init)); [reflexivity | lia].
    + intros Hdir Htwo. rewrite Hdir.
      destruct (Nat.leb_spec 2 (List.length init)); [lia | reflexivity].
Qed.

(** "a b missing dir" with [-f] unset, "dir" being a directory: the batch
    composes "dir/a" and links it, composes "dir/b" and links it, composes
    "dir/missing" and reports the source that does not exist. *)
Lemma ln_main_operands_cases_witness :
  status_code (mk_ln_ctx 0 0) = EXIT_SUCCESS /\
  (2 <= List.length ["a"; "b"; "missing"; "dir"])%nat /\
  os_stat fs_os (last ["a"; "b"; "missing"; "dir"] "") fs_demo =
    (Some sb_dir, fs_demo) /\
  is_directory (Some sb_dir) = true /\
  ln_main_operands 64 fs_os (mk_ln_ctx 0 0) 4 ["a"; "b"; "missing"; "dir"]
                   fs_demo =
    (Ok (mk_ln_ctx 1 0),
     (fs_demo ++ [mk_entry "dir/a" sb_a (Some sb_a);
                  mk_entry "dir/b" sb_b (Some sb_b)])%list,
     [EvStat "dir" (Some sb_dir);
      EvStrdup "a" true; EvMalloc 6 true; EvLstat "a" (Some sb_a);
      EvStat "dir/a" None; EvLink "a" "dir/a" 0;
      EvStrdup "b" true; EvMalloc 6 true; EvLstat "b" (Some sb_b);
      EvStat "dir/b" None; EvLink "b" "dir/b" 0;
      EvStrdup "missing" true; EvMalloc 12 true; EvLstat "missing" None;
      EvWarn true "lstat(%s)" ["missing"]]).
Proof.
  assert (Hst : status_code (mk_ln_ctx 0 0) = EXIT_SUCCESS) by reflexivity.
  assert (Hlen : (2 <= List.length ["a"; "b"; "missing"; "dir"])%nat)
    by (simpl; lia).
  assert (Hstat : os_stat fs_os (last ["a"; "b"; "missing"; "dir"] "") fs_demo
                  = (Some sb_dir, fs_demo)) by reflexivity.
  assert (Hdir : is_directory (Some sb_dir) = true) by reflexivity.
  destruct (ln_main_operands_cases 64 fs_os (mk_ln_ctx 0 0)
              ["a"; "b"; "missing"; "dir"] fs_demo Hst) as [_ Hrows].
  destruct (Hrows Hlen (Some sb_dir) fs_demo Hstat) as (Hbatch & _).
  split; [exact Hst|]. split; [exact Hlen|]. split; [exact Hstat|].
  split; [exact Hdir|].
  change 4 with (Z.of_nat (List.length ["a"; "b"; "missing"; "dir"])).
  rewrite (Hbatch Hdir). vm_compute. reflexivity.
Defined.

Example ln_main_operands_into_directory :
  ln_main_operands 64 fs_os (mk_ln_ctx 0 0) 2 ["a"; "dir"] fs_demo =
    (Ok (mk_ln_ctx 0 0),
     (fs_demo ++ [mk_entry "dir/a" sb_a (Some sb_a)])%list,
     [EvStat "dir" (Some sb_dir); EvStrdup "a" true; EvMalloc 6 true;
      EvLstat "a" (Some sb_a); EvStat "dir/a" None; EvLink "a" "dir/a" 0]).
Proof. vm_compute. reflexivity. Qed.

Example ln_main_operands_two_paths :
  ln_main_operands 64 fs_os (mk_ln_ctx 0 0) 2 ["a"; "b"] fs_demo =
    (Ok (mk_ln_ctx 1 0), fs_demo,
     [EvStat "b" (Some sb_b); EvLstat "a" (Some sb_a); EvStat "b" (Some sb_b);
      EvWarn false "destination already exists: %s" ["b"]]).
Proof. vm_compute. reflexivity. Qed.

Example ln_main_operands_three_no_directory :
  ln_main_operands 64 fs_os (mk_ln_ctx 0 0) 3 ["a"; "b"; "noexist"] fs_demo =
    (Ok (mk_ln_ctx 1 0), fs_demo,
     [EvStat "noexist" None;
      EvWarn false "only 2 operands allowed if final operand not a directory" []])
  /\
  ln_main_operands 64 fs_os (mk_ln_ctx 0 0) 3 ["a"; "a"; "a"] fs_demo =
    (Ok (mk_ln_ctx 1 0), fs_demo,
     [EvStat "a" (Some sb_a);
      EvWarn false "final operand must be directory if > 2 operands" []]).
Proof. split; vm_compute; reflexivity. Qed.

(** ** Flag parsing *)

Lemma getopt_cluster_map (optstring cs : string) :
  getopt_cluster optstring cs =
  map (getopt_char optstring) (list_ascii_of_string cs).
Proof.
  induction cs as [|c cs IH]; simpl; [reflexivity | rewrite IH; reflexivity].
Qed.

Lemma flag_chars_nextchar (a : string) :
  flag_chars a = list_ascii_of_string (nextchar a).
Proof. destruct a; reflexivity. Qed.

(** [getopt] reads exactly the flag tokens, leaves exactly the operands,
    and every argument is one or the other or the "--" between them. *)
Lemma getopt_scan_parts (ord : ordering) (optstring : string)
    (args : list string) :
  fst (fst (getopt_scan ord optstring args)) =
    map (getopt_char optstring) (flat_map flag_chars (flag_tokens ord args)) /\
  snd (getopt_scan ord optstring args) = operand_args ord args /\
  (List.length (snd (fst (getopt_scan ord optstring args))) +
   List.length (operand_args ord args) = List.length args)%nat.
Proof.
  induction args as [|a args IH]; [simpl; auto|].
  cbn [getopt_scan flag_tokens operand_args].
  destruct (String.eqb a "--").
  - simpl. auto.
  - destruct (is_option_arg a).
    + destruct (getopt_scan ord optstring args) as [[rs oa] ops].
      cbn [fst snd] in *. destruct IH as (IH1 & IH2 & IH3).
      cbn [flat_map List.length]. rewrite map_app, <- IH1, getopt_cluster_map,
        flag_chars_nextchar.
      split; [reflexivity | split; [exact IH2 | lia]].
    + destruct ord.
      * cbn [fst snd List.length]. auto.
      * destruct (getopt_scan PERMUTE optstring args) as [[rs oa] ops].
        cbn [fst snd] in *. destruct IH as (IH1 & IH2 & IH3).
        cbn [List.length].
        split; [exact IH1 | split; [rewrite IH2; reflexivity | lia]].
Qed.

Lemma unrecognized_getopt_char (c : ascii) :
  unrecognized (getopt_char "fLPs" c) = unrecognized c.
Proof.
  unfold getopt_char, unrecognized.
  destruct (string_mem c "fLPs") eqn:E; [rewrite E; reflexivity | reflexivity].
Qed.

Lemma recognized_getopt_char (c : ascii) :
  unrecognized c = false -> getopt_char "fLPs" c = c.
Proof.
  unfold getopt_char, unrecognized. destruct (string_mem c "fLPs");
    [reflexivity | discriminate].
Qed.

Lemma getopt_all_option_chars (ord : ordering) (argv : list string) :
  fst (fst (getopt_all ord "fLPs" argv)) =
  map (getopt_char "fLPs") (option_chars ord argv).
Proof.
  unfold getopt_all, option_chars. destruct argv as [|prog args];
    [reflexivity|].
  destruct (getopt_scan_parts ord "fLPs" args) as [Ho _].
  destruct (getopt_scan ord "fLPs" args) as [[rs oa] ops]. exact Ho.
Qed.

Lemma existsb_unrecognized_getopt (l : list ascii) :
  existsb unrecognized (map (getopt_char "fLPs") l) = existsb unrecognized l.
Proof.
  induction l as [|c l IH]; simpl; [reflexivity|].
  rewrite unrecognized_getopt_char, IH. reflexivity.
Qed.

(** What [ln_main] holds at line 377: the context folded over the values
    [getopt] returned, one for each character of each flag token; the
    operands; and their number ([argc] is -1 when [argv] was empty). *)
Lemma ln_main_getopt_parts (ord : ordering) (argv : list string) :
  ln_main_getopt ord argv =
  (fold_left ln_main_option
     (map (getopt_char "fLPs") (option_chars ord argv)) (mk_ln_ctx 0 0),
   match argv with
   | [] => -1
   | _ :: _ => Z.of_nat (List.length (operand_args ord (tl argv)))
   end,
   operand_args ord (tl argv)).
Proof.
  unfold ln_main_getopt, getopt_all, option_chars.
  destruct argv as [|prog args]; [reflexivity|].
  cbn [tl].
  destruct (getopt_scan_parts ord "fLPs" args) as (Ho & Hops & Hlen).
  destruct (getopt_scan ord "fLPs" args) as [[rs oa] ops].
  cbn [fst snd] in *. subst rs ops.
  f_equal; [f_equal|].
  - cbn [List.length]. lia.
  - cbn [skipn]. rewrite skipn_app, skipn_all, Nat.sub_diag. reflexivity.
Qed.

Lemma operands_of_operand_args (ord : ordering) (argv : list string) :
  operands_of ord argv = operand_args ord (tl argv).
Proof. unfold operands_of. rewrite ln_main_getopt_parts. reflexivity. Qed.

Lemma parsed_ctx_fold (ord : ordering) (argv : list string) :
  parsed_ctx ord argv =
  fold_left ln_main_option
    (map (getopt_char "fLPs") (option_chars ord argv)) (mk_ln_ctx 0 0).
Proof. unfold parsed_ctx. rewrite ln_main_getopt_parts. reflexivity. Qed.

(** The [switch]: an unrecognized value sets the status and nothing else;
    a recognized one changes the flags and nothing else. *)
Lemma ln_main_option_status (ctx : ln_ctx) (c : ascii) :
  status_code (ln_main_option ctx c) =
  if unrecognized c then EXIT_FAILURE else status_code ctx.
Proof.
  unfold ln_main_option, unrecognized. simpl string_mem.
  destruct (Ascii.eqb c "f"); [reflexivity|].
  destruct (Ascii.eqb c "L"); [reflexivity|].
  destruct (Ascii.eqb c "P"); [reflexivity|].
  destruct (Ascii.eqb c "s"); reflexivity.
Qed.

Lemma ln_main_option_flags (ctx : ln_ctx) (c : ascii) :
  unrecognized c = true -> flags (ln_main_option ctx c) = flags ctx.
Proof.
  unfold ln_main_option, unrecognized. simpl string_mem.
  destruct (Ascii.eqb c "f"); [discriminate|].
  destruct (Ascii.eqb c "L"); [discriminate|].
  destruct (Ascii.eqb c "P"); [discriminate|].
  destruct (Ascii.eqb c "s"); [discriminate | reflexivity].
Qed.

Lemma ln_main_option_flags_status (ctx : ln_ctx) (c : ascii) (st : Z) :
  flags (ln_main_option (mk_ln_ctx st (flags ctx)) c) =
  flags (ln_main_option ctx c).
Proof.
  unfold ln_main_option.
  repeat match goal with |- context [if ?b then _ else _] => destruct b end;
    reflexivity.
Qed.

Lemma fold_option_status (opts : list ascii) (ctx : ln_ctx) :
  status_code (fold_left ln_main_option opts ctx) =
  if existsb unrecognized opts then EXIT_FAILURE else status_code ctx.
Proof.
  revert ctx. induction opts as [|c opts IH]; intros ctx; simpl;
    [reflexivity|].
  rewrite IH, ln_main_option_status.
  destruct (unrecognized c), (existsb unrecognized opts); reflexivity.
Qed.

Lemma fold_option_flags_eq (opts : list ascii) (c1 c2 : ln_ctx) :
  flags c1 = flags c2 ->
  flags (fold_left ln_main_option opts c1) =
  flags (fold_left ln_main_option opts c2).
Proof.
  revert c1 c2. induction opts as [|c opts IH]; intros c1 c2 H; simpl;
    [exact H|].
  apply IH. destruct c1 as [s1 f1], c2 as [s2 f2]. simpl in H. subst f2.
  apply (ln_main_option_flags_status (mk_ln_ctx s2 f1) c s1).
Qed.

(** The loop goes on after an unrecognized value: the flags at its end
    are those of all the recognized values, before or after it. *)
Lemma fold_option_flags (opts : list ascii) (ctx : ln_ctx) :
  flags (fold_left ln_main_option opts ctx) =
  flags (fold_left ln_main_option
           (filter (fun c => negb (unrecognized c)) opts) ctx).
Proof.
  revert ctx. induction opts as [|c opts IH]; intros ctx; simpl;
    [reflexivity|].
  destruct (unrecognized c) eqn:Hc; simpl.
  - rewrite IH. apply fold_option_flags_eq. apply ln_main_option_flags.
    exact Hc.
  - apply IH.
Qed.

Lemma filter_recognized_getopt (l : list ascii) :
  filter (fun c => negb (unrecognized c)) (map (getopt_char "fLPs") l) =
  filter (fun c => negb (unrecognized c)) l.
Proof.
  induction l as [|c l IH]; simpl; [reflexivity|].
  rewrite unrecognized_getopt_char.
  destruct (unrecognized c) eqn:Hc; simpl; [exact IH|].
  rewrite recognized_getopt_char by exact Hc. rewrite IH. reflexivity.
Qed.

Lemma parsed_ctx_status (ord : ordering) (argv : list string) :
  status_code (parsed_ctx ord argv) =
  if has_unrecognized_flag ord argv then EXIT_FAILURE else EXIT_SUCCESS.
Proof.
  rewrite parsed_ctx_fold, fold_option_status, existsb_unrecognized_getopt.
  reflexivity.
Qed.

Lemma parsed_ctx_recognized (ord : ordering) (argv : list string) :
  flags (parsed_ctx ord argv) =
  flags (fold_left ln_main_option
           (filter (fun c => negb (unrecognized c)) (option_chars ord argv))
           (mk_ln_ctx 0 0)).
Proof.
  rewrite parsed_ctx_fold, fold_option_flags, filter_recognized_getopt.
  reflexivity.
Qed.

(** [ln_main] in two stages: the flags, then the operands. *)
Lemma ln_main_run (size_bits : Z) (os : OS) (ord : ordering)
    (argv : list string) (w : world os) :
  ln_main size_bits os ord argv w =
  if has_unrecognized_flag ord argv then (Ok EXIT_FAILURE, w, [])
  else
    match ln_main_operands size_bits os (parsed_ctx ord argv)
            (Z.of_nat (List.length (operands_of ord argv)))
            (operands_of ord argv) w with
    | (Ok ctx, w', tr) => (Ok (status_code ctx), w', tr)
    | (Fault f, w', tr) => (Fault f, w', tr)
    end.
Proof.
  pose proof (parsed_ctx_status ord argv) as Hst.
  unfold ln_main, parsed_ctx, operands_of in *.
  rewrite ln_main_getopt_parts in *. cbn [fst snd] in *.
  set (ctx := fold_left ln_main_option
                (map (getopt_char "fLPs") (option_chars ord argv))
                (mk_ln_ctx 0 0)) in *.
  unfold bind. rewrite Hst.
  destruct (has_unrecognized_flag ord argv).
  { change (EXIT_FAILURE =? EXIT_SUCCESS) with false. unfold ret.
    cbv beta iota. rewrite Hst. reflexivity. }
  change (EXIT_SUCCESS =? EXIT_SUCCESS) with true. cbv iota.
  assert (Hargs :
    ln_main_operands size_bits os ctx
      match argv with
      | [] => -1
      | _ :: _ => Z.of_nat (List.length (operand_args ord (tl argv)))
      end (operand_args ord (tl argv)) w =
    ln_main_operands size_bits os ctx
      (Z.of_nat (List.length (operand_args ord (tl argv))))
      (operand_args ord (tl argv)) w).
  { destruct argv as [|a argv]; [| reflexivity].
    rewrite !ln_main_operands_few by (simpl; lia). reflexivity. }
  rewrite Hargs.
  destruct (ln_main_operands size_bits os ctx
              (Z.of_nat (List.length (operand_args ord (tl argv))))
              (operand_args ord (tl argv)) w)
    as [[[ctx'|f] w'] tr]; [| reflexivity].
  unfold ret. rewrite app_nil_r. reflexivity.
Qed.

(** Without an unrecognized character the operands stage runs, in the
    context the options left. *)
Lemma ln_main_run_ok (size_bits : Z) (os : OS) (ord : ordering)
    (argv : list string) (w : world os) :
  has_unrecognized_flag ord argv = false ->
  ln_main size_bits os ord argv w =
  match ln_main_operands size_bits os
          (mk_ln_ctx EXIT_SUCCESS (flags (parsed_ctx ord argv)))
          (Z.of_nat (List.length (operands_of ord argv)))
          (operands_of ord argv) w with
  | (Ok ctx, w', tr) => (Ok (status_code ctx), w', tr)
  | (Fault f, w', tr) => (Fault f, w', tr)
  end.
Proof.
  intros Hok. rewrite ln_main_run, Hok.
  pose proof (parsed_ctx_status ord argv) as Hst. rewrite Hok in Hst.
  destruct (parsed_ctx ord argv) as [st fl]. simpl in Hst. subst st.
  reflexivity.
Qed.

(** C8.  When a flag token of the command line holds a character other
    than f, L, P and s, [ln_main] returns failure without a single call or
    diagnostic of its own: the world is untouched and the trace is empty;
    when no flag token does, [ln_main] goes on to its operands, with the
    flags read and on the arguments left, and returns the status they end
    in.  In both cases parsing went on to the end: [getopt] was called for
    every character of every flag token, wherever the token stands among
    the arguments it scans; what [ln_main] is left with are the operands,
    every flag token consumed; the status it holds is failure exactly when
    a character was not recognized; and every recognized flag, before or
    after an unrecognized one, is in the flags. *)
Theorem ln_main_unrecognized_flag (size_bits : Z) (os : OS) (ord : ordering)
    (argv : list string) (w : world os) :
  (has_unrecognized_flag ord argv = true ->
     ln_main size_bits os ord argv w = (Ok EXIT_FAILURE, w, [])) /\
  (has_unrecognized_flag ord argv = false ->
     ln_main size_bits os ord argv w =
     match ln_main_operands size_bits os
             (mk_ln_ctx EXIT_SUCCESS (flags (parsed_ctx ord argv)))
             (Z.of_nat (List.length (operands_of ord argv)))
             (operands_of ord argv) w with
     | (Ok ctx, w', tr) => (Ok (status_code ctx), w', tr)
     | (Fault f, w', tr) => (Fault f, w', tr)
     end) /\
  fst (fst (getopt_all ord "fLPs" argv)) =
    map (getopt_char "fLPs") (option_chars ord argv) /\
  operands_of ord argv = operand_args ord (tl argv) /\
  status_code (parsed_ctx ord argv) =
    (if has_unrecognized_flag ord argv then EXIT_FAILURE else EXIT_SUCCESS) /\
  flags (parsed_ctx ord argv) =
    flags (fold_left ln_main_option
             (filter (fun c => negb (unrecognized c)) (option_chars ord argv))
             (mk_ln_ctx 0 0)).
Proof.
  split; [| split; [| split; [| split; [| split]]]].
  - intros Hbad. rewrite ln_main_run, Hbad. reflexivity.
  - apply ln_main_run_ok.
  - apply getopt_all_option_chars.
  - apply operands_of_operand_args.
  - apply parsed_ctx_status.
  - apply parsed_ctx_recognized.
Qed.

(** "ln a -fx c -s": the 'x' is not recognized, and nothing is done; the
    tokens stand behind operands, [-f] before the 'x' and [-s] after it
    are both in the flags, and the operands are "a" and "c". *)
Lemma ln_main_unrecognized_flag_witness :
  has_unrecognized_flag PERMUTE ["ln"; "a"; "-fx"; "c"; "-s"] = true /\
  ln_main 64 fs_os PERMUTE ["ln"; "a"; "-fx"; "c"; "-s"] fs_demo =
    (Ok EXIT_FAILURE, fs_demo, []) /\
  fst (fst (getopt_all PERMUTE "fLPs" ["ln"; "a"; "-fx"; "c"; "-s"])) =
    ["f"; "?"; "s"]%char /\
  operands_of PERMUTE ["ln"; "a"; "-fx"; "c"; "-s"] = ["a"; "c"] /\
  parsed_ctx PERMUTE ["ln"; "a"; "-fx"; "c"; "-s"] = mk_ln_ctx EXIT_FAILURE 5.
Proof.
  destruct (ln_main_unrecognized_flag 64 fs_os PERMUTE
              ["ln"; "a"; "-fx"; "c"; "-s"] fs_demo)
    as (Hbad & _ & Hopts & Hops & Hst & Hfl).
  split; [reflexivity|].
  split; [apply Hbad; reflexivity|].
  split; [rewrite Hopts; reflexivity|].
  split; [rewrite Hops; reflexivity|].
  destruct (parsed_ctx PERMUTE ["ln"; "a"; "-fx"; "c"; "-s"]) as [st fl].
  simpl in Hst, Hfl. rewrite Hst, Hfl. reflexivity.
Defined.

(** The same command line without the 'x': the operands stage runs, with
    the flags [-f] and [-s], on "a" and "c". *)
Example ln_main_recognized_flags :
  has_unrecognized_flag PERMUTE ["ln"; "a"; "-f"; "c"; "-s"] = false /\
  ln_main 64 fs_os PERMUTE ["ln"; "a"; "-f"; "c"; "-s"] fs_demo =
    (Ok EXIT_SUCCESS,
     snd (fs_symlink "a" "c" fs_demo),
     [EvStat "c" None; EvLstat "a" (Some sb_a); EvStat "c" None;
      EvSymlink "a" "c" 0]).
Proof. split; vm_compute; reflexivity. Qed.

Example parsed_ctx_after_unrecognized :
  parsed_ctx PERMUTE ["ln"; "-fa"; "-s"; "a"; "c"] = mk_ln_ctx EXIT_FAILURE 5 /\
  getopt_all PERMUTE "fLPs" ["ln"; "-fa"; "-s"; "a"; "c"] =
    (["f"; "?"; "s"]%char, 3%nat, ["ln"; "-fa"; "-s"; "a"; "c"]).
Proof. split; reflexivity. Qed.

(** Options behind operands are read and moved before them; behind "--"
    nothing is an option.  Under [REQUIRE_ORDER] the first operand ends
    the options. *)
Example parsed_ctx_flags :
  parsed_ctx PERMUTE ["ln"; "-fL"; "-P"; "--"; "-s"; "c"]
    = mk_ln_ctx EXIT_SUCCESS 1 /\
  operands_of PERMUTE ["ln"; "-fL"; "-P"; "--"; "-s"; "c"] = ["-s"; "c"] /\
  getopt_all PERMUTE "fLPs" ["ln"; "-sL"; "a"; "-f"; "b"] =
    (["s"; "L"; "f"]%char, 3%nat, ["ln"; "-sL"; "-f"; "a"; "b"]) /\
  parsed_ctx PERMUTE ["ln"; "-sL"; "a"; "-f"; "b"] = mk_ln_ctx EXIT_SUCCESS 7 /\
  operands_of PERMUTE ["ln"; "-sL"; "a"; "-f"; "b"] = ["a"; "b"] /\
  getopt_all PERMUTE "fLPs" ["ln"; "a"; "-"; "-s"; "--"; "-f"] =
    (["s"]%char, 3%nat, ["ln"; "-s"; "--"; "a"; "-"; "-f"]) /\
  parsed_ctx REQUIRE_ORDER ["ln"; "-sL"; "a"; "-f"; "b"]
    = mk_ln_ctx EXIT_SUCCESS 6 /\
  operands_of REQUIRE_ORDER ["ln"; "-sL"; "a"; "-f"; "b"] = ["a"; "-f"; "b"].
Proof. repeat split. Qed.

(** The test of test.c, "Invalid argument": ln -a source-1 source-2. *)
Example ln_main_test_invalid_argument :
  ln_main 64 fs_os PERMUTE ["ln"; "-a"; "a"; "c"] fs_demo
    = (Ok EXIT_FAILURE, fs_demo, []).
Proof. reflexivity. Qed.

(** An unrecognized option behind the operands: nothing is done. *)
Example ln_main_invalid_argument_last :
  ln_main 64 fs_os PERMUTE ["ln"; "a"; "c"; "-x"] fs_demo
    = (Ok EXIT_FAILURE, fs_demo, []).
Proof. reflexivity. Qed.

(** "ln a b -f": the destination "b" is removed and the link created. *)
Example ln_main_f_behind_operands :
  ln_main 64 fs_os PERMUTE ["ln"; "a"; "b"; "-f"] fs_demo =
    (Ok EXIT_SUCCESS,
     (fs_remove "b" fs_demo ++ [mk_entry "b" sb_a (Some sb_a)])%list,
     [EvStat "b" (Some sb_b); EvLstat "a" (Some sb_a); EvStat "b" (Some sb_b);
      EvUnlink "b" 0; EvLink "a" "b" 0]).
Proof. vm_compute. reflexivity. Qed.

(** "ln a -s dir": [-s] is an option; one symbolic link, "dir/a". *)
Example ln_main_s_between_operands :
  ln_main 64 fs_os PERMUTE ["ln"; "a"; "-s"; "dir"] fs_demo =
    (Ok EXIT_SUCCESS,
     snd (fs_symlink "a" "dir/a" fs_demo),
     [EvStat "dir" (Some sb_dir);
      EvStrdup "a" true; EvMalloc 6 true; EvLstat "a" (Some sb_a);
      EvStat "dir/a" None; EvSymlink "a" "dir/a" 0]).
Proof. vm_compute. reflexivity. Qed.

(** ** The exit status *)

Lemma step_fmt_not_validation (fmt : string) :
  fmt_in fmt step_fmts = true -> fmt_in fmt validation_fmts = false.
Proof.
  unfold fmt_in, step_fmts. cbn [existsb].
  intros H.
  repeat (apply orb_true_iff in H; destruct H as [H|H];
          [apply String.eqb_eq in H; subst fmt; reflexivity|]).
  discriminate.
Qed.

(** In a trace of steps every diagnostic is one of the steps' six. *)
Lemma steps_trace_warns (tr : list event) :
  forallb (fun e => implb (is_warn e) (is_step_warn e)) tr = true ->
  existsb is_validation_warn tr = false /\
  existsb is_step_warn tr = existsb is_warn tr /\
  count is_step_warn tr = count is_warn tr.
Proof.
  unfold count.
  induction tr as [|e tr IH]; cbn [forallb existsb filter]; [auto|].
  intros H. apply andb_true_iff in H. destruct H as [He Ht].
  destruct (IH Ht) as (IH1 & IH2 & IH3).
  rewrite IH1, IH2.
  destruct e; cbn [is_warn is_step_warn is_validation_warn implb orb] in *;
    try (repeat split; auto; fail).
  rewrite He, (step_fmt_not_validation fmt He). simpl.
  repeat split; auto.
Qed.

Lemma rejection_fmt_validation (r : option stat_t) :
  fmt_in (rejection_fmt r) validation_fmts = true /\
  fmt_in (rejection_fmt r) step_fmts = false.
Proof. destruct r; split; reflexivity. Qed.

Lemma directory_not_empty_path (os : OS) (target : string) (w w1 : world os)
    (r : option stat_t) :
  posix_stat os -> os_stat os target w = (r, w1) -> is_directory r = true ->
  target <> "".
Proof.
  intros Hposix Hstat Hdir ->. specialize (Hposix w).
  rewrite Hstat in Hposix. simpl in Hposix. subst r. discriminate.
Qed.

(** What a trace of [n] steps behind the [stat] of the final operand tells. *)
Lemma steps_behind_stat (n : nat) (ctx ctx' : ln_ctx) (target : string)
    (r : option stat_t) (tr : list event) :
  status_code ctx = EXIT_SUCCESS ->
  steps_post n ctx ctx' tr ->
  flags ctx' = flags ctx /\
  status_code ctx' =
    (if existsb is_warn (EvStat target r :: tr) then EXIT_FAILURE
     else EXIT_SUCCESS) /\
  existsb is_warn (EvStat target r :: tr) =
    existsb is_validation_warn (EvStat target r :: tr)
    || existsb is_step_warn (EvStat target r :: tr) /\
  (existsb call_failed (EvStat target r :: tr) = true ->
   existsb is_step_warn (EvStat target r :: tr) = true) /\
  existsb is_validation_warn (EvStat target r :: tr) = false /\
  (count is_step_warn (EvStat target r :: tr)
   + count link_created (EvStat target r :: tr) = n)%nat.
Proof.
  intros Hst (Hf & Hs & Hc & Hw & Hn).
  destruct (steps_trace_warns tr Hw) as (Hv & Hsw & Hcw).
  unfold count in *. cbn [existsb filter is_warn is_validation_warn
    is_step_warn call_failed link_created is_link_call andb orb].
  rewrite Hv, Hsw, Hcw, Hs, Hst.
  repeat split; auto.
Qed.

Lemma ln_main_operands_post_gen (size_bits : Z) (os : OS) (ctx : ln_ctx)
    (ops : list string) (w : world os) :
  (is_directory (fst (os_stat os (last ops "") w)) = true -> last ops "" <> "") ->
  status_code ctx = EXIT_SUCCESS ->
  exists ctx' w' tr,
    ln_main_operands size_bits os ctx (Z.of_nat (List.length ops)) ops w =
      (Ok ctx', w', tr) /\
    flags ctx' = flags ctx /\
    status_code ctx' =
      (if existsb is_warn tr then EXIT_FAILURE else EXIT_SUCCESS) /\
    existsb is_warn tr =
      existsb is_validation_warn tr || existsb is_step_warn tr /\
    (existsb call_failed tr = true -> existsb is_step_warn tr = true) /\
    (existsb is_validation_warn tr = true -> existsb is_step_event tr = false) /\
    (existsb is_validation_warn tr = false ->
     (count is_step_warn tr + count link_created tr
      = steps_requested ops tr)%nat).
Proof.
  intros Hdirne Hst.
  destruct (Nat.ltb_spec (List.length ops) 2) as [Hfew|Hlen].
  - rewrite ln_main_operands_few by lia.
    do 3 eexists. split; [reflexivity|].
    repeat split; try reflexivity; discriminate.
  - destruct (split_last ops Hlen) as (init & target & -> & Hinit & _ & _).
    rewrite last_last in Hdirne.
    rewrite ln_main_operands_run by assumption.
    destruct (os_stat os target w) as [r w1] eqn:Hstat.
    simpl fst in Hdirne.
    destruct (is_directory r) eqn:Hdir.
    + pose proof (Hdirne eq_refl) as Hne.
      destruct (ln_target_dir_loop_post size_bits os init target Hne ctx w1)
        as (ctx' & w' & tr & Hrun & Hpost).
      rewrite Hrun. do 3 eexists. split; [reflexivity|].
      destruct (steps_behind_stat _ _ _ target r _ Hst Hpost)
        as (H1 & H2 & H3 & H4 & H5 & H6).
      repeat split; auto.
      * rewrite H5. discriminate.
      * intros _. rewrite H6. unfold steps_requested. rewrite Hdir.
        rewrite length_app. simpl. lia.
    + destruct (Nat.leb_spec 2 (List.length init)) as [Hmany|Htwo].
      * destruct (rejection_fmt_validation r) as [Hv Hs].
        do 3 eexists. split; [reflexivity|].
        cbn [existsb is_warn is_validation_warn is_step_warn is_step_event
             call_failed orb].
        rewrite Hv, Hs.
        repeat split; auto; discriminate.
      * destruct (ln_create_link_post os ctx (nth 0 (init ++ [target]) "")
                    (nth 1 (init ++ [target]) "") w1)
          as (ctx' & w' & tr & Hrun & Hpost).
        rewrite Hrun. do 3 eexists. split; [reflexivity|].
        destruct (steps_behind_stat _ _ _ target r _ Hst Hpost)
          as (H1 & H2 & H3 & H4 & H5 & H6).
        repeat split; auto.
        -- rewrite H5. discriminate.
        -- intros _. rewrite H6. unfold steps_requested. rewrite Hdir.
           reflexivity.
Qed.


(** The only run of [ln_main] that does not return: the final operand is
    the empty string and [stat] says that it is a directory (which POSIX
    excludes); the composer then reads outside it. *)
Lemma ln_main_fault_only_empty_directory (size_bits : Z) (os : OS)
    (ord : ordering)
    (argv : list string) (w w' : world os) (f : fault) (tr : list event) :
  ln_main size_bits os ord argv w = (Fault f, w', tr) ->
  last (operands_of ord argv) "" = "" /\
  is_directory (fst (os_stat os "" w)) = true.
Proof.
  intros Hrun. rewrite ln_main_run in Hrun.
  destruct (has_unrecognized_flag ord argv) eqn:Hbad; [discriminate|].
  assert (Hst : status_code (parsed_ctx ord argv) = EXIT_SUCCESS)
    by (rewrite parsed_ctx_status, Hbad; reflexivity).
  destruct (string_dec (last (operands_of ord argv) "") "") as [Hempty|Hne].
  - split; [exact Hempty|].
    destruct (is_directory (fst (os_stat os "" w))) eqn:Hdir; [reflexivity|].
    exfalso.
    destruct (ln_main_operands_post_gen size_bits os (parsed_ctx ord argv)
                (operands_of ord argv) w) as (c & w1 & t & Hok & _).
    + rewrite Hempty, Hdir. discriminate.
    + exact Hst.
    + rewrite Hok in Hrun. discriminate.
  - exfalso.
    destruct (ln_main_operands_post_gen size_bits os (parsed_ctx ord argv)
                (operands_of ord argv) w (fun _ => Hne) Hst)
      as (c & w1 & t & Hok & _).
    rewrite Hok in Hrun. discriminate.
Qed.




Example ln_main_batch_with_failure :
  ln_main 64 fs_os PERMUTE ["ln"; "-f"; "a"; "b"; "missing"; "dir"] fs_demo =
    (Ok EXIT_FAILURE,
     (fs_demo ++ [mk_entry "dir/a" sb_a (Some sb_a);
                  mk_entry "dir/b" sb_b (Some sb_b)])%list,
     [EvStat "dir" (Some sb_dir);
      EvStrdup "a" true; EvMalloc 6 true; EvLstat "a" (Some sb_a);
      EvStat "dir/a" None; EvLink "a" "dir/a" 0;
      EvStrdup "b" true; EvMalloc 6 true; EvLstat "b" (Some sb_b);
      EvStat "dir/b" None; EvLink "b" "dir/b" 0;
      EvStrdup "missing" true; EvMalloc 12 true; EvLstat "missing" None;
      EvWarn true "lstat(%s)" ["missing"]]).
Proof. vm_compute. reflexivity. Qed.

(** The allocator that always fails: the composition fails for every
    source, each failure is reported, the status is failure. *)
Example ln_main_no_memory :
  ln_main 64 fs_os_nomem PERMUTE ["ln"; "a"; "b"; "dir"] fs_demo =
    (Ok EXIT_FAILURE, fs_demo,
     [EvStat "dir" (Some sb_dir);
      EvStrdup "a" false; EvWarn true "alloc" [];
      EvStrdup "b" false; EvWarn true "alloc" []]).
Proof. vm_compute. reflexivity. Qed.

(** ** The status never goes back to success *)

Lemma steps_post_monotone (n : nat) (ctx ctx' : ln_ctx) (tr : list event) :
  steps_post n ctx ctx' tr ->
  status_code ctx = EXIT_FAILURE -> status_code ctx' = EXIT_FAILURE.
Proof.
  intros (_ & Hs & _) Hfail. rewrite Hs, Hfail.
  destruct (existsb is_warn tr); reflexivity.
Qed.

Lemma ln_target_dir_loop_split (size_bits : Z) (os : OS)
    (pre post : list string) (target_dir : string) (ctx : ln_ctx)
    (w : world os) :
  target_dir <> "" ->
  exists c1 w1 t1 c2 w2 t2,
    ln_target_dir_loop size_bits os ctx pre target_dir w = (Ok c1, w1, t1) /\
    ln_target_dir_loop size_bits os c1 post target_dir w1 = (Ok c2, w2, t2) /\
    ln_target_dir_loop size_bits os ctx (pre ++ post) target_dir w =
      (Ok c2, w2, (t1 ++ t2)%list) /\
    (status_code c1 = EXIT_FAILURE -> status_code c2 = EXIT_FAILURE).
Proof.
  intros Hne.
  destruct (ln_target_dir_loop_post size_bits os pre target_dir Hne ctx w)
    as (c1 & w1 & t1 & Hrun1 & Hpost1).
  destruct (ln_target_dir_loop_post size_bits os post target_dir Hne c1 w1)
    as (c2 & w2 & t2 & Hrun2 & Hpost2).
  exists c1, w1, t1, c2, w2, t2.
  split; [exact Hrun1|]. split; [exact Hrun2|]. split.
  - rewrite ln_target_dir_loop_app.
    apply bind_ok with (1 := Hrun1). exact Hrun2.
  - apply (steps_post_monotone _ _ _ _ Hpost2).
Qed.

(** C10.  The status starts as success: without option characters the
    context at line 377 is the zeroed one.  The [switch] never takes a
    failure back.  [ln_warn] sets failure.  A step ([ln_create_link],
    [ln_target_dir]) leaves the status it found unless it printed a
    diagnostic, and then the status is failure; so does the loop, part by
    part.  And in [ln_main] a failure recorded after any number of the
    sources of a batch is the exit status, whatever the sources after
    them do. *)
Theorem status_code_monotone (size_bits : Z) (os : OS) :
  (forall ord argv,
     option_chars ord argv = [] ->
     parsed_ctx ord argv = mk_ln_ctx EXIT_SUCCESS 0) /\
  (forall ctx c,
     status_code (ln_main_option ctx c) = status_code ctx \/
     status_code (ln_main_option ctx c) = EXIT_FAILURE) /\
  (forall ctx c,
     status_code ctx = EXIT_FAILURE ->
     status_code (ln_main_option ctx c) = EXIT_FAILURE) /\
  (forall ctx errno_msg fmt args (w : world os),
     ln_warn os ctx errno_msg fmt args w =
       (Ok (mk_ln_ctx EXIT_FAILURE (flags ctx)), w, [EvWarn errno_msg fmt args])) /\
  (forall ctx path_source path_dest (w : world os),
     exists ctx' w' tr,
       ln_create_link os ctx path_source path_dest w = (Ok ctx', w', tr) /\
       status_code ctx' =
         (if existsb is_warn tr then EXIT_FAILURE else status_code ctx)) /\
  (forall ctx source_file target_dir (w : world os),
     target_dir <> "" ->
     exists ctx' w' tr,
       ln_target_dir size_bits os ctx source_file target_dir w = (Ok ctx', w', tr) /\
       status_code ctx' =
         (if existsb is_warn tr then EXIT_FAILURE else status_code ctx)) /\
  (forall pre post target_dir ctx (w : world os),
     target_dir <> "" ->
     exists c1 w1 t1 c2 w2 t2,
       ln_target_dir_loop size_bits os ctx pre target_dir w = (Ok c1, w1, t1) /\
       ln_target_dir_loop size_bits os c1 post target_dir w1 = (Ok c2, w2, t2) /\
       ln_target_dir_loop size_bits os ctx (pre ++ post) target_dir w =
         (Ok c2, w2, (t1 ++ t2)%list) /\
       (status_code c1 = EXIT_FAILURE -> status_code c2 = EXIT_FAILURE)) /\
  (posix_stat os ->
   forall ord argv pre post target r (w w1 : world os),
     has_unrecognized_flag ord argv = false ->
     operands_of ord argv = (pre ++ post ++ [target])%list ->
     (1 <= List.length (pre ++ post))%nat ->
     os_stat os target w = (r, w1) ->
     is_directory r = true ->
     exists c1 w2 t1 st w3 tr,
       ln_target_dir_loop size_bits os (parsed_ctx ord argv) pre target w1 =
         (Ok c1, w2, t1) /\
       ln_main size_bits os ord argv w = (Ok st, w3, tr) /\
       (status_code c1 = EXIT_FAILURE -> st = EXIT_FAILURE)).
Proof.
  split; [| split; [| split; [| split; [| split; [| split; [| split]]]]]].
  - intros ord argv Hnone. rewrite parsed_ctx_fold, Hnone. reflexivity.
  - intros ctx c. rewrite ln_main_option_status.
    destruct (unrecognized c); auto.
  - intros ctx c Hfail. rewrite ln_main_option_status, Hfail.
    destruct (unrecognized c); reflexivity.
  - reflexivity.
  - intros ctx path_source path_dest w.
    destruct (ln_create_link_post os ctx path_source path_dest w)
      as (ctx' & w' & tr & Hrun & _ & Hs & _).
    exists ctx', w', tr. auto.
  - intros ctx source_file target_dir w Hne.
    destruct (ln_target_dir_post size_bits os ctx source_file target_dir w Hne)
      as (ctx' & w' & tr & Hrun & _ & Hs & _).
    exists ctx', w', tr. auto.
  - intros pre post target_dir ctx w Hne.
    apply ln_target_dir_loop_split. exact Hne.
  - intros Hposix ord argv pre post target r w w1 Hbad Hops Hlen Hstat Hdir.
    pose proof (directory_not_empty_path os target w w1 r Hposix Hstat Hdir)
      as Hne.
    destruct (ln_target_dir_loop_split size_bits os pre post target
                (parsed_ctx ord argv) w1 Hne)
      as (c1 & w2 & t1 & c2 & w3 & t2 & Hrun1 & Hrun2 & Hrun & Hmono).
    exists c1, w2, t1, (status_code c2), w3,
      (EvStat target r :: t1 ++ t2)%list.
    split; [exact Hrun1|]. split; [| exact Hmono].
    rewrite ln_main_run, Hbad, Hops, app_assoc.
    rewrite ln_main_operands_run;
      [| rewrite parsed_ctx_status, Hbad; reflexivity | exact Hlen].
    rewrite Hstat, Hdir, Hrun. reflexivity.
Qed.

(** "ln missing a dir": the first source fails, the second succeeds, and
    the exit status is failure. *)
Example ln_main_failure_first :
  ln_main 64 fs_os PERMUTE ["ln"; "missing"; "a"; "dir"] fs_demo =
    (Ok EXIT_FAILURE,
     (fs_demo ++ [mk_entry "dir/a" sb_a (Some sb_a)])%list,
     [EvStat "dir" (Some sb_dir);
      EvStrdup "missing" true; EvMalloc 12 true; EvLstat "missing" None;
      EvWarn true "lstat(%s)" ["missing"];
      EvStrdup "a" true; EvMalloc 6 true; EvLstat "a" (Some sb_a);
      EvStat "dir/a" None; EvLink "a" "dir/a" 0]).
Proof. vm_compute. reflexivity. Qed.

(** "ln missing a dir" again: the status after the first source alone is
    already the exit status. *)
Lemma status_code_monotone_witness :
  exists c1 w2 t1 st w3 tr,
    ln_target_dir_loop 64 fs_os (parsed_ctx PERMUTE ["ln"; "missing"; "a"; "dir"])
      ["missing"] "dir" fs_demo = (Ok c1, w2, t1) /\
    ln_main 64 fs_os PERMUTE ["ln"; "missing"; "a"; "dir"] fs_demo = (Ok st, w3, tr) /\
    (status_code c1 = EXIT_FAILURE -> st = EXIT_FAILURE).
Proof.
  destruct (status_code_monotone 64 fs_os) as (_ & _ & _ & _ & _ & _ & _ & H).
  apply (H (fun w => eq_refl) PERMUTE ["ln"; "missing"; "a"; "dir"]
           ["missing"] ["a"]
           "dir" (Some sb_dir) fs_demo fs_demo); try reflexivity.
  simpl. lia.
Defined.

(** * Further properties of ln.c, link.c, unlink.c and the test seams *)

(** ** [si_add_size_t]: the order of the operands *)

(** X1.  For two values of [size_t], [si_add_size_t(a, b)] and
    [si_add_size_t(b, a)] return the same verdict and store the same
    value: comparing the result with the first operand alone (line 132)
    loses nothing. *)
Theorem si_add_size_t_comm (size_bits a b : Z) :
  0 <= a <= SIZE_MAX size_bits ->
  0 <= b <= SIZE_MAX size_bits ->
  si_add_size_t size_bits a b = si_add_size_t size_bits b a.
Proof.
  intros Ha Hb.
  destruct (Z.le_gt_cases (a + b) (SIZE_MAX size_bits)) as [Hfit|Hover].
  - rewrite !si_add_size_t_fits by lia. f_equal. lia.
  - rewrite !si_add_size_t_wraps by lia. f_equal. lia.
Qed.

Lemma si_add_size_t_comm_witness :
  si_add_size_t 64 18446744073709551615 7 = si_add_size_t 64 7 18446744073709551615.
Proof.
  apply (si_add_size_t_comm 64 18446744073709551615 7); vm_compute;
    split; discriminate.
Defined.

(** ** The flags after parsing *)

Lemma ln_main_option_flags_of (st : Z) (b0 b1 b2 : bool) (c : ascii) :
  flags (ln_main_option (mk_ln_ctx st (flags_of b0 b1 b2)) c) =
  flags_of (b0 || Ascii.eqb c "f")
           (if Ascii.eqb c "L" then true
            else if Ascii.eqb c "P" then false else b1)
           (b2 || Ascii.eqb c "s").
Proof.
  unfold ln_main_option.
  destruct (Ascii.eqb_spec c "f") as [->|Hf];
    [destruct b0, b1, b2; reflexivity|].
  destruct (Ascii.eqb_spec c "L") as [->|HL];
    [destruct b0, b1, b2; reflexivity|].
  destruct (Ascii.eqb_spec c "P") as [->|HP];
    [destruct b0, b1, b2; reflexivity|].
  destruct (Ascii.eqb_spec c "s") as [->|Hs];
    destruct b0, b1, b2; reflexivity.
Qed.

Lemma fold_option_flags_of (opts : list ascii) :
  forall (st : Z) (b0 b1 b2 : bool),
    flags (fold_left ln_main_option opts (mk_ln_ctx st (flags_of b0 b1 b2))) =
    flags_of (b0 || existsb (fun c => Ascii.eqb c "f") opts)
             (follow_after opts b1)
             (b2 || existsb (fun c => Ascii.eqb c "s") opts).
Proof.
  induction opts as [|c opts IH]; intros st b0 b1 b2.
  - simpl. rewrite !orb_false_r. reflexivity.
  - simpl fold_left.
    pose proof (ln_main_option_flags_of st b0 b1 b2 c) as Hstep.
    destruct (ln_main_option (mk_ln_ctx st (flags_of b0 b1 b2)) c)
      as [st' f'] eqn:E. simpl in Hstep. subst f'.
    rewrite IH. simpl existsb. simpl follow_after.
    rewrite !orb_assoc. reflexivity.
Qed.

Lemma getopt_char_eqb_recognized (c x : ascii) :
  string_mem x "fLPs" = true ->
  Ascii.eqb (getopt_char "fLPs" c) x = Ascii.eqb c x.
Proof.
  intros Hx. unfold getopt_char.
  destruct (string_mem c "fLPs") eqn:Hc; [reflexivity|].
  destruct (Ascii.eqb_spec c x) as [->|Hne]; [congruence|].
  destruct (Ascii.eqb_spec "?"%char x) as [<-|]; [discriminate | reflexivity].
Qed.

Lemma existsb_getopt_char (x : ascii) (l : list ascii) :
  string_mem x "fLPs" = true ->
  existsb (fun c => Ascii.eqb c x) (map (getopt_char "fLPs") l) =
  existsb (fun c => Ascii.eqb c x) l.
Proof.
  intros Hx. induction l as [|c l IH]; simpl; [reflexivity|].
  rewrite getopt_char_eqb_recognized, IH by exact Hx. reflexivity.
Qed.

Lemma follow_after_getopt_char (l : list ascii) (init : bool) :
  follow_after (map (getopt_char "fLPs") l) init = follow_after l init.
Proof.
  revert init. induction l as [|c l IH]; intros init; simpl; [reflexivity|].
  rewrite !getopt_char_eqb_recognized by reflexivity. apply IH.
Qed.

Lemma parsed_ctx_flags_value (ord : ordering)
    (argv : list string) :
  flags (parsed_ctx ord argv) =
    flags_of (existsb (fun c => Ascii.eqb c "f") (option_chars ord argv))
             (follow_after (option_chars ord argv) false)
             (existsb (fun c => Ascii.eqb c "s") (option_chars ord argv)).
Proof.
  rewrite parsed_ctx_fold.
  change (mk_ln_ctx 0 0) with (mk_ln_ctx 0 (flags_of false false false)).
  rewrite fold_option_flags_of.
  rewrite !existsb_getopt_char by reflexivity.
  rewrite follow_after_getopt_char. reflexivity.
Qed.

Lemma parsed_ctx_flag_bits (ord : ordering)
    (argv : list string) :
  Z.testbit (flags (parsed_ctx ord argv)) 0 =
    existsb (fun c => Ascii.eqb c "f") (option_chars ord argv) /\
  Z.testbit (flags (parsed_ctx ord argv)) 1 =
    follow_after (option_chars ord argv) false /\
  Z.testbit (flags (parsed_ctx ord argv)) 2 =
    existsb (fun c => Ascii.eqb c "s") (option_chars ord argv).
Proof.
  rewrite parsed_ctx_flags_value.
  destruct (existsb (fun c => Ascii.eqb c "f") (option_chars ord argv)),
    (follow_after (option_chars ord argv) false),
    (existsb (fun c => Ascii.eqb c "s") (option_chars ord argv));
    repeat split.
Qed.

(** X2.  The flags [ln_main] holds when its [getopt] loop has ended
    (line 375), for every command line: [-f] is set exactly when an 'f' is
    among the option characters, [-s] exactly when an 's' is; of 'L' and
    'P' the last one decides, and without either the symbolic link is not
    followed; no other bit is ever set.  Unrecognized characters change
    none of this.  And these are the flags [ln_main] works with: when no
    character is unrecognized, its run is that of lines 377-407 on the
    operands with exactly these flags. *)
Theorem parsed_ctx_flags_of (size_bits : Z) (os : OS) (ord : ordering)
    (argv : list string) (w : world os) :
  flags (fst (fst (ln_main_getopt ord argv))) =
    flags_of (existsb (fun c => Ascii.eqb c "f") (option_chars ord argv))
             (follow_after (option_chars ord argv) false)
             (existsb (fun c => Ascii.eqb c "s") (option_chars ord argv)) /\
  flag_set (flags (fst (fst (ln_main_getopt ord argv)))) LN_FLAG_REMOVE_DEST =
    existsb (fun c => Ascii.eqb c "f") (option_chars ord argv) /\
  flag_set (flags (fst (fst (ln_main_getopt ord argv))))
           LN_FLAG_FOLLOW_SYMBOLIC =
    follow_after (option_chars ord argv) false /\
  flag_set (flags (fst (fst (ln_main_getopt ord argv)))) LN_FLAG_SYMBOLIC =
    existsb (fun c => Ascii.eqb c "s") (option_chars ord argv) /\
  (has_unrecognized_flag ord argv = false ->
   ln_main size_bits os ord argv w =
   match ln_main_operands size_bits os
           (mk_ln_ctx EXIT_SUCCESS
              (flags_of
                 (existsb (fun c => Ascii.eqb c "f") (option_chars ord argv))
                 (follow_after (option_chars ord argv) false)
                 (existsb (fun c => Ascii.eqb c "s") (option_chars ord argv))))
           (Z.of_nat (List.length (operand_args ord (tl argv))))
           (operand_args ord (tl argv)) w with
   | (Ok ctx, w', tr) => (Ok (status_code ctx), w', tr)
   | (Fault f, w', tr) => (Fault f, w', tr)
   end).
Proof.
  change (fst (fst (ln_main_getopt ord argv))) with (parsed_ctx ord argv).
  rewrite flag_set_remove_dest, flag_set_follow_symbolic, flag_set_symbolic.
  split; [apply parsed_ctx_flags_value|].
  destruct (parsed_ctx_flag_bits ord argv) as (H0 & H1 & H2).
  split; [exact H0|]. split; [exact H1|]. split; [exact H2|].
  intros Hok. rewrite (ln_main_run_ok _ _ _ _ _ Hok).
  rewrite parsed_ctx_flags_value, operands_of_operand_args. reflexivity.
Qed.

(** "ln a b -f": the [-f] behind the operands is in the flags, and the
    run is that of lines 377-407 on "a" and "b" with it: "b" is removed
    and the link created. *)
Lemma parsed_ctx_flags_of_witness :
  flags (fst (fst (ln_main_getopt PERMUTE ["ln"; "a"; "b"; "-f"]))) = 1 /\
  ln_main 64 fs_os PERMUTE ["ln"; "a"; "b"; "-f"] fs_demo =
    (Ok EXIT_SUCCESS,
     (fs_remove "b" fs_demo ++ [mk_entry "b" sb_a (Some sb_a)])%list,
     [EvStat "b" (Some sb_b); EvLstat "a" (Some sb_a); EvStat "b" (Some sb_b);
      EvUnlink "b" 0; EvLink "a" "b" 0]).
Proof.
  destruct (parsed_ctx_flags_of 64 fs_os PERMUTE ["ln"; "a"; "b"; "-f"] fs_demo)
    as (Hfl & _ & _ & _ & Hrun).
  split; [rewrite Hfl; reflexivity|].
  rewrite Hrun by reflexivity. vm_compute. reflexivity.
Defined.

Example parsed_ctx_last_of_L_and_P :
  flags (parsed_ctx PERMUTE ["ln"; "-L"; "-P"; "a"; "b"]) = 0 /\
  flags (parsed_ctx PERMUTE ["ln"; "-PL"; "a"; "b"]) = 2 /\
  flags (parsed_ctx PERMUTE ["ln"; "-sxPLf"; "a"; "b"]) = 7.
Proof. repeat split. Qed.

(** ** What a step may emit *)

Lemma bind_trace (os : OS) (A B : Type) (g : event -> bool) (m : M os A)
    (k : A -> M os B) (w : world os) :
  forallb g (snd (m w)) = true ->
  (forall a w1 t1, m w = (Ok a, w1, t1) -> forallb g (snd (k a w1)) = true) ->
  forallb g (snd (bind os m k w)) = true.
Proof.
  intros Hm Hk. unfold bind.
  destruct (m w) as [[[a|f] w1] t1]; [| exact Hm].
  specialize (Hk a w1 t1 eq_refl).
  destruct (k a w1) as [[r w2] t2]. simpl in *.
  rewrite forallb_app, Hm, Hk. reflexivity.
Qed.

Lemma step_events_ok_weaken (g : event -> bool) (f : Z)
    (path_source path_dest : string) :
  step_events_ok g f path_source path_dest ->
  (forall p r, g (EvStat p r) = true) /\
  (forall p r, g (EvLstat p r) = true) /\
  (forall s ok, g (EvStrdup s ok) = true) /\
  (forall n ok, g (EvMalloc n ok) = true) /\
  (forall e fmt args, g (EvWarn e fmt args) = true).
Proof. intros (H1 & H2 & H3 & H4 & H5 & _). auto. Qed.

Lemma ln_path_target_concat_trace (size_bits : Z) (os : OS)
    (g : event -> bool) (target_dir source_file : string) (w : world os) :
  (forall s ok, g (EvStrdup s ok) = true) ->
  (forall n ok, g (EvMalloc n ok) = true) ->
  forallb g (snd (ln_path_target_concat size_bits os target_dir source_file w))
    = true.
Proof.
  intros Hs Hm. unfold ln_path_target_concat.
  apply bind_trace.
  - unfold strdup. destruct (os_strdup os source_file w). simpl.
    rewrite Hs. reflexivity.
  - intros [copy|] w1 t1 _; [| reflexivity].
    destruct (si_add_size_t size_bits (strlen target_dir) (strlen (basename copy)))
      as [[|] n1]; [| reflexivity].
    destruct (si_add_size_t size_bits n1 2) as [[|] n2]; [| reflexivity].
    apply bind_trace.
    + unfold malloc. destruct (os_malloc os n2 w1). simpl.
      rewrite Hm. reflexivity.
    + intros [|] w2 t2 _; [| reflexivity].
      apply bind_trace.
      * unfold read_char. destruct (char_at target_dir _); reflexivity.
      * intros c w3 t3 _. reflexivity.
Qed.

Lemma ln_remove_dest_trace (os : OS) (g : event -> bool) (ctx : ln_ctx)
    (source_sb : stat_t) (path_dest : string) (w : world os) :
  (forall p r, g (EvStat p r) = true) ->
  (forall e fmt args, g (EvWarn e fmt args) = true) ->
  (Z.testbit (flags ctx) 0 = true -> forall rc, g (EvUnlink path_dest rc) = true) ->
  forallb g (snd (ln_remove_dest os ctx source_sb path_dest w)) = true.
Proof.
  intros Hs Hw Hu. unfold ln_remove_dest. unfold_run.
  destruct (os_stat os path_dest w) as [[dest_sb|] w1]; simpl;
    [| rewrite Hs; reflexivity].
  rewrite flag_set_remove_dest.
  destruct (Z.testbit (flags ctx) 0) eqn:Hf.
  - destruct (ln_same_file source_sb dest_sb); simpl.
    + rewrite Hs, Hw. reflexivity.
    + destruct (os_unlink os path_dest w1) as [rc w2].
      destruct (rc =? 0); simpl; rewrite Hs, (Hu eq_refl), ?Hw; reflexivity.
  - simpl. rewrite Hs, Hw. reflexivity.
Qed.

(** [ln_remove_dest] leaves the flags alone. *)
Lemma ln_remove_dest_flags (os : OS) (ctx ctx' : ln_ctx) (source_sb : stat_t)
    (path_dest : string) (w w' : world os) (removed : bool) (tr : list event) :
  ln_remove_dest os ctx source_sb path_dest w = (Ok (removed, ctx'), w', tr) ->
  flags ctx' = flags ctx.
Proof.
  intros Hrun.
  destruct (ln_remove_dest_post os ctx source_sb path_dest w)
    as (r & c & w1 & t & Hrun' & Hc & _).
  rewrite Hrun in Hrun'. injection Hrun' as <- <- <- <-.
  subst ctx'. destruct removed; reflexivity.
Qed.

Lemma ln_create_link_trace (os : OS) (g : event -> bool) (ctx : ln_ctx)
    (path_source path_dest : string) (w : world os) :
  step_events_ok g (flags ctx) path_source path_dest ->
  forallb g (snd (ln_create_link os ctx path_source path_dest w)) = true.
Proof.
  intros (Hst & Hls & _ & _ & Hw & Hu & Hsym & Hat & Hlk).
  unfold ln_create_link. apply bind_trace.
  - unfold sys_lstat. destruct (os_lstat os path_source w). simpl.
    rewrite Hls. reflexivity.
  - intros [source_sb|] w1 t1 _.
    + apply bind_trace.
      * apply ln_remove_dest_trace; assumption.
      * intros [removed ctx1] w2 t2 _. destruct removed; [| reflexivity].
        apply bind_trace.
        -- rewrite selected_run.
           destruct (selected_answer os (flags ctx1) source_sb path_source
                       path_dest w2) as [rc w3].
           cbn [snd forallb]. unfold selected_call.
           destruct (Z.testbit (flags ctx1) 2); [rewrite Hsym; reflexivity|].
           destruct (S_ISLNK (st_mode source_sb));
             [rewrite Hat | rewrite Hlk]; reflexivity.
        -- intros rc w3 t3 _. destruct (negb (rc =? 0)); [| reflexivity].
           unfold ln_warn. simpl. rewrite Hw. reflexivity.
    + unfold ln_warn. simpl. rewrite Hw. reflexivity.
Qed.

(** The path the composer returns starts with the target directory. *)
Lemma ln_path_target_concat_prefix (size_bits : Z) (os : OS)
    (target_dir source_file path : string) (w w' : world os)
    (tr : list event) :
  ln_path_target_concat size_bits os target_dir source_file w
    = (Ok (Some path), w', tr) ->
  path = target_dir ++ basename source_file \/
  path = target_dir ++ "/" ++ basename source_file.
Proof.
  unfold ln_path_target_concat, bind. unfold strdup at 1.
  destruct (os_strdup os source_file w) as [[|] w1]; cbv beta iota;
    [| unfold ret; intros H; discriminate].
  destruct (si_add_size_t size_bits (strlen target_dir)
              (strlen (basename source_file))) as [[|] n1];
    [| unfold ret; intros H; discriminate].
  destruct (si_add_size_t size_bits n1 2) as [[|] n2];
    [| unfold ret; intros H; discriminate].
  unfold malloc at 1.
  destruct (os_malloc os n2 w1) as [[|] w2]; cbv beta iota;
    [| unfold ret; intros H; discriminate].
  unfold read_char.
  destruct (char_at target_dir _) as [c|]; [| intros H; discriminate].
  unfold ret. intros H. injection H as H _ _.
  destruct (Ascii.eqb c "/"); simpl in H; subst path.
  - left. reflexivity.
  - right. apply string_app_assoc.
Qed.

Lemma prefix_app (s t : string) : String.prefix s (s ++ t) = true.
Proof.
  induction s as [|c s IH]; simpl.
  - destruct t; reflexivity.
  - destruct (ascii_dec c c); [exact IH | congruence].
Qed.

Lemma ln_target_dir_trace (size_bits : Z) (os : OS) (g : event -> bool)
    (ctx : ln_ctx) (source_file target_dir : string) (w : world os) :
  (forall path_dest,
     String.prefix target_dir path_dest = true ->
     step_events_ok g (flags ctx) source_file path_dest) ->
  forallb g (snd (ln_target_dir size_bits os ctx source_file target_dir w))
    = true.
Proof.
  intros Hok.
  assert (Hself : String.prefix target_dir target_dir = true).
  { clear. induction target_dir as [|c s IH]; simpl; [reflexivity|].
    destruct (ascii_dec c c); [exact IH | congruence]. }
  destruct (step_events_ok_weaken _ _ _ _ (Hok target_dir Hself))
    as (_ & _ & Hs & Hm & Hw).
  unfold ln_target_dir. apply bind_trace.
  - apply ln_path_target_concat_trace; assumption.
  - intros [path_dest|] w1 t1 Hrun.
    + apply ln_create_link_trace. apply Hok.
      destruct (ln_path_target_concat_prefix _ _ _ _ _ _ _ _ Hrun) as [->| ->];
        apply prefix_app.
    + unfold ln_warn. simpl. rewrite Hw. reflexivity.
Qed.

(** [ln_target_dir] leaves the flags alone. *)
Lemma ln_target_dir_flags (size_bits : Z) (os : OS) (ctx ctx' : ln_ctx)
    (source_file target_dir : string) (w w' : world os) (tr : list event) :
  ln_target_dir size_bits os ctx source_file target_dir w = (Ok ctx', w', tr) ->
  flags ctx' = flags ctx.
Proof.
  unfold ln_target_dir, bind.
  destruct (ln_path_target_concat size_bits os target_dir source_file w)
    as [[[[path_dest|]|f] w1] t1]; [| | discriminate].
  - destruct (ln_create_link_post os ctx source_file path_dest w1)
      as (c & w2 & t2 & Hrun & Hf & _).
    rewrite Hrun. intros H. injection H as <- _ _. exact Hf.
  - unfold ln_warn. intros H. injection H as <- _ _. reflexivity.
Qed.

Lemma ln_target_dir_loop_trace (size_bits : Z) (os : OS) (g : event -> bool)
    (sources : list string) (target_dir : string) :
  forall (ctx : ln_ctx) (w : world os),
    (forall source_file path_dest,
       In source_file sources ->
       String.prefix target_dir path_dest = true ->
       step_events_ok g (flags ctx) source_file path_dest) ->
    forallb g (snd (ln_target_dir_loop size_bits os ctx sources target_dir w))
      = true.
Proof.
  induction sources as [|s sources IH]; intros ctx w Hok; [reflexivity|].
  simpl. apply bind_trace.
  - apply ln_target_dir_trace. intros p Hp. apply Hok; [left; reflexivity | exact Hp].
  - intros ctx1 w1 t1 Hrun. apply IH.
    rewrite (ln_target_dir_flags _ _ _ _ _ _ _ _ _ Hrun).
    intros src p Hin Hp. apply Hok; [right; exact Hin | exact Hp].
Qed.

Lemma ln_target_dir_loop_flags (size_bits : Z) (os : OS)
    (sources : list string) (target_dir : string) :
  forall (ctx ctx' : ln_ctx) (w w' : world os) (tr : list event),
    ln_target_dir_loop size_bits os ctx sources target_dir w = (Ok ctx', w', tr) ->
    flags ctx' = flags ctx.
Proof.
  induction sources as [|s sources IH]; intros ctx ctx' w w' tr.
  - simpl. unfold ret. intros H. injection H as <- _ _. reflexivity.
  - simpl. unfold bind.
    destruct (ln_target_dir size_bits os ctx s target_dir w)
      as [[[c1|f] w1] t1] eqn:Hstep; [| discriminate].
    destruct (ln_target_dir_loop size_bits os c1 sources target_dir w1)
      as [[r w2] t2] eqn:Hrest.
    intros H. injection H as -> _ _.
    rewrite (IH _ _ _ _ _ Hrest). exact (ln_target_dir_flags _ _ _ _ _ _ _ _ _ Hstep).
Qed.

(** A test that accepts what any step may emit under the flags of the
    context accepts the whole trace of the operands stage. *)
Lemma ln_main_operands_trace (size_bits : Z) (os : OS) (g : event -> bool)
    (ctx : ln_ctx) (argc : Z) (argv : list string) (w : world os) :
  (forall path_source path_dest,
     step_events_ok g (flags ctx) path_source path_dest) ->
  forallb g (snd (ln_main_operands size_bits os ctx argc argv w)) = true.
Proof.
  intros Hok.
  destruct (step_events_ok_weaken _ _ _ _ (Hok "" "")) as (Hst & _ & _ & _ & Hw).
  unfold ln_main_operands.
  destruct (argc <? 2); [unfold ln_warn; simpl; rewrite Hw; reflexivity|].
  apply bind_trace.
  - unfold sys_stat. destruct (os_stat os _ w). simpl. rewrite Hst. reflexivity.
  - intros target_sb w1 t1 _. apply bind_trace.
    + destruct target_sb as [target_sb|]; [| reflexivity].
      destruct (S_ISDIR (st_mode target_sb)).
      * apply bind_trace; [| intros; reflexivity].
        apply ln_target_dir_loop_trace. intros; apply Hok.
      * destruct (argc >? 2); [| reflexivity].
        unfold_run. simpl. rewrite Hw. reflexivity.
    + intros [is_target_dir ctx1] w2 t2 Hrun.
      assert (Hflags : flags ctx1 = flags ctx).
      { destruct target_sb as [target_sb|].
        - destruct (S_ISDIR (st_mode target_sb)).
          + unfold bind in Hrun.
            destruct (ln_target_dir_loop size_bits os ctx _ _ w1)
              as [[[c|f] w3] t3] eqn:Hloop; [| discriminate].
            unfold ret in Hrun. injection Hrun as _ <- _ _.
            exact (ln_target_dir_loop_flags _ _ _ _ _ _ _ _ _ Hloop).
          + destruct (argc >? 2); unfold_run; injection Hrun as _ <- _ _;
              reflexivity.
        - unfold ret in Hrun. injection Hrun as _ <- _ _. reflexivity. }
      destruct (negb is_target_dir && (status_code ctx1 =? EXIT_SUCCESS));
        [| reflexivity].
      destruct (negb (argc =? 2)).
      * unfold ln_warn. simpl. rewrite Hw. reflexivity.
      * apply ln_create_link_trace. rewrite Hflags. apply Hok.
Qed.

Lemma ln_main_trace (size_bits : Z) (os : OS) (g : event -> bool)
    (ord : ordering)
    (argv : list string) (w : world os) :
  (forall path_source path_dest,
     step_events_ok g (flags (parsed_ctx ord argv)) path_source path_dest) ->
  forallb g (snd (ln_main size_bits os ord argv w)) = true.
Proof.
  intros Hok. rewrite ln_main_run.
  destruct (has_unrecognized_flag ord argv); [reflexivity|].
  pose proof (ln_main_operands_trace size_bits os g (parsed_ctx ord argv)
                (Z.of_nat (List.length (operands_of ord argv))) (operands_of ord argv)
                w Hok) as H.
  destruct (ln_main_operands size_bits os (parsed_ctx ord argv) _ _ w)
    as [[[c|f] w'] tr]; exact H.
Qed.

Lemma forallb_negb_existsb (f : event -> bool) (tr : list event) :
  forallb (fun e => negb (f e)) tr = true -> existsb f tr = false.
Proof.
  induction tr as [|e tr IH]; simpl; [reflexivity|].
  intros H. apply andb_true_iff in H. destruct H as [He Ht].
  apply negb_true_iff in He. rewrite He, (IH Ht). reflexivity.
Qed.

(** ** Nothing is removed without [-f] *)

(** X3.  When no 'f' is among the option characters of the command line,
    [ln_main] never calls [unlink], in any environment and whatever else
    happens in the run. *)
Theorem ln_main_no_unlink_without_f (size_bits : Z) (os : OS)
    (ord : ordering)
    (argv : list string) (w : world os) :
  existsb (fun c => Ascii.eqb c "f") (option_chars ord argv) = false ->
  existsb is_unlink (snd (ln_main size_bits os ord argv w)) = false.
Proof.
  intros Hf. apply forallb_negb_existsb. apply ln_main_trace.
  intros src dst.
  assert (Hbit : Z.testbit (flags (parsed_ctx ord argv)) 0 = false).
  { destruct (parsed_ctx_flag_bits ord argv) as [H _]. rewrite H. exact Hf. }
  unfold step_events_ok. rewrite Hbit.
  repeat split; intros; try reflexivity. discriminate.
Qed.

Lemma ln_main_no_unlink_without_f_witness :
  existsb is_unlink (snd (ln_main 64 fs_os PERMUTE ["ln"; "a"; "b"; "-sL"] fs_demo)) = false.
Proof.
  apply (ln_main_no_unlink_without_f 64 fs_os PERMUTE ["ln"; "a"; "b"; "-sL"] fs_demo).
  reflexivity.
Defined.

(** ** Only the destination is touched *)

Lemma string_prefix_refl (s : string) : String.prefix s s = true.
Proof.
  induction s as [|c s IH]; simpl; [reflexivity|].
  destruct (ascii_dec c c); [exact IH | congruence].
Qed.

(** X4.  Whatever the flags and the environment, the only path
    [ln_create_link] ever removes or creates is [path_dest]: every
    [unlink], [symlink], [linkat] and [link] of its trace has [path_dest]
    as the path it removes or creates.  (So the source can only be removed
    when it is [path_dest] itself.) *)
Theorem ln_create_link_only_dest (os : OS) (ctx : ln_ctx)
    (path_source path_dest : string) (w : world os) :
  mutations_within (String.eqb path_dest)
    (snd (ln_create_link os ctx path_source path_dest w)) = true.
Proof.
  unfold mutations_within. apply ln_create_link_trace.
  unfold step_events_ok.
  repeat split; intros; simpl; try reflexivity; apply String.eqb_refl.
Qed.

Lemma ln_target_dir_loop_within (size_bits : Z) (os : OS) (ctx : ln_ctx)
    (sources : list string) (target_dir : string) (w : world os) :
  mutations_within (String.prefix target_dir)
    (snd (ln_target_dir_loop size_bits os ctx sources target_dir w)) = true.
Proof.
  unfold mutations_within. apply ln_target_dir_loop_trace.
  intros src dst _ Hprefix. unfold step_events_ok.
  repeat split; intros; simpl; try reflexivity; exact Hprefix.
Qed.

(** X5.  When the final operand is a directory, every path [ln_main]
    removes or creates starts with the text of that operand: nothing
    but the names composed from the target directory is touched. *)
Theorem ln_main_batch_within_target (size_bits : Z) (os : OS)
    (ord : ordering)
    (argv : list string) (w : world os) :
  has_unrecognized_flag ord argv = false ->
  (2 <= List.length (operands_of ord argv))%nat ->
  is_directory (fst (os_stat os (last (operands_of ord argv) "") w)) = true ->
  mutations_within (String.prefix (last (operands_of ord argv) ""))
    (snd (ln_main size_bits os ord argv w)) = true.
Proof.
  intros Hbad Hlen Hdir. rewrite ln_main_run, Hbad.
  destruct (split_last (operands_of ord argv) Hlen)
    as (init & target & Hops & Hinit & Hlast & _).
  rewrite Hlast in *. rewrite Hops.
  rewrite ln_main_operands_run;
    [| rewrite parsed_ctx_status, Hbad; reflexivity | exact Hinit].
  destruct (os_stat os target w) as [r w1]. simpl in Hdir. rewrite Hdir.
  pose proof (ln_target_dir_loop_within size_bits os (parsed_ctx ord argv) init
                target w1) as Hloop.
  destruct (ln_target_dir_loop size_bits os (parsed_ctx ord argv) init target w1)
    as [[[c|f] w2] tr]; exact Hloop.
Qed.

Lemma ln_main_batch_within_target_witness :
  mutations_within
    (String.prefix (last (operands_of PERMUTE ["ln"; "a"; "b"; "-f"; "missing"; "dir"]) ""))
    (snd (ln_main 64 fs_os PERMUTE ["ln"; "a"; "b"; "-f"; "missing"; "dir"] fs_demo))
    = true.
Proof.
  apply (ln_main_batch_within_target 64 fs_os PERMUTE
           ["ln"; "a"; "b"; "-f"; "missing"; "dir"] fs_demo);
    [reflexivity | simpl; lia | reflexivity].
Defined.

(** ** The creating call comes after the lookup or the removal *)

Lemma link_call_preceded_no_link (path : string) (tr : list event) :
  existsb is_link_call tr = false -> link_call_preceded path tr = true.
Proof.
  induction tr as [|e tr IH]; simpl; [reflexivity|].
  intros H. apply orb_false_iff in H. destruct H as [He Ht].
  rewrite He, (IH Ht). destruct (stat_failed_or_unlinked path e); reflexivity.
Qed.

Lemma link_call_preceded_app (path : string) (t1 t2 : list event) :
  existsb is_link_call t1 = false ->
  existsb (stat_failed_or_unlinked path) t1 = true ->
  link_call_preceded path (t1 ++ t2) = true.
Proof.
  induction t1 as [|e t1 IH]; simpl; [discriminate|].
  intros Hl Hf. apply orb_false_iff in Hl. destruct Hl as [He Ht].
  destruct (stat_failed_or_unlinked path e); [reflexivity|].
  simpl in Hf. rewrite He, (IH Ht Hf). reflexivity.
Qed.

(** When [ln_remove_dest] returns true, its trace shows the destination
    free: [stat] failed on it, or [unlink] of it returned 0. *)
Lemma ln_remove_dest_stat_failed_or_unlinked (os : OS) (ctx ctx' : ln_ctx) (source_sb : stat_t)
    (path_dest : string) (w w' : world os) (tr : list event) :
  ln_remove_dest os ctx source_sb path_dest w = (Ok (true, ctx'), w', tr) ->
  existsb (stat_failed_or_unlinked path_dest) tr = true.
Proof.
  unfold ln_remove_dest. unfold_run.
  destruct (os_stat os path_dest w) as [[dest_sb|] w1].
  - destruct (flag_set (flags ctx) LN_FLAG_REMOVE_DEST); [| discriminate].
    destruct (ln_same_file source_sb dest_sb); [discriminate|].
    destruct (os_unlink os path_dest w1) as [rc w2].
    destruct (rc =? 0) eqn:Hrc; [| discriminate].
    intros H. injection H as _ _ <-. simpl.
    rewrite String.eqb_refl, Hrc. reflexivity.
  - intros H. injection H as _ _ <-. simpl.
    rewrite String.eqb_refl. reflexivity.
Qed.

(** X6.  The order of the calls of [ln_create_link]: in its trace, a
    [symlink], [linkat] or [link] comes only after a [stat] of [path_dest]
    that failed or an [unlink] of [path_dest] that returned 0.  (This is
    about the order of the calls, not about the file system: [stat] also
    fails on a symbolic link that points nowhere, and the creating call is
    then made on a name that exists.) *)
Theorem ln_create_link_call_order (os : OS) (ctx : ln_ctx)
    (path_source path_dest : string) (w : world os) :
  link_call_preceded path_dest
    (snd (ln_create_link os ctx path_source path_dest w)) = true.
Proof.
  destruct (os_lstat os path_source w) as [[source_sb|] w1] eqn:Hlstat.
  - destruct (ln_remove_dest_post os ctx source_sb path_dest w1)
      as (removed & ctx1 & w2 & tr1 & Hrun & Hctx & _ & Hnolink).
    destruct removed.
    + simpl in Hctx. subst ctx1.
      destruct (ln_create_link_proceed os ctx ctx path_source path_dest
                  source_sb w w1 w2 tr1 Hlstat Hrun)
        as (rc & w3 & _ & Hlink & _).
      rewrite Hlink. cbn [snd link_call_preceded stat_failed_or_unlinked is_link_call negb andb].
      apply link_call_preceded_app; [exact Hnolink|].
      exact (ln_remove_dest_stat_failed_or_unlinked _ _ _ _ _ _ _ _ Hrun).
    + unfold ln_create_link, bind. unfold sys_lstat at 1.
      rewrite Hlstat, Hrun. cbv beta iota. unfold ret.
      cbn [snd app link_call_preceded stat_failed_or_unlinked is_link_call negb andb].
      rewrite app_nil_r. apply link_call_preceded_no_link. exact Hnolink.
  - rewrite (ln_create_link_no_source os ctx path_source path_dest w w1 Hlstat).
    reflexivity.
Qed.

(** ** Removal is not undone *)

Lemma ln_create_link_replace (os : OS) (ctx : ln_ctx)
    (path_source path_dest : string) (source_sb dest_sb : stat_t)
    (w w1 w2 w3 w4 : world os) (rc_unlink rc : Z) :
  os_lstat os path_source w = (Some source_sb, w1) ->
  os_stat os path_dest w1 = (Some dest_sb, w2) ->
  Z.testbit (flags ctx) 0 = true ->
  st_dev source_sb <> st_dev dest_sb \/ st_ino source_sb <> st_ino dest_sb ->
  os_unlink os path_dest w2 = (rc_unlink, w3) ->
  selected_answer os (flags ctx) source_sb path_source path_dest w3 = (rc, w4) ->
  ln_create_link os ctx path_source path_dest w =
    if rc_unlink =? 0 then
      (Ok (if rc =? 0 then ctx else failed ctx), w4,
       [EvLstat path_source (Some source_sb); EvStat path_dest (Some dest_sb);
        EvUnlink path_dest rc_unlink;
        selected_call (flags ctx) source_sb path_source path_dest rc]
       ++ (if rc =? 0 then []
           else [EvWarn true "failed to create link: %s - %s"
                        [path_source; path_dest]]))%list
    else
      (Ok (failed ctx), w3,
       [EvLstat path_source (Some source_sb); EvStat path_dest (Some dest_sb);
        EvUnlink path_dest rc_unlink;
        EvWarn true "failed to unlink destination: %s" [path_dest]]).
Proof.
  intros Hlstat Hstat Hflag Hdiff Hunlink Hans.
  apply ln_same_file_false in Hdiff.
  unfold ln_create_link, ln_remove_dest, bind.
  unfold sys_lstat at 1. rewrite Hlstat.
  unfold sys_stat at 1. rewrite Hstat.
  rewrite flag_set_remove_dest, Hflag, Hdiff.
  unfold sys_unlink at 1. rewrite Hunlink.
  destruct (rc_unlink =? 0); cbn [negb].
  - unfold ret at 1. cbv beta iota. rewrite selected_run, Hans.
    destruct (rc =? 0); reflexivity.
  - reflexivity.
Qed.

(** X7.  With [-f], on a destination that exists and is not the source:
    once [unlink] has removed the destination, a creating call that fails
    is reported and nothing more is done.  The trace ends with the
    diagnostic: no call restores the destination, which is lost. *)
Theorem ln_create_link_no_rollback (os : OS) (ctx : ln_ctx)
    (path_source path_dest : string) (source_sb dest_sb : stat_t)
    (w w1 w2 w3 w4 : world os) (rc : Z) :
  os_lstat os path_source w = (Some source_sb, w1) ->
  os_stat os path_dest w1 = (Some dest_sb, w2) ->
  Z.testbit (flags ctx) 0 = true ->
  st_dev source_sb <> st_dev dest_sb \/ st_ino source_sb <> st_ino dest_sb ->
  os_unlink os path_dest w2 = (0, w3) ->
  selected_answer os (flags ctx) source_sb path_source path_dest w3 = (rc, w4) ->
  rc <> 0 ->
  ln_create_link os ctx path_source path_dest w =
    (Ok (failed ctx), w4,
     [EvLstat path_source (Some source_sb); EvStat path_dest (Some dest_sb);
      EvUnlink path_dest 0;
      selected_call (flags ctx) source_sb path_source path_dest rc;
      EvWarn true "failed to create link: %s - %s" [path_source; path_dest]]).
Proof.
  intros Hlstat Hstat Hflag Hdiff Hunlink Hans Hrc.
  rewrite (ln_create_link_replace os ctx path_source path_dest source_sb
             dest_sb w w1 w2 w3 w4 0 rc Hlstat Hstat Hflag Hdiff Hunlink Hans).
  apply Z.eqb_neq in Hrc. rewrite Hrc. reflexivity.
Qed.

(** "ln -fL dangling b": "b" is removed, then [linkat] cannot follow the
    dangling link. *)
Lemma ln_create_link_no_rollback_witness :
  ln_create_link fs_os (mk_ln_ctx 0 3) "dangling" "b"
    [mk_entry "dangling" sb_sym None; mk_entry "b" sb_b (Some sb_b)] =
    (Ok (failed (mk_ln_ctx 0 3)), [mk_entry "dangling" sb_sym None],
     [EvLstat "dangling" (Some sb_sym); EvStat "b" (Some sb_b);
      EvUnlink "b" 0;
      selected_call 3 sb_sym "dangling" "b" (-1);
      EvWarn true "failed to create link: %s - %s" ["dangling"; "b"]]).
Proof.
  apply (ln_create_link_no_rollback fs_os (mk_ln_ctx 0 3) "dangling" "b"
           sb_sym sb_b
           [mk_entry "dangling" sb_sym None; mk_entry "b" sb_b (Some sb_b)]
           [mk_entry "dangling" sb_sym None; mk_entry "b" sb_b (Some sb_b)]
           [mk_entry "dangling" sb_sym None; mk_entry "b" sb_b (Some sb_b)]
           [mk_entry "dangling" sb_sym None]
           [mk_entry "dangling" sb_sym None] (-1));
    try reflexivity.
  - right. vm_compute. discriminate.
  - discriminate.
Defined.

(** X8.  The same-file test of [ln_remove_dest] compares what [lstat]
    says of the source with what [stat] says of the destination.  So with
    [-f], when one path is given as source and as destination and it
    names a symbolic link to another existing file (other device or inode
    than the link), the test does not see them as the same and the path
    is handed to [unlink]: the source itself is removed. *)
Theorem ln_create_link_same_path_symlink (os : OS) (ctx : ln_ctx)
    (path : string) (link_sb target_sb : stat_t) (w w1 w2 w3 : world os)
    (rc : Z) :
  os_lstat os path w = (Some link_sb, w1) ->
  os_stat os path w1 = (Some target_sb, w2) ->
  Z.testbit (flags ctx) 0 = true ->
  st_dev link_sb <> st_dev target_sb \/ st_ino link_sb <> st_ino target_sb ->
  os_unlink os path w2 = (rc, w3) ->
  In (EvUnlink path rc) (snd (ln_create_link os ctx path path w)).
Proof.
  intros Hlstat Hstat Hflag Hdiff Hunlink.
  destruct (selected_answer os (flags ctx) link_sb path path w3)
    as [rc' w4] eqn:Hans.
  rewrite (ln_create_link_replace os ctx path path link_sb target_sb
             w w1 w2 w3 w4 rc rc' Hlstat Hstat Hflag Hdiff Hunlink Hans).
  destruct (rc =? 0); simpl; auto.
Qed.

(** "ln -f sym sym" on the small file system, where "sym" points to "a". *)
Lemma ln_create_link_same_path_symlink_witness :
  In (EvUnlink "sym" 0)
     (snd (ln_create_link fs_os (mk_ln_ctx 0 1) "sym" "sym" fs_demo)).
Proof.
  apply (ln_create_link_same_path_symlink fs_os (mk_ln_ctx 0 1) "sym"
           sb_sym sb_a fs_demo fs_demo fs_demo (fs_remove "sym" fs_demo) 0);
    try reflexivity.
  right. vm_compute. discriminate.
Defined.

Example ln_main_f_sym_sym :
  ln_main 64 fs_os PERMUTE ["ln"; "-f"; "sym"; "sym"] fs_demo =
    (Ok EXIT_FAILURE, fs_remove "sym" fs_demo,
     [EvStat "sym" (Some sb_a); EvLstat "sym" (Some sb_sym);
      EvStat "sym" (Some sb_a); EvUnlink "sym" 0;
      EvLinkat AT_FDCWD "sym" AT_FDCWD "sym" 0 (-1);
      EvWarn true "failed to create link: %s - %s" ["sym"; "sym"]]).
Proof. vm_compute. reflexivity. Qed.

(** ** Every source is attempted, in order *)

Lemma strdup_args_app (t1 t2 : list event) :
  strdup_args (t1 ++ t2) = (strdup_args t1 ++ strdup_args t2)%list.
Proof. unfold strdup_args. apply flat_map_app. Qed.

Lemma strdup_args_none (tr : list event) :
  forallb (fun e => match e with EvStrdup _ _ => false | _ => true end) tr = true ->
  strdup_args tr = [].
Proof.
  induction tr as [|e tr IH]; simpl; [reflexivity|].
  intros H. apply andb_true_iff in H. destruct H as [He Ht].
  rewrite (IH Ht). destruct e; try reflexivity. discriminate.
Qed.

Lemma ln_create_link_no_strdup (os : OS) (ctx : ln_ctx)
    (path_source path_dest : string) (w : world os) :
  strdup_args (snd (ln_create_link os ctx path_source path_dest w)) = [].
Proof.
  destruct (os_lstat os path_source w) as [[source_sb|] w1] eqn:Hlstat.
  - destruct (ln_remove_dest_post os ctx source_sb path_dest w1)
      as (removed & ctx1 & w2 & tr1 & Hrun & Hctx & _ & _).
    assert (Htr1 : strdup_args tr1 = []).
    { apply strdup_args_none.
      pose proof (ln_remove_dest_trace os
                    (fun e => match e with EvStrdup _ _ => false | _ => true end)
                    ctx source_sb path_dest w1) as H.
      rewrite Hrun in H. apply H; reflexivity. }
    destruct removed.
    + simpl in Hctx. subst ctx1.
      destruct (ln_create_link_proceed os ctx ctx path_source path_dest
                  source_sb w w1 w2 tr1 Hlstat Hrun)
        as (rc & w3 & _ & Hlink & _).
      rewrite Hlink. cbn [snd].
      change (EvLstat path_source (Some source_sb) :: ?l)%list
        with ([EvLstat path_source (Some source_sb)] ++ l)%list.
      rewrite !strdup_args_app, Htr1.
      unfold selected_call.
      destruct (Z.testbit (flags ctx) 2), (S_ISLNK (st_mode source_sb)),
        (rc =? 0); reflexivity.
    + unfold ln_create_link, bind. unfold sys_lstat at 1.
      rewrite Hlstat, Hrun. cbv beta iota. unfold ret. cbn [snd].
      rewrite app_nil_r.
      change (strdup_args ([EvLstat path_source (Some source_sb)] ++ tr1) = []).
      rewrite strdup_args_app, Htr1. reflexivity.
  - rewrite (ln_create_link_no_source os ctx path_source path_dest w w1 Hlstat).
    reflexivity.
Qed.

Lemma ln_path_target_concat_strdup (size_bits : Z) (os : OS)
    (target_dir source_file : string) (w : world os) :
  strdup_args (snd (ln_path_target_concat size_bits os target_dir source_file w))
    = [source_file].
Proof.
  unfold ln_path_target_concat, bind. unfold strdup at 1.
  destruct (os_strdup os source_file w) as [[|] w1]; cbv beta iota;
    [| reflexivity].
  destruct (si_add_size_t size_bits (strlen target_dir)
              (strlen (basename source_file))) as [[|] n1]; [| reflexivity].
  destruct (si_add_size_t size_bits n1 2) as [[|] n2]; [| reflexivity].
  unfold malloc at 1.
  destruct (os_malloc os n2 w1) as [[|] w2]; cbv beta iota; [| reflexivity].
  unfold read_char.
  destruct (char_at target_dir _); reflexivity.
Qed.

Lemma ln_target_dir_strdup (size_bits : Z) (os : OS) (ctx : ln_ctx)
    (source_file target_dir : string) (w : world os) :
  strdup_args (snd (ln_target_dir size_bits os ctx source_file target_dir w))
    = [source_file].
Proof.
  pose proof (ln_path_target_concat_strdup size_bits os target_dir source_file w)
    as Hc.
  unfold ln_target_dir, bind.
  destruct (ln_path_target_concat size_bits os target_dir source_file w)
    as [[[[path_dest|]|f] w1] t1]; simpl in Hc.
  - pose proof (ln_create_link_no_strdup os ctx source_file path_dest w1) as Hl.
    destruct (ln_create_link os ctx source_file path_dest w1) as [[r w2] t2].
    simpl in *. rewrite strdup_args_app, Hc, Hl. reflexivity.
  - unfold ln_warn. simpl. rewrite strdup_args_app, Hc. reflexivity.
  - exact Hc.
Qed.

Lemma ln_target_dir_loop_strdup (size_bits : Z) (os : OS)
    (sources : list string) (target_dir : string) :
  target_dir <> "" ->
  forall (ctx : ln_ctx) (w : world os),
    strdup_args (snd (ln_target_dir_loop size_bits os ctx sources target_dir w))
      = sources.
Proof.
  intros Hne. induction sources as [|s sources IH]; intros ctx w;
    [reflexivity|].
  destruct (ln_target_dir_post size_bits os ctx s target_dir w Hne)
    as (c1 & w1 & t1 & Hrun & _).
  pose proof (ln_target_dir_strdup size_bits os ctx s target_dir w) as Hs.
  rewrite Hrun in Hs. simpl in Hs.
  specialize (IH c1 w1).
  simpl. unfold bind. rewrite Hrun.
  destruct (ln_target_dir_loop size_bits os c1 sources target_dir w1)
    as [[r w2] t2]. simpl in *.
  rewrite strdup_args_app, Hs, IH. reflexivity.
Qed.

(** X9.  In an environment where [stat] rejects the empty path, when the
    final operand is a directory [ln_main] attempts every other operand,
    once and in the order given, whatever fails on the way: the strings
    handed to [strdup] (the first call of each step) are exactly those
    operands. *)
Theorem ln_main_batch_attempts_all (size_bits : Z) (os : OS)
    (ord : ordering)
    (argv : list string) (w : world os) :
  posix_stat os ->
  has_unrecognized_flag ord argv = false ->
  (2 <= List.length (operands_of ord argv))%nat ->
  is_directory (fst (os_stat os (last (operands_of ord argv) "") w)) = true ->
  strdup_args (snd (ln_main size_bits os ord argv w)) = removelast (operands_of ord argv).
Proof.
  intros Hposix Hbad Hlen Hdir. rewrite ln_main_run, Hbad.
  destruct (split_last (operands_of ord argv) Hlen)
    as (init & target & Hops & Hinit & Hlast & Hrem).
  rewrite Hlast, Hrem in *. rewrite Hops.
  rewrite ln_main_operands_run;
    [| rewrite parsed_ctx_status, Hbad; reflexivity | exact Hinit].
  destruct (os_stat os target w) as [r w1] eqn:Hstat. simpl in Hdir.
  rewrite Hdir.
  pose proof (directory_not_empty_path os target w w1 r Hposix Hstat Hdir)
    as Hne.
  pose proof (ln_target_dir_loop_strdup size_bits os init target Hne
                (parsed_ctx ord argv) w1) as Hloop.
  destruct (ln_target_dir_loop size_bits os (parsed_ctx ord argv) init target w1)
    as [[[c|f] w2] tr]; exact Hloop.
Qed.

Lemma ln_main_batch_attempts_all_witness :
  strdup_args (snd (ln_main 64 fs_os PERMUTE ["ln"; "missing"; "-s"; "b"; "a"; "dir"] fs_demo))
  = removelast (operands_of PERMUTE ["ln"; "missing"; "-s"; "b"; "a"; "dir"]).
Proof.
  apply (ln_main_batch_attempts_all 64 fs_os PERMUTE
           ["ln"; "missing"; "-s"; "b"; "a"; "dir"] fs_demo);
    [intros w; reflexivity | reflexivity | simpl; lia | reflexivity].
Defined.

(** ** A length that does not fit *)

(** X10.  When the length of the target directory, the length of the
    basename and the two extra bytes do not fit in [size_t] together,
    the composer returns the null pointer without calling [malloc], and
    [ln_target_dir] reports "alloc" and makes no other call: no path is
    looked up, removed or created. *)
Theorem ln_target_dir_overflow (size_bits : Z) (os : OS) (ctx : ln_ctx)
    (source_file target_dir : string) (w w1 : world os) :
  2 <= SIZE_MAX size_bits ->
  strlen target_dir <= SIZE_MAX size_bits ->
  strlen (basename source_file) <= SIZE_MAX size_bits ->
  SIZE_MAX size_bits < strlen target_dir + strlen (basename source_file) + 2 ->
  os_strdup os source_file w = (true, w1) ->
  ln_path_target_concat size_bits os target_dir source_file w =
    (Ok None, w1, [EvStrdup source_file true]) /\
  ln_target_dir size_bits os ctx source_file target_dir w =
    (Ok (failed ctx), w1, [EvStrdup source_file true; EvWarn true "alloc" []]).
Proof.
  intros H2 Ht Hb Hover Hdup.
  pose proof (strlen_nonneg target_dir) as Hnt.
  pose proof (strlen_nonneg (basename source_file)) as Hnb.
  assert (Hconcat : ln_path_target_concat size_bits os target_dir source_file w =
                    (Ok None, w1, [EvStrdup source_file true])).
  { unfold ln_path_target_concat, bind. unfold strdup at 1.
    rewrite Hdup. cbv beta iota.
    destruct (Z.le_gt_cases (strlen target_dir + strlen (basename source_file))
                (SIZE_MAX size_bits)) as [Hfit|Hwrap].
    - rewrite si_add_size_t_fits by lia.
      rewrite si_add_size_t_wraps by lia. reflexivity.
    - rewrite si_add_size_t_wraps by lia. reflexivity. }
  split; [exact Hconcat|].
  unfold ln_target_dir, bind. rewrite Hconcat. reflexivity.
Qed.

(** With a [size_t] of four bits: 9 + 8 wraps at the first addition, and
    9 + 5 + 2 at the second. *)
Lemma ln_target_dir_overflow_witness :
  (ln_path_target_concat 4 fs_os "directory" "a/file.txt" fs_demo =
     (Ok None, fs_demo, [EvStrdup "a/file.txt" true]) /\
   ln_target_dir 4 fs_os (mk_ln_ctx 0 0) "a/file.txt" "directory" fs_demo =
     (Ok (failed (mk_ln_ctx 0 0)), fs_demo,
      [EvStrdup "a/file.txt" true; EvWarn true "alloc" []])) /\
  (ln_path_target_concat 4 fs_os "directory" "files" fs_demo =
     (Ok None, fs_demo, [EvStrdup "files" true]) /\
   ln_target_dir 4 fs_os (mk_ln_ctx 0 0) "files" "directory" fs_demo =
     (Ok (failed (mk_ln_ctx 0 0)), fs_demo,
      [EvStrdup "files" true; EvWarn true "alloc" []])).
Proof.
  split.
  - apply (ln_target_dir_overflow 4 fs_os (mk_ln_ctx 0 0) "a/file.txt"
             "directory" fs_demo fs_demo);
      try (vm_compute; discriminate); try reflexivity.
  - apply (ln_target_dir_overflow 4 fs_os (mk_ln_ctx 0 0) "files"
             "directory" fs_demo fs_demo);
      try (vm_compute; discriminate); try reflexivity.
Defined.

(** ** [link_main] and [unlink_main] *)

(** X11.  [link_main] always returns.  It returns success exactly when it
    was given two operands and [link] on them returned 0.  With another
    number of operands it prints one diagnostic and makes no call at all;
    with two it makes a single call, [link(argv[1], argv[2])], and never
    removes anything: an existing destination is left to [link] to
    refuse. *)
Theorem link_main_behaviour (os : OS) (argv : list string) (w : world os) :
  exists st w' tr,
    link_main os argv w = (Ok st, w', tr) /\
    (st = EXIT_SUCCESS \/ st = EXIT_FAILURE) /\
    (st = EXIT_SUCCESS <->
       List.length argv = 3%nat /\
       fst (os_link os (nth 1 argv "") (nth 2 argv "") w) = 0) /\
    (List.length argv <> 3%nat ->
       w' = w /\ tr = [EvWarn false "must have exactly two file operands" []]) /\
    (List.length argv = 3%nat ->
       w' = snd (os_link os (nth 1 argv "") (nth 2 argv "") w) /\
       hd_error tr =
         Some (EvLink (nth 1 argv "") (nth 2 argv "")
                      (fst (os_link os (nth 1 argv "") (nth 2 argv "") w))) /\
       count is_mutation tr = 1%nat) /\
    count is_warn tr = (if st =? EXIT_SUCCESS then 0%nat else 1%nat) /\
    existsb is_unlink tr = false.
Proof.
  unfold link_main.
  destruct (Z.eqb_spec (Z.of_nat (List.length argv)) 3) as [Hlen|Hlen];
    cbn [negb].
  - unfold bind, sys_link, warn, ret.
    destruct (os_link os (nth 1 argv "") (nth 2 argv "") w) as [rc w1].
    destruct (Z.eqb_spec rc 0) as [->|Hrc]; cbn [negb];
      do 3 eexists; (split; [reflexivity|]).
    + split; [left; reflexivity|].
      split; [split; [intros _; split; [lia | reflexivity] | reflexivity]|].
      split; [intros H; lia|].
      split; [intros _; repeat split|]. split; reflexivity.
    + split; [right; reflexivity|].
      split; [split; [discriminate | intros [_ H]; simpl in H; contradiction]|].
      split; [intros H; lia|].
      split; [intros _; repeat split|]. split; reflexivity.
  - unfold bind, warnx, ret. do 3 eexists. split; [reflexivity|].
    split; [right; reflexivity|].
    split; [split; [discriminate | intros [H _]; lia]|].
    split; [intros _; split; reflexivity|].
    split; [intros H; lia|]. split; reflexivity.
Qed.

(** X12.  [unlink_main] always returns.  It returns success exactly when
    it was given one operand and [unlink] on it returned 0.  With another
    number of operands it prints one diagnostic and makes no call at all;
    with one it makes a single call, [unlink(argv[1])]. *)
Theorem unlink_main_behaviour (os : OS) (argv : list string) (w : world os) :
  exists st w' tr,
    unlink_main os argv w = (Ok st, w', tr) /\
    (st = EXIT_SUCCESS \/ st = EXIT_FAILURE) /\
    (st = EXIT_SUCCESS <->
       List.length argv = 2%nat /\ fst (os_unlink os (nth 1 argv "") w) = 0) /\
    (List.length argv <> 2%nat ->
       w' = w /\ tr = [EvWarn false "must have exactly one file operand" []]) /\
    (List.length argv = 2%nat ->
       w' = snd (os_unlink os (nth 1 argv "") w) /\
       hd_error tr =
         Some (EvUnlink (nth 1 argv "") (fst (os_unlink os (nth 1 argv "") w))) /\
       count is_mutation tr = 1%nat) /\
    count is_warn tr = (if st =? EXIT_SUCCESS then 0%nat else 1%nat) /\
    existsb is_link_call tr = false.
Proof.
  unfold unlink_main.
  destruct (Z.eqb_spec (Z.of_nat (List.length argv)) 2) as [Hlen|Hlen];
    cbn [negb].
  - unfold bind, sys_unlink, warn, ret.
    destruct (os_unlink os (nth 1 argv "") w) as [rc w1].
    destruct (Z.eqb_spec rc 0) as [->|Hrc]; cbn [negb];
      do 3 eexists; (split; [reflexivity|]).
    + split; [left; reflexivity|].
      split; [split; [intros _; split; [lia | reflexivity] | reflexivity]|].
      split; [intros H; lia|].
      split; [intros _; repeat split|]. split; reflexivity.
    + split; [right; reflexivity|].
      split; [split; [discriminate | intros [_ H]; simpl in H; contradiction]|].
      split; [intros H; lia|].
      split; [intros _; repeat split|]. split; reflexivity.
  - unfold bind, warnx, ret. do 3 eexists. split; [reflexivity|].
    split; [right; reflexivity|].
    split; [split; [discriminate | intros [H _]; lia]|].
    split; [intros _; split; reflexivity|].
    split; [intros H; lia|]. split; reflexivity.
Qed.

(** The tests of test.c on [link] and [unlink], on the small file system. *)
Example link_main_tests :
  link_main fs_os ["link"; "a"; "c"] fs_demo =
    (Ok EXIT_SUCCESS, (fs_demo ++ [mk_entry "c" sb_a (Some sb_a)])%list,
     [EvLink "a" "c" 0]) /\
  link_main fs_os ["link"; "missing"; "c"] fs_demo =
    (Ok EXIT_FAILURE, fs_demo,
     [EvLink "missing" "c" (-1);
      EvWarn true "failed to create link: '%s' - '%s'" ["missing"; "c"]]) /\
  link_main fs_os ["link"; "a"] fs_demo =
    (Ok EXIT_FAILURE, fs_demo,
     [EvWarn false "must have exactly two file operands" []]) /\
  link_main fs_os ["link"; "a"; "b"; "c"] fs_demo =
    (Ok EXIT_FAILURE, fs_demo,
     [EvWarn false "must have exactly two file operands" []]).
Proof. repeat split. Qed.

Example unlink_main_tests :
  unlink_main fs_os ["unlink"; "b"] fs_demo =
    (Ok EXIT_SUCCESS, fs_remove "b" fs_demo, [EvUnlink "b" 0]) /\
  unlink_main fs_os ["unlink"; "missing"] fs_demo =
    (Ok EXIT_FAILURE, fs_demo,
     [EvUnlink "missing" (-1); EvWarn true "failed to unlink: %s" ["missing"]]) /\
  unlink_main fs_os ["unlink"] fs_demo =
    (Ok EXIT_FAILURE, fs_demo,
     [EvWarn false "must have exactly one file operand" []]) /\
  unlink_main fs_os ["unlink"; "a"; "a"] fs_demo =
    (Ok EXIT_FAILURE, fs_demo,
     [EvWarn false "must have exactly one file operand" []]).
Proof. repeat split. Qed.

(** ** [ln] without flags and [link] *)

Lemma prefix_dash_no_option (a : string) :
  String.prefix "-" a = false ->
  String.eqb a "--" = false /\ is_option_arg a = false.
Proof.
  intros Ha. destruct a as [|c cs]; [split; reflexivity|].
  cbn [String.prefix] in Ha.
  destruct (ascii_dec "-" c) as [<-|Hc]; [destruct cs; discriminate|].
  split.
  - apply String.eqb_neq. congruence.
  - simpl. destruct c as [[] [] [] [] [] [] [] []]; try reflexivity.
    congruence.
Qed.

(** Two arguments that do not start with '-' are two operands, and the
    context stays the zeroed one. *)
Lemma ln_main_getopt_no_flags (ord : ordering) (prog a b : string) :
  String.prefix "-" a = false ->
  String.prefix "-" b = false ->
  ln_main_getopt ord [prog; a; b] = (mk_ln_ctx 0 0, 2, [a; b]).
Proof.
  intros Ha Hb.
  destruct (prefix_dash_no_option a Ha) as [Ha1 Ha2].
  destruct (prefix_dash_no_option b Hb) as [Hb1 Hb2].
  unfold ln_main_getopt, getopt_all. cbn [getopt_scan].
  rewrite Ha1, Ha2. destruct ord; [reflexivity|].
  rewrite Hb1, Hb2. reflexivity.
Qed.

(** X13.  [ln source dest] without flags, for two paths of which neither
    starts with '-' (so that [getopt] takes neither for options), on a
    source that [lstat] shows not to be a symbolic link and a destination
    that does not exist and is no directory, is [link source dest]: after
    its three lookups [ln_main] makes the very call of [link_main], in the
    same world, and both end in the same world with the same exit
    status. *)
Theorem ln_main_plain_is_link (size_bits : Z) (os : OS) (ord : ordering)
    (path_source path_dest : string) (source_sb : stat_t)
    (r : option stat_t) (w w1 w2 w3 : world os) :
  String.prefix "-" path_source = false ->
  String.prefix "-" path_dest = false ->
  os_stat os path_dest w = (r, w1) ->
  is_directory r = false ->
  os_lstat os path_source w1 = (Some source_sb, w2) ->
  S_ISLNK (st_mode source_sb) = false ->
  os_stat os path_dest w2 = (None, w3) ->
  exists rc w4 st,
    os_link os path_source path_dest w3 = (rc, w4) /\
    st = (if rc =? 0 then EXIT_SUCCESS else EXIT_FAILURE) /\
    ln_main size_bits os ord ["ln"; path_source; path_dest] w =
      (Ok st, w4,
       [EvStat path_dest r; EvLstat path_source (Some source_sb);
        EvStat path_dest None; EvLink path_source path_dest rc]
       ++ (if rc =? 0 then []
           else [EvWarn true "failed to create link: %s - %s"
                        [path_source; path_dest]]))%list /\
    link_main os ["link"; path_source; path_dest] w3 =
      (Ok st, w4,
       EvLink path_source path_dest rc ::
       (if rc =? 0 then []
        else [EvWarn true "failed to create link: '%s' - '%s'"
                     [path_source; path_dest]])).
Proof.
  intros Hsrc Hdst Hstat Hdir Hlstat Hlnk Hfree.
  destruct (os_link os path_source path_dest w3) as [rc w4] eqn:Hlink.
  exists rc, w4, (if rc =? 0 then EXIT_SUCCESS else EXIT_FAILURE).
  split; [reflexivity|]. split; [reflexivity|]. split.
  - unfold ln_main. rewrite (ln_main_getopt_no_flags _ _ _ _ Hsrc Hdst).
    cbn [status_code].
    change (0 =? EXIT_SUCCESS) with true. cbv iota.
    change 2 with (Z.of_nat (List.length ([path_source] ++ [path_dest]))).
    change [path_source; path_dest] with ([path_source] ++ [path_dest])%list.
    unfold bind at 1.
    rewrite ln_main_operands_run by (simpl; auto).
    rewrite Hstat, Hdir. cbn [List.length Nat.leb].
    cbn [app nth].
    unfold ln_create_link, ln_remove_dest, bind.
    unfold sys_lstat at 1. rewrite Hlstat.
    unfold sys_stat at 1. rewrite Hfree.
    unfold ret at 1. cbv beta iota.
    change (flag_set (flags (mk_ln_ctx 0 0)) LN_FLAG_SYMBOLIC) with false.
    cbv iota. rewrite Hlnk. unfold sys_link. rewrite Hlink.
    destruct (rc =? 0); reflexivity.
  - unfold link_main. cbn [List.length nth]. 
    change (Z.of_nat 3 =? 3) with true. cbn [negb].
    unfold bind, sys_link. rewrite Hlink.
    destruct (rc =? 0); reflexivity.
Qed.

Lemma ln_main_plain_is_link_witness :
  exists rc w4 st,
    os_link fs_os "a" "c" fs_demo = (rc, w4) /\
    st = (if rc =? 0 then EXIT_SUCCESS else EXIT_FAILURE) /\
    ln_main 64 fs_os PERMUTE ["ln"; "a"; "c"] fs_demo =
      (Ok st, w4,
       [EvStat "c" None; EvLstat "a" (Some sb_a);
        EvStat "c" None; EvLink "a" "c" rc]
       ++ (if rc =? 0 then []
           else [EvWarn true "failed to create link: %s - %s" ["a"; "c"]]))%list /\
    link_main fs_os ["link"; "a"; "c"] fs_demo =
      (Ok st, w4,
       EvLink "a" "c" rc ::
       (if rc =? 0 then []
        else [EvWarn true "failed to create link: '%s' - '%s'" ["a"; "c"]])).
Proof.
  apply (ln_main_plain_is_link 64 fs_os PERMUTE "a" "c" sb_a None
           fs_demo fs_demo fs_demo fs_demo); reflexivity.
Defined.

(** ** At most one removal and one creation for each source *)

Lemma bind_count_le (os : OS) (A B : Type) (g : event -> bool) (m : M os A)
    (k : A -> M os B) (w : world os) (n1 n2 : nat) :
  (count g (snd (m w)) <= n1)%nat ->
  (forall a w1, count g (snd (k a w1)) <= n2)%nat ->
  (count g (snd (bind os m k w)) <= n1 + n2)%nat.
Proof.
  intros Hm Hk. unfold bind.
  destruct (m w) as [[[a|f] w1] t1]; simpl in *; [| lia].
  specialize (Hk a w1). destruct (k a w1) as [[r w2] t2]. simpl in *.
  rewrite count_app. lia.
Qed.

Lemma count_le_length (g : event -> bool) (tr : list event) :
  (count g tr <= List.length tr)%nat.
Proof. unfold count. apply filter_length_le. Qed.

Lemma count_all_false (g : event -> bool) (tr : list event) :
  forallb (fun e => negb (g e)) tr = true -> count g tr = O.
Proof.
  intros H. apply count_zero_existsb. apply forallb_negb_existsb. exact H.
Qed.

Lemma ln_remove_dest_counts (os : OS) (ctx : ln_ctx) (source_sb : stat_t)
    (path_dest : string) (w : world os) :
  (count is_unlink (snd (ln_remove_dest os ctx source_sb path_dest w)) <= 1)%nat /\
  count is_link_call (snd (ln_remove_dest os ctx source_sb path_dest w)) = O.
Proof.
  split.
  - unfold ln_remove_dest. unfold_run.
    destruct (os_stat os path_dest w) as [[dest_sb|] w1]; [| simpl; auto].
    destruct (flag_set (flags ctx) LN_FLAG_REMOVE_DEST); [| simpl; auto].
    destruct (ln_same_file source_sb dest_sb); [simpl; auto|].
    destruct (os_unlink os path_dest w1) as [rc w2].
    destruct (rc =? 0); simpl; auto.
  - apply count_all_false. apply ln_remove_dest_trace; reflexivity.
Qed.

Lemma ln_create_link_counts (os : OS) (ctx : ln_ctx)
    (path_source path_dest : string) (w : world os) :
  (count is_unlink (snd (ln_create_link os ctx path_source path_dest w)) <= 1)%nat /\
  (count is_link_call (snd (ln_create_link os ctx path_source path_dest w)) <= 1)%nat.
Proof.
  split.
  - unfold ln_create_link.
    apply (bind_count_le os _ _ is_unlink _ _ w 0 1).
    + unfold sys_lstat. destruct (os_lstat os path_source w). simpl. auto.
    + intros [source_sb|] w1; [| simpl; auto].
      apply (bind_count_le os _ _ is_unlink _ _ w1 1 0).
      * apply ln_remove_dest_counts.
      * intros [removed ctx1] w2. destruct removed; [| simpl; auto].
        apply (bind_count_le os _ _ is_unlink _ _ w2 0 0).
        -- rewrite selected_run.
           destruct (selected_answer os (flags ctx1) source_sb path_source
                       path_dest w2) as [rc w3].
           unfold selected_call, count. cbn [snd].
           destruct (Z.testbit (flags ctx1) 2), (S_ISLNK (st_mode source_sb));
             simpl; auto.
        -- intros rc w3. destruct (negb (rc =? 0)); simpl; auto.
  - unfold ln_create_link.
    apply (bind_count_le os _ _ is_link_call _ _ w 0 1).
    + unfold sys_lstat. destruct (os_lstat os path_source w). simpl. auto.
    + intros [source_sb|] w1; [| simpl; auto].
      apply (bind_count_le os _ _ is_link_call _ _ w1 0 1).
      * rewrite (proj2 (ln_remove_dest_counts os ctx source_sb path_dest w1)).
        auto.
      * intros [removed ctx1] w2. destruct removed; [| simpl; auto].
        apply (bind_count_le os _ _ is_link_call _ _ w2 1 0).
        -- rewrite selected_run.
           destruct (selected_answer os (flags ctx1) source_sb path_source
                       path_dest w2) as [rc w3].
           unfold selected_call, count. cbn [snd].
           destruct (Z.testbit (flags ctx1) 2), (S_ISLNK (st_mode source_sb));
             simpl; auto.
        -- intros rc w3. destruct (negb (rc =? 0)); simpl; auto.
Qed.

Lemma ln_target_dir_counts (size_bits : Z) (os : OS) (ctx : ln_ctx)
    (source_file target_dir : string) (w : world os) :
  (count is_unlink
     (snd (ln_target_dir size_bits os ctx source_file target_dir w)) <= 1)%nat /\
  (count is_link_call
     (snd (ln_target_dir size_bits os ctx source_file target_dir w)) <= 1)%nat.
Proof.
  unfold ln_target_dir. split.
  - apply (bind_count_le os _ _ is_unlink _ _ w 0 1).
    + rewrite count_all_false; [auto|].
      apply ln_path_target_concat_trace; reflexivity.
    + intros [path_dest|] w1; [apply ln_create_link_counts | simpl; auto].
  - apply (bind_count_le os _ _ is_link_call _ _ w 0 1).
    + rewrite count_all_false; [auto|].
      apply ln_path_target_concat_trace; reflexivity.
    + intros [path_dest|] w1; [apply ln_create_link_counts | simpl; auto].
Qed.

Lemma ln_target_dir_loop_counts (size_bits : Z) (os : OS)
    (sources : list string) (target_dir : string) :
  forall (ctx : ln_ctx) (w : world os),
    (count is_unlink
       (snd (ln_target_dir_loop size_bits os ctx sources target_dir w))
     <= List.length sources)%nat /\
    (count is_link_call
       (snd (ln_target_dir_loop size_bits os ctx sources target_dir w))
     <= List.length sources)%nat.
Proof.
  induction sources as [|s sources IH]; intros ctx w; [simpl; auto|].
  simpl ln_target_dir_loop.
  change (List.length (s :: sources)) with (1 + List.length sources)%nat.
  split.
  - apply bind_count_le; [apply ln_target_dir_counts | intros; apply IH].
  - apply bind_count_le; [apply ln_target_dir_counts | intros; apply IH].
Qed.

(** X14.  In every run of [ln_main], in any environment, [unlink] is
    called at most once and a creating call ([symlink], [linkat], [link])
    is made at most once for each source operand: neither is counted more
    often than there are operands before the last. *)
Theorem ln_main_counts (size_bits : Z) (os : OS) (ord : ordering)
    (argv : list string)
    (w : world os) :
  (count is_unlink (snd (ln_main size_bits os ord argv w))
   <= List.length (operands_of ord argv) - 1)%nat /\
  (count is_link_call (snd (ln_main size_bits os ord argv w))
   <= List.length (operands_of ord argv) - 1)%nat.
Proof.
  assert (H : forall g, g = is_unlink \/ g = is_link_call ->
            (count g (snd (ln_main size_bits os ord argv w))
             <= List.length (operands_of ord argv) - 1)%nat).
  { intros g Hg.
    assert (Hloop : forall c srcs t (w0 : world os),
              (count g (snd (ln_target_dir_loop size_bits os c srcs t w0))
               <= List.length srcs)%nat)
      by (intros; destruct Hg as [-> | ->]; apply ln_target_dir_loop_counts).
    assert (Hlink : forall c s d (w0 : world os),
              (count g (snd (ln_create_link os c s d w0)) <= 1)%nat)
      by (intros; destruct Hg as [-> | ->]; apply ln_create_link_counts).
    assert (Hcons : forall p r tr, count g (EvStat p r :: tr) = count g tr)
      by (intros; destruct Hg as [-> | ->]; reflexivity).
    assert (Hwarn : forall e f a tr, count g (EvWarn e f a :: tr) = count g tr)
      by (intros; destruct Hg as [-> | ->]; reflexivity).
    rewrite ln_main_run.
    destruct (has_unrecognized_flag ord argv) eqn:Hbad;
      [unfold count; simpl; lia|].
    assert (Hst : status_code (parsed_ctx ord argv) = EXIT_SUCCESS)
      by (rewrite parsed_ctx_status, Hbad; reflexivity).
    destruct (Nat.ltb_spec (List.length (operands_of ord argv)) 2) as [Hfew|Hlen].
    - rewrite ln_main_operands_few by lia. cbn [snd]. rewrite Hwarn.
      unfold count. simpl. lia.
    - destruct (split_last (operands_of ord argv) Hlen)
        as (init & target & Hops & Hinit & _ & _).
      rewrite Hops, ln_main_operands_run by assumption.
      rewrite length_app. simpl List.length.
      destruct (os_stat os target w) as [r w1].
      destruct (is_directory r).
      + specialize (Hloop (parsed_ctx ord argv) init target w1).
        destruct (ln_target_dir_loop size_bits os (parsed_ctx ord argv) init
                    target w1) as [[[c|f] w2] tr];
          cbn [snd] in *; rewrite Hcons; lia.
      + destruct (Nat.leb_spec 2 (List.length init)).
        * cbn [snd]. rewrite Hcons, Hwarn. unfold count. simpl. lia.
        * specialize (Hlink (parsed_ctx ord argv) (nth 0 (init ++ [target]) "")
                        (nth 1 (init ++ [target]) "") w1).
          destruct (ln_create_link os (parsed_ctx ord argv) _ _ w1)
            as [[[c|f] w2] tr]; cbn [snd] in *; rewrite Hcons; lia. }
  split; apply H; auto.
Qed.

Example ln_main_counts_on_batch :
  count is_unlink
    (snd (ln_main 64 fs_os PERMUTE ["ln"; "a"; "dir/x"; "dir"; "-f"]
            (fs_demo ++ [mk_entry "dir/a" sb_b (Some sb_b)])%list)) = 1%nat /\
  count is_link_call
    (snd (ln_main 64 fs_os PERMUTE ["ln"; "a"; "dir/x"; "dir"; "-f"]
            (fs_demo ++ [mk_entry "dir/a" sb_b (Some sb_b)])%list)) = 1%nat.
Proof. split; vm_compute; reflexivity. Qed.

(** ** The test seams *)

Lemma test_seam_dec_err_ctr_negative (ctr : Z) :
  ctr < 0 -> test_seam_dec_err_ctr ctr = (false, ctr).
Proof.
  intros H. unfold test_seam_dec_err_ctr.
  destruct (Z.geb_spec ctr 0); [lia | reflexivity].
Qed.

Lemma dec_err_ctr_calls_negative (n : nat) (ctr : Z) :
  ctr < 0 -> dec_err_ctr_calls n ctr = (repeat false n, ctr).
Proof.
  intros H. induction n as [|n IH]; simpl; [reflexivity|].
  rewrite test_seam_dec_err_ctr_negative, IH by exact H. reflexivity.
Qed.

Lemma map_eqb_zero_seq (n : nat) :
  map (fun i => Nat.eqb i 0) (seq 1 n) = repeat false n.
Proof.
  rewrite <- seq_shift, map_map. simpl.
  induction n as [|n IH]; [reflexivity|].
  rewrite seq_S, map_app, IH. simpl.
  change [false] with (repeat false 1).
  rewrite <- repeat_app. replace (n + 1)%nat with (S n) by lia. reflexivity.
Qed.

Lemma dec_err_ctr_calls_counter (n : nat) :
  forall m : nat,
    dec_err_ctr_calls n (Z.of_nat m) =
      (map (fun i => Nat.eqb i m) (seq 0 n),
       if (n <=? m)%nat then Z.of_nat m - Z.of_nat n else -1).
Proof.
  induction n as [|n IH]; intros m.
  - simpl. f_equal. lia.
  - cbn [dec_err_ctr_calls]. unfold test_seam_dec_err_ctr.
    destruct (Z.geb_spec (Z.of_nat m) 0); [| lia].
    destruct m as [|m].
    + change (Z.of_nat 0 - 1 <? 0) with true. cbv iota.
      change (Z.of_nat 0 - 1) with (-1).
      rewrite dec_err_ctr_calls_negative by lia.
      cbn [seq map Nat.eqb Nat.leb]. rewrite map_eqb_zero_seq. reflexivity.
    + destruct (Z.ltb_spec (Z.of_nat (S m) - 1) 0); [lia|].
      replace (Z.of_nat (S m) - 1) with (Z.of_nat m) by lia.
      rewrite IH. cbn [seq map Nat.eqb Nat.leb].
      rewrite <- seq_shift, map_map. cbn [Nat.eqb].
      destruct (n <=? m)%nat; f_equal; lia.
Qed.

(** X15.  [test_seam_dec_err_ctr] on one counter, called any number of
    times in a row.  From a counter set to [m >= 0], the first [m] calls
    return false, the next one returns true, and every call after it
    returns false: the seam fires once, on call number [m + 1], and the
    counter then rests at -1.  From a negative counter no call ever
    returns true and the counter does not change. *)
Theorem test_seam_dec_err_ctr_fires_once (n m : nat) (ctr : Z) :
  dec_err_ctr_calls n (Z.of_nat m) =
    (map (fun i => Nat.eqb i m) (seq 0 n),
     if (n <=? m)%nat then Z.of_nat m - Z.of_nat n else -1) /\
  (ctr < 0 -> dec_err_ctr_calls n ctr = (repeat false n, ctr)).
Proof.
  split; [apply dec_err_ctr_calls_counter | apply dec_err_ctr_calls_negative].
Qed.

Example dec_err_ctr_calls_two :
  dec_err_ctr_calls 5 2 = ([false; false; true; false; false], -1) /\
  dec_err_ctr_calls 2 2 = ([false; false], 0) /\
  dec_err_ctr_calls 3 (-1) = ([false; false; false], -1).
Proof. repeat split. Qed.

(** X16.  [si_add_size_t] as built with [TEST] defined.  With the counter
    negative (its initial value is -1) it is the function of the
    production build and leaves the counter alone.  With the counter at 0
    it returns false whatever the operands, without writing [*result],
    and the counter becomes -1.  With a positive counter it is the
    function of the production build and the counter goes down by one. *)
Theorem si_add_size_t_seam_builds (size_bits ctr a b result : Z) :
  (ctr < 0 ->
     si_add_size_t_seam size_bits ctr a b result =
       (fst (si_add_size_t size_bits a b), snd (si_add_size_t size_bits a b),
        ctr)) /\
  (ctr = 0 ->
     si_add_size_t_seam size_bits ctr a b result = (false, result, -1)) /\
  (0 < ctr ->
     si_add_size_t_seam size_bits ctr a b result =
       (fst (si_add_size_t size_bits a b), snd (si_add_size_t size_bits a b),
        ctr - 1)).
Proof.
  unfold si_add_size_t_seam, test_seam_dec_err_ctr.
  split; [| split]; intros H.
  - destruct (Z.geb_spec ctr 0); [lia|].
    destruct (si_add_size_t size_bits a b); reflexivity.
  - subst ctr. reflexivity.
  - destruct (Z.geb_spec ctr 0); [| lia].
    destruct (Z.ltb_spec (ctr - 1) 0); [lia|].
    destruct (si_add_size_t size_bits a b); reflexivity.
Qed.

(** The unit tests of test.c (lines 273-277), in both builds. *)
Example si_add_size_t_unit_tests :
  si_add_size_t 64 0 1 = (true, 1) /\
  fst (si_add_size_t 64 (SIZE_MAX 64) 1) = false /\
  si_add_size_t_seam 64 (-1) 0 1 0 = (true, 1, -1) /\
  si_add_size_t_seam 64 (-1) (SIZE_MAX 64) 1 0 = (false, 0, -1).
Proof. repeat split. Qed.

(** ** Where the read outside the string can and cannot happen *)





(** X18.  A run of [ln_main] ends in the read outside the string only
    when the final operand is the empty string and [stat] says of the
    empty path that it is a directory.  Every other run returns an exit
    status. *)
Theorem ln_main_fault_needs_empty_directory (size_bits : Z) (os : OS)
    (ord : ordering)
    (argv : list string) (w w' : world os) (f : fault) (tr : list event) :
  ln_main size_bits os ord argv w = (Fault f, w', tr) ->
  last (operands_of ord argv) "" = "" /\
  is_directory (fst (os_stat os "" w)) = true.
Proof. apply ln_main_fault_only_empty_directory. Qed.

(** "ln a '' -s" where every path, the empty one too, is a directory:
    [-s] is read as an option, the final operand is the empty string, and
    the run ends in the read outside it. *)
Lemma ln_main_fault_needs_empty_directory_witness :
  ln_main 64 fs_os_any_dir PERMUTE ["ln"; "a"; ""; "-s"] fs_demo =
    (Fault (OutOfBoundsRead "" 18446744073709551615), fs_demo,
     [EvStat "" (Some sb_dir); EvStrdup "a" true; EvMalloc 3 true]) /\
  last (operands_of PERMUTE ["ln"; "a"; ""; "-s"]) "" = "" /\
  is_directory (fst (os_stat fs_os_any_dir "" fs_demo)) = true.
Proof.
  assert (Hrun :
    ln_main 64 fs_os_any_dir PERMUTE ["ln"; "a"; ""; "-s"] fs_demo =
      (Fault (OutOfBoundsRead "" 18446744073709551615), fs_demo,
       [EvStat "" (Some sb_dir); EvStrdup "a" true; EvMalloc 3 true]))
    by (vm_compute; reflexivity).
  split; [exact Hrun|].
  exact (ln_main_fault_needs_empty_directory 64 fs_os_any_dir PERMUTE
           ["ln"; "a"; ""; "-s"] fs_demo fs_demo _ _ Hrun).
Defined.

(** ** When [-L] and [-P] make no difference *)

Lemma ln_remove_dest_bit0 (os : OS) (ctx1 ctx2 : ln_ctx) (source_sb : stat_t)
    (path_dest : string) (w : world os) :
  Z.testbit (flags ctx1) 0 = Z.testbit (flags ctx2) 0 ->
  exists (removed : bool) w' tr,
    ln_remove_dest os ctx1 source_sb path_dest w =
      (Ok (removed, if removed then ctx1 else failed ctx1), w', tr) /\
    ln_remove_dest os ctx2 source_sb path_dest w =
      (Ok (removed, if removed then ctx2 else failed ctx2), w', tr).
Proof.
  intros H0. unfold ln_remove_dest. unfold_run.
  rewrite !flag_set_remove_dest, <- H0.
  destruct (os_stat os path_dest w) as [[dest_sb|] w1].
  - destruct (Z.testbit (flags ctx1) 0).
    + destruct (ln_same_file source_sb dest_sb).
      * exists false. do 2 eexists. split; reflexivity.
      * destruct (os_unlink os path_dest w1) as [rc w2].
        destruct (rc =? 0); cbn [negb].
        -- exists true. do 2 eexists. split; reflexivity.
        -- exists false. do 2 eexists. split; reflexivity.
    + exists false. do 2 eexists. split; reflexivity.
  - exists true. do 2 eexists. split; reflexivity.
Qed.

(** X19.  The flag of [-L] is read in one place only: to choose the last
    argument of [linkat] for a source that is a symbolic link when [-s] is
    not given.  With [-s], or on a source that [lstat] does not show as a
    symbolic link, two contexts that differ in that flag alone give the
    same calls with the same answers, the same final world and the same
    status. *)
Theorem ln_create_link_follow_irrelevant (os : OS) (ctx1 ctx2 : ln_ctx)
    (path_source path_dest : string) (w : world os) :
  status_code ctx1 = status_code ctx2 ->
  Z.testbit (flags ctx1) 0 = Z.testbit (flags ctx2) 0 ->
  Z.testbit (flags ctx1) 2 = Z.testbit (flags ctx2) 2 ->
  (Z.testbit (flags ctx1) 2 = true \/
   forall sb, fst (os_lstat os path_source w) = Some sb ->
              S_ISLNK (st_mode sb) = false) ->
  exists r1 r2 w' tr,
    ln_create_link os ctx1 path_source path_dest w = (Ok r1, w', tr) /\
    ln_create_link os ctx2 path_source path_dest w = (Ok r2, w', tr) /\
    status_code r1 = status_code r2.
Proof.
  intros Hst H0 H2 Hcase.
  unfold ln_create_link, bind. unfold sys_lstat.
  destruct (os_lstat os path_source w) as [[source_sb|] w1]; cbn [fst] in Hcase.
  2: { unfold ln_warn. do 4 eexists. split; [reflexivity|].
       split; reflexivity. }
  destruct (ln_remove_dest_bit0 os ctx1 ctx2 source_sb path_dest w1 H0)
    as (removed & w2 & tr1 & Hr1 & Hr2).
  rewrite Hr1, Hr2. destruct removed.
  - rewrite !selected_run.
    assert (Hans : selected_answer os (flags ctx2) source_sb path_source
                     path_dest w2 =
                   selected_answer os (flags ctx1) source_sb path_source
                     path_dest w2).
    { unfold selected_answer. rewrite <- H2.
      destruct Hcase as [Hs|Hn];
        [rewrite Hs | rewrite (Hn source_sb eq_refl)]; reflexivity. }
    assert (Hcall : forall rc,
              selected_call (flags ctx2) source_sb path_source path_dest rc =
              selected_call (flags ctx1) source_sb path_source path_dest rc).
    { intros rc. unfold selected_call. rewrite <- H2.
      destruct Hcase as [Hs|Hn];
        [rewrite Hs | rewrite (Hn source_sb eq_refl)]; reflexivity. }
    rewrite Hans.
    destruct (selected_answer os (flags ctx1) source_sb path_source path_dest w2)
      as [rc w3].
    rewrite Hcall.
    destruct (rc =? 0); cbn [negb]; unfold ln_warn, ret;
      do 4 eexists; (split; [reflexivity|]); split;
      try reflexivity; exact Hst.
  - unfold ret. do 4 eexists. split; [reflexivity|]. split; reflexivity.
Qed.

(** "ln -s a c" with and without [-L]. *)
Lemma ln_create_link_follow_irrelevant_witness :
  exists r1 r2 w' tr,
    ln_create_link fs_os (mk_ln_ctx 0 4) "a" "c" fs_demo = (Ok r1, w', tr) /\
    ln_create_link fs_os (mk_ln_ctx 0 6) "a" "c" fs_demo = (Ok r2, w', tr) /\
    status_code r1 = status_code r2.
Proof.
  apply (ln_create_link_follow_irrelevant fs_os (mk_ln_ctx 0 4) (mk_ln_ctx 0 6)
           "a" "c" fs_demo); try reflexivity.
  left. reflexivity.
Defined.
